(** * MHSCU-Tools: the activity bot of [src/index.js]

    A shallow embedding of the dashboard version of the bot (the second
    program of [src/index.js], the one with [SAVE_INTERVAL], the cooldown
    map and the mute ledger), and the properties of its counter store,
    leaderboard cycle, cooldown tracker, mute ledger and clear action,
    of the start of the process, the status, test and reset endpoints,
    the front of the command handler and the timeout command.

    Conventions of the embedding.
    - Identifiers of users, roles and channels are platform snowflakes:
      decimal strings of unsigned 64-bit numbers.  They are kept as [N];
      [pretty] renders the string where the program concatenates it.
    - Message counts are JavaScript numbers that hold integers; they are
      kept as [Z], which is exact below 2^53.
    - Times are milliseconds, as [Date.now()] gives them, in [Z].
    - Handlers run to completion one after the other: what another handler
      does while this one awaits a platform call is not represented.
    - Calls into the platform library and the file system are the
      primitives.  Whether such a call throws, and how long it takes, is
      read from an environment [Env]; every call is logged in the state.
    - The process serves one guild.  A command is followed from its
      permission check on, a request to the dashboard from the moment
      [requireAuth] has let it in.  The reply to the author is the value
      the handler returns; a reply that the handler waits for is a call
      as well, since its failure is caught.  The record for the audit
      channel ([logAction]) is followed for the clear and mute commands;
      the unmute command is followed to its reply. *)

From Stdlib Require Import ZArith QArith Ascii String List Bool Lia Sorting.Sorted.
From stdpp Require Import base option list gmap strings pretty.

Local Open Scope Z_scope.

(** ** The language level: objects, arrays, numbers *)

Module Js.

(** [Array.prototype.sort(cmp)].  The language fixes the result for a
    consistent comparator: ordered for [cmp], and stable.  Insertion from
    the right computes it: an element goes in front of the first one that
    must not precede it. *)
Fixpoint sort_insert {A} (cmp : A -> A -> Z) (x : A) (l : list A) : list A :=
  match l with
  | [] => [x]
  | y :: l' => if cmp x y <=? 0 then x :: y :: l' else y :: sort_insert cmp x l'
  end.

Fixpoint Array_sort {A} (cmp : A -> A -> Z) (l : list A) : list A :=
  match l with
  | [] => []
  | x :: l' => sort_insert cmp x (Array_sort cmp l')
  end.

(** [arr.slice(0, n)] and [arr.slice(n)] *)
Definition slice_to {A} (n : nat) (l : list A) : list A := firstn n l.
Definition slice_from {A} (n : nat) (l : list A) : list A := skipn n l.

(** An ordinary object whose property names are snowflakes and whose
    values are integers: the own properties in creation order. *)
Definition Object := list (N * Z).

(** [o[k]]; [None] is [undefined].  A snowflake names no property of
    [Object.prototype], so only own properties are found. *)
Fixpoint get (o : Object) (k : N) : option Z :=
  match o with
  | [] => None
  | (k', v) :: o' => if (k' =? k)%N then Some v else get o' k
  end.

(** [o[k] = v]: an existing property keeps its place, a new one is
    created last. *)
Fixpoint set (o : Object) (k : N) (v : Z) : Object :=
  match o with
  | [] => [(k, v)]
  | (k', v') :: o' => if (k' =? k)%N then (k', v) :: o' else (k', v') :: set o' k v
  end.

(** A property name is an array index when it is the canonical decimal
    string of an integer below 2^32 - 1. *)
Definition is_array_index (k : N) : bool := (k <? 2 ^ 32 - 1)%N.

(** [Object.entries(o)]: the array indices in ascending order, then the
    other names in creation order. *)
Definition Object_entries (o : Object) : list (N * Z) :=
  Array_sort (fun a b => Z.of_N a.1 - Z.of_N b.1)
             (List.filter (fun e => is_array_index e.1) o)
  ++ List.filter (fun e => negb (is_array_index e.1)) o.

Definition Object_values (o : Object) : list Z := map snd (Object_entries o).
Definition Object_keys (o : Object) : list N := map fst (Object_entries o).

(** [!x] for [x = o[k]]: true on [undefined] and on [0]. *)
Definition falsy (x : option Z) : bool :=
  match x with
  | None => true
  | Some v => v =? 0
  end.

(** Numbers as far as the program compares them: a rational (every
    finite double is one), an infinity, or NaN. *)
Inductive Number :=
| NaN
| Fin (q : Q)
| Inf (negative : bool).

(** [a < b] on numbers: false as soon as one side is NaN. *)
Definition lt (a b : Number) : bool :=
  match a, b with
  | NaN, _ | _, NaN => false
  | Fin x, Fin y => match (x ?= y)%Q with Lt => true | _ => false end
  | Fin _, Inf neg => negb neg
  | Inf neg, Fin _ => neg
  | Inf n1, Inf n2 => n1 && negb n2
  end.

Definition of_Z (z : Z) : Number := Fin (inject_Z z).

(** The values a JSON body can hold in a scalar field, and [undefined]
    for a field that is missing. *)
Inductive Value :=
| Undefined
| Null
| Boolean (b : bool)
| Num (n : Number)
| Str (s : string).

Section Conversions.
(** The conversion of a string to a number ([StringToNumber]) belongs
    to the language, and is approximated by the implementation for long
    literals: it is a parameter here. *)
Variable StringToNumber : string -> Number.

Definition ToNumber (v : Value) : Number :=
  match v with
  | Undefined => NaN
  | Null => of_Z 0
  | Boolean b => of_Z (if b then 1 else 0)
  | Num n => n
  | Str s => StringToNumber s
  end.

(** [v < n] and [v > n] for a number [n]: [v] is converted first. *)
Definition lt_num (v : Value) (n : Z) : bool := lt (ToNumber v) (of_Z n).
Definition gt_num (v : Value) (n : Z) : bool := lt (of_Z n) (ToNumber v).
End Conversions.

(** [parseInt(s)] without a radix, on strings of code units below 256;
    [None] is NaN.  The digits denote an integer, and the result is the
    number value of it, [to_double] below.  (For a decimal numeral of more
    than 20 significant digits the language lets an implementation read
    the later digits as zeros; the integer is taken as written here.) *)
Definition is_white_space (c : ascii) : bool :=
  let n := nat_of_ascii c in
  ((9 <=? n) && (n <=? 13) || (n =? 32) || (n =? 160))%nat.

Fixpoint skip_white_space (s : string) : string :=
  match s with
  | String c s' => if is_white_space c then skip_white_space s' else s
  | EmptyString => s
  end.

Definition digit_of (radix : Z) (c : ascii) : option Z :=
  let n := Z.of_nat (nat_of_ascii c) in
  let d := if (48 <=? n) && (n <=? 57) then n - 48
           else if (97 <=? n) && (n <=? 122) then n - 87
           else if (65 <=? n) && (n <=? 90) then n - 55
           else radix in
  if d <? radix then Some d else None.

(** The digits at the front of [s]; [acc] is [None] until one is read. *)
Fixpoint read_digits (radix : Z) (s : string) (acc : option Z) : option Z :=
  match s with
  | String c s' =>
      match digit_of radix c with
      | Some d => read_digits radix s' (Some (default 0 acc * radix + d))
      | None => acc
      end
  | EmptyString => acc
  end.

(** The number value of an integer: the double nearest to it, ties to
    even.  An integer below 2^53 is a double.  An integer that rounds
    beyond the largest double becomes an infinity, for which 2^1024 with
    the sign stands: no double is that large. *)
Definition to_double (n : Z) : Z :=
  let a := Z.abs n in
  if a <? 2 ^ 53 then n
  else
    let e := Z.log2 a - 52 in
    let q := Z.shiftr a e in
    let r := a - Z.shiftl q e in
    let half := Z.shiftl 1 (e - 1) in
    let q' := if (r <? half) || (r =? half) && Z.even q then q else q + 1 in
    Z.sgn n * Z.min (Z.shiftl q' e) (2 ^ 1024).

Definition parseInt (s : string) : option Z :=
  let s1 := skip_white_space s in
  let '(sign, s2) :=
    match s1 with
    | String "-" r => (-1, r)
    | String "+" r => (1, r)
    | _ => (1, s1)
    end in
  let '(radix, s3) :=
    match s2 with
    | String "0" (String "x" r) | String "0" (String "X" r) => (16, r)
    | _ => (10, s2)
    end in
  (fun n => to_double (sign * n)) <$> read_digits radix s3 None.

(** [parseInt(args[i])] for an argument that may be missing:
    [undefined] is first turned into a string. *)
Definition parseInt_arg (a : option string) : option Z :=
  parseInt (default "undefined"%string a).

End Js.

(** ** The platform, the file system and the process state *)

(** What the leaderboard channel receives. *)
Inductive Message :=
| NoActivityNotice
    (* "No messages recorded this week!" *)
| Announcement (mentions : list N) (top3 next7 : list (N * Z)) (total : Z)
    (* the mention line, the two blocks of the embed and the total *)
| MutedRoleNotice
    (* "Created `Muted` role with proper permissions." *)
| AuditRecord (title : string).
    (* the embed that [logAction] is given, by its title *)

(** The calls into the platform library and the file system. *)
Inductive Call :=
| channels_fetch (id : N)
| channel_send (channel : N) (m : Message)
| channel_bulkDelete (channel : N) (amount : Js.Value)
| permissionOverwrites_edit (channel role : N)
| roles_fetch (id : N)
| roles_create (name : string)
| members_fetch (id : N)
| member_roles_add (member role : N)
| member_roles_remove (member role : N)
| member_roles_set (member : N) (roles : list N)
| fs_writeFileSync (content : Js.Object)
| message_reply (channel : N)
    (* [await msg.reply(...)]: a reply whose delivery the handler waits for *)
| embed_addFields (title : string).
    (* [new EmbedBuilder()...addFields(...)] with a field of free text: the
       library checks the fields and throws on one that does not fit *)

Record Role := { role_id : N; role_name : string }.

(** What a run of a handler cannot decide by itself. *)
Record Env := {
  CHANNEL_ID : N;               (* process.env.LEADERBOARD_CHANNEL_ID *)
  WINNER_ROLE_ID : N;           (* process.env.WINNER_ROLE_ID *)
  LOGS_CHANNEL_ID : option N;   (* process.env.LOGS_CHANNEL_ID, when it is set *)
  throws : Call -> bool;        (* the calls that fail *)
  truncates : Call -> bool;     (* the writes that fail once the file is open *)
  latency : Call -> Z;          (* the time a call takes *)
  created_role_id : N;          (* the id given to a role created now *)
}.

Record State := {
  (* the variables of the process *)
  leaderboard : Js.Object;
  lastSave : Z;
  cooldowns : gmap string Z;
  mutedUserRoles : gmap N (list N);
  (* the world around it *)
  clock : Z;                          (* what Date.now() reads *)
  data_file : option Js.Object;       (* the tally ./leaderboard.json holds, if any *)
  guild_id : N;                       (* also the id of the everyone role *)
  guild_roles : list Role;            (* guild.roles.cache *)
  member_roles : gmap N (list N);     (* per member, its roles, everyone aside *)
  channels : list N;                  (* the channels that exist *)
  trace : list (Call * bool);         (* the calls made, with whether they completed *)
}.

Definition with_leaderboard (v : Js.Object) (s : State) : State :=
  {| leaderboard := v; lastSave := lastSave s; cooldowns := cooldowns s;
     mutedUserRoles := mutedUserRoles s; clock := clock s; data_file := data_file s;
     guild_id := guild_id s; guild_roles := guild_roles s;
     member_roles := member_roles s; channels := channels s; trace := trace s |}.

Definition with_lastSave (v : Z) (s : State) : State :=
  {| leaderboard := leaderboard s; lastSave := v; cooldowns := cooldowns s;
     mutedUserRoles := mutedUserRoles s; clock := clock s; data_file := data_file s;
     guild_id := guild_id s; guild_roles := guild_roles s;
     member_roles := member_roles s; channels := channels s; trace := trace s |}.

Definition with_cooldowns (v : gmap string Z) (s : State) : State :=
  {| leaderboard := leaderboard s; lastSave := lastSave s; cooldowns := v;
     mutedUserRoles := mutedUserRoles s; clock := clock s; data_file := data_file s;
     guild_id := guild_id s; guild_roles := guild_roles s;
     member_roles := member_roles s; channels := channels s; trace := trace s |}.

Definition with_mutedUserRoles (v : gmap N (list N)) (s : State) : State :=
  {| leaderboard := leaderboard s; lastSave := lastSave s; cooldowns := cooldowns s;
     mutedUserRoles := v; clock := clock s; data_file := data_file s;
     guild_id := guild_id s; guild_roles := guild_roles s;
     member_roles := member_roles s; channels := channels s; trace := trace s |}.

Definition with_data_file (v : option Js.Object) (s : State) : State :=
  {| leaderboard := leaderboard s; lastSave := lastSave s; cooldowns := cooldowns s;
     mutedUserRoles := mutedUserRoles s; clock := clock s; data_file := v;
     guild_id := guild_id s; guild_roles := guild_roles s;
     member_roles := member_roles s; channels := channels s; trace := trace s |}.

Definition with_guild_roles (v : list Role) (s : State) : State :=
  {| leaderboard := leaderboard s; lastSave := lastSave s; cooldowns := cooldowns s;
     mutedUserRoles := mutedUserRoles s; clock := clock s; data_file := data_file s;
     guild_id := guild_id s; guild_roles := v;
     member_roles := member_roles s; channels := channels s; trace := trace s |}.

Definition with_member_roles (v : gmap N (list N)) (s : State) : State :=
  {| leaderboard := leaderboard s; lastSave := lastSave s; cooldowns := cooldowns s;
     mutedUserRoles := mutedUserRoles s; clock := clock s; data_file := data_file s;
     guild_id := guild_id s; guild_roles := guild_roles s;
     member_roles := v; channels := channels s; trace := trace s |}.

(** A call is logged and takes its time, whether it completes or not. *)
Definition logged (c : Call) (completed : bool) (dt : Z) (s : State) : State :=
  {| leaderboard := leaderboard s; lastSave := lastSave s; cooldowns := cooldowns s;
     mutedUserRoles := mutedUserRoles s; clock := clock s + dt; data_file := data_file s;
     guild_id := guild_id s; guild_roles := guild_roles s;
     member_roles := member_roles s; channels := channels s;
     trace := trace s ++ [(c, completed)] |}.

(** Time passing between two handlers. *)
Definition tick (dt : Z) (s : State) : State :=
  {| leaderboard := leaderboard s; lastSave := lastSave s; cooldowns := cooldowns s;
     mutedUserRoles := mutedUserRoles s; clock := clock s + dt; data_file := data_file s;
     guild_id := guild_id s; guild_roles := guild_roles s;
     member_roles := member_roles s; channels := channels s; trace := trace s |}.

(** ** Handlers: state, environment and exceptions *)

Inductive Error :=
| PlatformError (c : Call)        (* thrown by a call *)
| AppError (message : string).    (* [throw new Error(message)] *)

Inductive Completion (A : Type) :=
| Normal (a : A)
| Thrown (e : Error).
Arguments Normal {A} a.
Arguments Thrown {A} e.

Definition M (A : Type) : Type := Env -> State -> Completion A * State.

#[export] Instance M_ret : MRet M := fun A a _ s => (Normal a, s).
#[export] Instance M_bind : MBind M := fun A B f m env s =>
  match m env s with
  | (Normal a, s') => f a env s'
  | (Thrown e, s') => (Thrown e, s')
  end.

Definition throw {A} (e : Error) : M A := fun _ s => (Thrown e, s).

(** [try { body } catch (err) { handler }] *)
Definition try_catch {A} (body : M A) (handler : Error -> M A) : M A := fun env s =>
  match body env s with
  | (Normal a, s') => (Normal a, s')
  | (Thrown e, s') => handler e env s'
  end.

Definition gets {A} (f : State -> A) : M A := fun _ s => (Normal (f s), s).
Definition asks {A} (f : Env -> A) : M A := fun env s => (Normal (f env), s).
Definition modify (f : State -> State) : M unit := fun _ s => (Normal tt, f s).

(** A call: it throws when the environment says so. *)
Definition perform (c : Call) : M unit := fun env s =>
  if throws env c then (Thrown (PlatformError c), logged c false (latency env c) s)
  else (Normal tt, logged c true (latency env c) s).

(** A call whose promise is dropped: its failure reaches no handler. *)
Definition fire (c : Call) : M unit := try_catch (perform c) (fun _ => mret tt).

(** [for (const x of l) body(x)] *)
Fixpoint for_of {A} (l : list A) (body : A -> M unit) : M unit :=
  match l with
  | [] => mret tt
  | x :: l' => body x;; for_of l' body
  end.

Definition Date_now : M Z := gets clock.

(** The state a handler leaves, and how it completes. *)
Definition exec {A} (m : M A) (env : Env) (s : State) : State := (m env s).2.
Definition result {A} (m : M A) (env : Env) (s : State) : Completion A := (m env s).1.


(** ** The platform library, as far as the program calls it *)

(** [client.channels.fetch(id)]: the channel, or [null]. *)
Definition client_channels_fetch (id : N) : M (option N) :=
  perform (channels_fetch id);;
  gets (fun s => if bool_decide (id ∈ channels s) then Some id else None).

Definition find_role (p : Role -> bool) (s : State) : option Role :=
  List.find p (guild_roles s).

(** [guild.roles.fetch(id)] *)
Definition guild_roles_fetch (id : N) : M (option Role) :=
  perform (roles_fetch id);;
  gets (find_role (fun r => (role_id r =? id)%N)).

(** [guild.roles.cache.find(r => r.name === name)] and
    [guild.roles.cache.get(id)]: no call is made. *)
Definition guild_roles_cache_find (name : string) : M (option Role) :=
  gets (find_role (fun r => bool_decide (role_name r = name))).

Definition guild_roles_cache_get (id : N) (s : State) : option Role :=
  find_role (fun r => (role_id r =? id)%N) s.

(** [guild.roles.create({ name, ... })] *)
Definition guild_roles_create (name : string) : M Role :=
  perform (roles_create name);;
  id ← asks created_role_id;
  let r := {| role_id := id; role_name := name |} in
  modify (fun s => with_guild_roles (guild_roles s ++ [r]) s);;
  mret r.

(** [guild.members.fetch(id)]: the member, or [null]. *)
Definition guild_members_fetch (id : N) : M (option N) :=
  perform (members_fetch id);;
  gets (fun s => match member_roles s !! id with Some _ => Some id | None => None end).

(** The ids in [member.roles.cache]: the member's roles and the everyone
    role, whose id is the guild's. *)
Definition member_roles_cache (member : N) (s : State) : list N :=
  default [] (member_roles s !! member) ++ [guild_id s].

(** [role.members]: the members that hold the role. *)
Definition role_members (role : N) (s : State) : list N :=
  (map_to_list (filter (fun kv => role ∈ kv.2) (member_roles s))).*1.

(** A list of roles without one of them. *)
Definition without (role : N) (rs : list N) : list N :=
  List.filter (fun r => negb (r =? role)%N) rs.

Definition set_roles_of (member : N) (f : list N -> list N) (s : State) : State :=
  with_member_roles (alter f member (member_roles s)) s.

(** [member.roles.remove(role)], [member.roles.add(role)] and
    [member.roles.set(roles)] *)
Definition roles_remove (member role : N) : M unit :=
  perform (member_roles_remove member role);;
  modify (set_roles_of member (without role)).

Definition roles_add (member role : N) : M unit :=
  perform (member_roles_add member role);;
  modify (set_roles_of member (fun rs => if bool_decide (role ∈ rs) then rs else rs ++ [role])).

Definition roles_set (member : N) (roles : list N) : M unit :=
  perform (member_roles_set member roles);;
  gid ← gets guild_id;
  modify (set_roles_of member (fun _ => without gid roles)).

(** [channel.send(m)] *)
Definition channel_send_msg (channel : N) (m : Message) : M unit :=
  perform (channel_send channel m).

(** ** Data management (lines 295-324) *)

Definition SAVE_INTERVAL : Z := 30000.
Definition COOLDOWN_TIME : Z := 3000.

(** [fs.writeFileSync(DATA_FILE, JSON.stringify(leaderboard, null, 2))]:
    after a write that completes the file holds the object that was
    serialised.  The call opens the file for writing, which empties it,
    and then writes: a write that throws before the file is open leaves
    the file as it was, one that throws later leaves it empty or cut
    short, a text that holds no tally ([None]; the process starts with the
    empty tally from such a file as it does without a file).  Which of
    the two it is, is read from the environment. *)
Definition write_data_file (content : Js.Object) : M unit := fun env s =>
  let c := fs_writeFileSync content in
  let s1 := logged c (negb (throws env c)) (latency env c) s in
  if throws env c
  then (Thrown (PlatformError c), if truncates env c then with_data_file None s1 else s1)
  else (Normal tt, with_data_file (Some content) s1).

(** [console.error] and [console.log] change nothing that is modelled. *)
Definition console_error : M unit := mret tt.

Definition saveData (force : bool) : M unit :=
  now ← Date_now;
  last ← gets lastSave;
  if negb force && (now - last <? SAVE_INTERVAL) then mret tt
  else
    try_catch
      (lb ← gets leaderboard;
       write_data_file lb;;
       now' ← Date_now;
       modify (with_lastSave now'))
      (fun _ => console_error).

(** ** Message counting (lines 817-822) *)

(** The two statements that count a message of user [id], and the save
    that follows them.  When the increment runs the entry is there: the
    statement before it has seen to that. *)
Definition recordActivity (id : N) : M unit :=
  lb ← gets leaderboard;
  let lb1 := if Js.falsy (Js.get lb id) then Js.set lb id 0 else lb in
  let lb2 := match Js.get lb1 id with
             | Some v => Js.set lb1 id (v + 1)
             | None => lb1
             end in
  modify (with_leaderboard lb2);;
  saveData false.

Definition on_messageCreate (author_id : N) (author_bot : bool) : M unit :=
  if author_bot then mret tt else recordActivity author_id.

(** ** The leaderboard cycle (lines 689-785) *)

Definition removeWinnerRole : M unit :=
  try_catch
    (winner_role ← asks WINNER_ROLE_ID;
     role ← guild_roles_fetch winner_role;
     match role with
     | None => console_error
     | Some r =>
         holders ← gets (role_members (role_id r));
         for_of holders (fun member =>
           try_catch (roles_remove member winner_role) (fun _ => console_error))
     end)
    (fun _ => console_error).

Definition giveWinnerRole (winnerId : N) : M unit :=
  try_catch
    (winner_role ← asks WINNER_ROLE_ID;
     member ← guild_members_fetch winnerId;
     match member with
     | None => mret tt
     | Some m => roles_add m winner_role
     end)
    (fun _ => console_error).

(** [Object.entries(leaderboard).sort((a, b) => b[1] - a[1]).slice(0, 10)] *)
Definition by_count_desc (a b : N * Z) : Z := b.2 - a.2.

Definition ranked (lb : Js.Object) : list (N * Z) :=
  Js.slice_to 10 (Js.Array_sort by_count_desc (Js.Object_entries lb)).

(** [Object.values(leaderboard).reduce((a, b) => a + b, 0)] *)
Definition totalMessages (lb : Js.Object) : Z :=
  fold_left Z.add (Js.Object_values lb) 0.

Definition sendLeaderboard : M unit :=
  try_catch
    (channel_id ← asks CHANNEL_ID;
     channel ← client_channels_fetch channel_id;
     match channel with
     | None => console_error
     | Some ch =>
         removeWinnerRole;;
         lb ← gets leaderboard;
         let sorted := ranked lb in
         if (length sorted =? 0)%nat then channel_send_msg ch NoActivityNotice
         else
           let top3 := Js.slice_to 3 sorted in
           let next7 := Js.slice_from 3 sorted in
           let top3Winners := Js.slice_to 3 sorted in
           channel_send_msg ch
             (Announcement (map fst top3Winners) top3 next7 (totalMessages lb));;
           match sorted with
           | first :: _ => giveWinnerRole first.1
           | [] => mret tt
           end;;
           modify (with_leaderboard []);;
           saveData true
     end)
    (fun _ => console_error).

(** ** The audit channel (lines 787-798) *)

(** [logAction(embed)].  Its callers do not wait for it; it catches what
    it throws, and the calls it makes are taken as made before the next
    handler runs. *)
Definition logAction (embed : Message) : M unit :=
  try_catch
    (logs ← asks LOGS_CHANNEL_ID;
     match logs with
     | None => mret tt
     | Some id =>
         logsChannel ← client_channels_fetch id;
         match logsChannel with
         | None => mret tt
         | Some ch => channel_send_msg ch embed
         end
     end)
    (fun _ => console_error).

(** ** The cooldown tracker (lines 800-814) *)

(** The key [`${userId}-${commandName}`]. *)
Definition cooldown_key (userId : N) (commandName : string) : string :=
  pretty userId +:+ "-" +:+ commandName.

(** [checkCooldown] returns [false] ([None] here) or the seconds left. *)
Definition checkCooldown (userId : N) (commandName : string) : M (option Q) :=
  let key := cooldown_key userId commandName in
  now ← Date_now;
  entry ← gets (fun s => cooldowns s !! key);
  let timeLeft :=
    match entry with
    | Some stamp =>
        let expirationTime := stamp + COOLDOWN_TIME in
        if now <? expirationTime
        then Some (inject_Z (expirationTime - now) / inject_Z 1000)%Q
        else None
    | None => None
    end in
  match timeLeft with
  | Some t => mret (Some t)
  | None =>
      modify (fun s => with_cooldowns (<[key := now]> (cooldowns s)) s);;
      mret None
  end.

(** ** Mute and unmute (lines 562-643 and 1037-1155) *)

(** What the author of a command is told. *)
Inductive Reply :=
| NeedPermission
| NoMention
| AlreadyMuted
| CannotCreateMutedRole
| Muted (roles_removed : nat)
| MuteFailed
| NoMutedRole
| NotMutedHere
| Unmuted (roles_restored : nat)
| UnmuteFailed
| BadAmount
| Deleted (amount : Z)
| ClearFailed.

(** What a request to the dashboard is answered: success, or status 500
    with the message of the error. *)
Inductive Response :=
| Success (count : option nat)
| Failure (e : Error).

(** The denials of the restricted role, channel by channel; a channel
    that refuses is logged and skipped. *)
Definition deny_in_all_channels (role : N) : M unit :=
  chans ← gets channels;
  for_of chans (fun ch =>
    try_catch (perform (permissionOverwrites_edit ch role)) (fun _ => console_error)).

(** The role ids of the member, the everyone role aside. *)
Definition roles_but_everyone (member : N) (s : State) : list N :=
  without (guild_id s) (member_roles_cache member s).

Definition ledger_set (user : N) (roles : list N) : M unit :=
  modify (fun s => with_mutedUserRoles (<[user := roles]> (mutedUserRoles s)) s).

Definition ledger_delete (user : N) : M unit :=
  modify (fun s => with_mutedUserRoles (delete user (mutedUserRoles s)) s).

(** The [mute] command, from the permission check on.  [mention] is
    [msg.mentions.members.first()], [here] the channel of the message.
    The [try] goes on after the change of roles: the reply is sent, not
    waited for, and the record for the audit channel is built with the
    reason, the free text after the mention, in one of its fields.  The
    library throws on a field that does not fit (more than 1024
    characters), and that lands in the [catch] like a refused change of
    roles: the entry is deleted and the answer is that the mute failed,
    after the reply that it succeeded. *)
Definition mute_command (can_moderate : bool) (mention : option N) (here : N) : M Reply :=
  if negb can_moderate then mret NeedPermission else
  match mention with
  | None => mret NoMention
  | Some member =>
      ledger ← gets mutedUserRoles;
      if bool_decide (is_Some (ledger !! member)) then mret AlreadyMuted else
      found ← guild_roles_cache_find "Muted";
      role ← match found with
              | Some r => mret (Some r)
              | None =>
                  try_catch
                    (r ← guild_roles_create "Muted";
                     deny_in_all_channels (role_id r);;
                     fire (channel_send here MutedRoleNotice);;
                     mret (Some r))
                    (fun _ => mret None)
              end;
      match role with
      | None => mret CannotCreateMutedRole
      | Some muteRole =>
          try_catch
            (userRoles ← gets (roles_but_everyone member);
             ledger_set member userRoles;;
             roles_set member [role_id muteRole];;
             perform (embed_addFields "User Muted");;
             logAction (AuditRecord "User Muted");;
             mret (Muted (length userRoles)))
            (fun _ => ledger_delete member;; mret MuteFailed)
      end
  end.

(** [POST /api/moderation/mute], once [requireAuth] has let it in. *)
Definition api_mute (userId : N) : M Response :=
  try_catch
    (member ← guild_members_fetch userId;
     match member with
     | None => throw (AppError "Member not found")
     | Some m =>
         ledger ← gets mutedUserRoles;
         if bool_decide (is_Some (ledger !! userId))
         then throw (AppError "User is already muted") else
         found ← guild_roles_cache_find "Muted";
         muteRole ← match found with
                     | Some r => mret r
                     | None =>
                         r ← guild_roles_create "Muted";
                         deny_in_all_channels (role_id r);;
                         mret r
                     end;
         userRoles ← gets (roles_but_everyone m);
         ledger_set userId userRoles;;
         roles_set m [role_id muteRole];;
         mret (Success (Some (length userRoles)))
     end)
    (fun e => mret (Failure e)).

(** The filter of both unmute paths: a stored id is kept when the guild
    still has the role and the role is not the restricted one. *)
Definition validRoles (muteRole : option Role) (storedRoles : list N) (s : State) : list N :=
  List.filter
    (fun roleId =>
       match guild_roles_cache_get roleId s with
       | None => false
       | Some role =>
           match muteRole with
           | None => true
           | Some mr => negb (role_id role =? role_id mr)%N
           end
       end)
    storedRoles.

(** The [unmute] command, from the permission check on. *)
Definition unmute_command (can_moderate : bool) (mention : option N) : M Reply :=
  if negb can_moderate then mret NeedPermission else
  match mention with
  | None => mret NoMention
  | Some member =>
      found ← guild_roles_cache_find "Muted";
      match found with
      | None => mret NoMutedRole
      | Some muteRole =>
          stored ← gets (fun s => mutedUserRoles s !! member);
          match stored with
          | None => mret NotMutedHere
          | Some storedRoles =>
              try_catch
                (valid ← gets (validRoles (Some muteRole) storedRoles);
                 roles_set member valid;;
                 ledger_delete member;;
                 mret (Unmuted (length valid)))
                (fun _ => mret UnmuteFailed)
          end
      end
  end.

(** [POST /api/moderation/unmute], once [requireAuth] has let it in. *)
Definition api_unmute (userId : N) : M Response :=
  try_catch
    (member ← guild_members_fetch userId;
     match member with
     | None => throw (AppError "Member not found")
     | Some m =>
         stored ← gets (fun s => mutedUserRoles s !! userId);
         match stored with
         | None => throw (AppError "User wasn't muted with role storage system")
         | Some storedRoles =>
             muteRole ← guild_roles_cache_find "Muted";
             valid ← gets (validRoles muteRole storedRoles);
             roles_set m valid;;
             ledger_delete userId;;
             mret (Success (Some (length valid)))
         end
     end)
    (fun e => mret (Failure e)).

(** ** Clear (lines 645-662 and 1157-1185) *)

(** The [clear] command, from the permission check on.  [args] are the
    words after the command name, [here] is the channel of the message.
    The handler waits for the reply that confirms the deletion: a reply
    that is not delivered ends in the [catch], which answers that the
    deletion failed.  The fields of the record for the audit channel are
    the name of the channel, the amount and the tag of the author, which
    fit; the timer that deletes the confirmation three seconds later is
    not part of the handler. *)
Definition clear_command (can_manage : bool) (args : list string) (here : N) : M Reply :=
  if negb can_manage then mret NeedPermission else
  match Js.parseInt_arg (head args) with
  | None => mret BadAmount
  | Some amount =>
      if (amount <? 1) || (100 <? amount) then mret BadAmount
      else
        try_catch
          (perform (channel_bulkDelete here (Js.Num (Js.of_Z amount)));;
           perform (message_reply here);;
           logAction (AuditRecord "Messages Cleared");;
           mret (Deleted amount))
          (fun _ => mret ClearFailed)
  end.

(** [POST /api/moderation/clear], once [requireAuth] has let it in;
    [amount] is the field of the body as it came. *)
Definition api_clear (StringToNumber : string -> Js.Number)
    (channelId : N) (amount : Js.Value) : M Response :=
  try_catch
    (channel ← client_channels_fetch channelId;
     match channel with
     | None => throw (AppError "Channel not found")
     | Some ch =>
         if Js.lt_num StringToNumber amount 1 || Js.gt_num StringToNumber amount 100
         then throw (AppError "Amount must be between 1 and 100")
         else
           perform (channel_bulkDelete ch amount);;
           mret (Success None)
     end)
    (fun e => mret (Failure e)).

(** ** Start of the process (lines 304-314) *)

(** [JSON.parse(JSON.stringify(o, null, 2))]: the text lists the
    properties in the order of [Object.entries], and parsing creates them
    in the order of the text. *)
Definition JSON_reparsed (o : Js.Object) : Js.Object := Js.Object_entries o.

(** The tally the process starts with.  A file that holds a tally is
    one [saveData] has written; [readable] says whether reading and parsing
    it go through, an error being caught and answered by the empty tally.
    Without a file, and with a file that a failed write has left empty or
    cut short ([None]), the process starts with the empty tally: an empty
    text is taken for [{}], and a text cut short does not parse. *)
Definition load_leaderboard (readable : bool) (file : option Js.Object) : Js.Object :=
  match file with
  | None => []
  | Some o => if readable then JSON_reparsed o else []
  end.

(** ** The dashboard: status, test and reset (lines 365-424) *)

(** The three numbers of [GET /api/status] that come from the process:
    [Object.keys(leaderboard).length], the sum of the counts and
    [mutedUserRoles.size]. *)
Record Status := { users : nat; messages : Z; mutedUsers : nat }.

Definition api_status (s : State) : Status :=
  {| users := length (Js.Object_keys (leaderboard s));
     messages := totalMessages (leaderboard s);
     mutedUsers := size (mutedUserRoles s) |}.

(** [POST /api/test-leaderboard], once [requireAuth] has let it in. *)
Definition api_test_leaderboard : M Response :=
  try_catch (sendLeaderboard;; mret (Success None)) (fun e => mret (Failure e)).

(** [POST /api/reset-leaderboard], once [requireAuth] has let it in. *)
Definition api_reset_leaderboard : M Response :=
  try_catch
    (modify (with_leaderboard []);;
     saveData true;;
     mret (Success None))
    (fun e => mret (Failure e)).

(** The [testlb] command (lines 840-846): a refusal, or the cycle and a
    reaction to the message. *)
Definition testlb_command (is_admin : bool) : M (option Reply) :=
  if negb is_admin then mret (Some NeedPermission)
  else sendLeaderboard;; mret None.

(** ** The front of the command handler (lines 825-836) *)

Definition PREFIX : string := "!".

(** [s.trim()], on strings of code units below 256. *)
Fixpoint trimEnd (s : string) : string :=
  match s with
  | EmptyString => EmptyString
  | String c s' =>
      match trimEnd s' with
      | EmptyString => if Js.is_white_space c then EmptyString else String c EmptyString
      | t => String c t
      end
  end.

Definition trim (s : string) : string := trimEnd (Js.skip_white_space s).

Definition is_space (c : ascii) : bool := Ascii.eqb c " ".

(** [s.split(/ +/)]: the pieces between the runs of spaces.  A run at the
    front or at the end leaves an empty piece there. *)
Fixpoint split_spaces (s : string) : list string :=
  match s with
  | EmptyString => [EmptyString]
  | String c s' =>
      if is_space c then
        match s' with
        | String c' _ => if is_space c' then split_spaces s' else EmptyString :: split_spaces s'
        | EmptyString => EmptyString :: split_spaces s'
        end
      else
        match split_spaces s' with
        | t :: ts => String c t :: ts
        | [] => [String c EmptyString]
        end
  end.

(** [s.toLowerCase()], on code units below 256: the letters A to Z, and
    the capital letters of Latin-1. *)
Definition lower_char (c : ascii) : ascii :=
  let n := nat_of_ascii c in
  if ((65 <=? n) && (n <=? 90) || (192 <=? n) && (n <=? 222) && negb (n =? 215))%nat
  then ascii_of_nat (n + 32) else c.

Fixpoint toLowerCase (s : string) : string :=
  match s with
  | EmptyString => EmptyString
  | String c s' => String (lower_char c) (toLowerCase s')
  end.

(** [s.slice(n)] *)
Fixpoint slice (n : nat) (s : string) : string :=
  match n, s with
  | S n', String _ s' => slice n' s'
  | _, _ => s
  end.

(** What the handler does with a message before it looks at the command:
    nothing, an answer to wait, or the command and its arguments. *)
Inductive Routed :=
| Ignored
| Waiting (timeLeft : Q)
| Dispatched (command : string) (args : list string).

Definition route (author_id : N) (author_bot : bool) (content : string) : M Routed :=
  if author_bot || negb (String.prefix PREFIX content) then mret Ignored
  else
    let words := split_spaces (trim (slice (String.length PREFIX) content)) in
    let command := toLowerCase (hd EmptyString words) in
    let args := tl words in
    timeLeft ← checkCooldown author_id command;
    match timeLeft with
    | Some t => if Qeq_bool t 0 then mret (Dispatched command args) else mret (Waiting t)
    | None => mret (Dispatched command args)
    end.

(** ** The timeout command, up to its call (lines 978-991) *)

(** What the command asks of [member.timeout], or why it asks nothing. *)
Inductive TimeoutRequest :=
| TimeoutNeedsPermission
| TimeoutNoMention
| TimeoutBadDuration
| TimeoutFor (member : N) (milliseconds : Z) (reason : string).

Definition timeout_request (can_moderate : bool) (mention : option N) (args : list string)
  : TimeoutRequest :=
  if negb can_moderate then TimeoutNeedsPermission else
  let duration :=
    match Js.parseInt_arg (args !! 1%nat) with
    | Some n => if n =? 0 then 10 else n
    | None => 10
    end in
  let joined := String.concat " " (drop 2 args) in
  let reason := match joined with
                | EmptyString => "No reason provided"%string
                | _ => joined
                end in
  match mention with
  | None => TimeoutNoMention
  | Some member =>
      if (duration <? 1) || (1440 <? duration) then TimeoutBadDuration
      else TimeoutFor member (duration * 60 * 1000) reason
  end.

(** ** Vocabulary of the statements *)

(** Count descending, as a relation between an entry and a later one. *)
Definition count_ge (a b : N * Z) : Prop := b.2 <= a.2.

(** The entries of one count. *)
Definition with_count (c : Z) (e : N * Z) : bool := e.2 =? c.

(** A run of the counting statements: before each of them time passes,
    and the environment is the one of that moment. *)
Fixpoint record_all (calls : list (Z * Env * N)) (s : State) : State :=
  match calls with
  | [] => s
  | (dt, env, u) :: rest => record_all rest (exec (recordActivity u) env (tick dt s))
  end.

(** How many of the calls are for user [u]. *)
Definition calls_for (u : N) (calls : list (Z * Env * N)) : Z :=
  Z.of_nat (length (List.filter (fun c => (c.2 =? u)%N) calls)).

(** The writes of the data file that completed, and all that were tried. *)
Definition is_write (e : Call * bool) : bool :=
  match e.1 with
  | fs_writeFileSync _ => true
  | _ => false
  end.

Definition writes_done (s : State) : nat :=
  length (List.filter (fun e => is_write e && e.2) (trace s)).

Definition writes_tried (s : State) : nat :=
  length (List.filter is_write (trace s)).

(** The property names of a tally are identifiers the platform gave to
    users; none of them is an array index. *)
Definition user_keys (lb : Js.Object) : Prop :=
  Forall (fun e => Js.is_array_index e.1 = false) lb.

(** The same command of the same user, again and again: before each
    call some time passes.  The answers come back in order. *)
Fixpoint check_all (userId : N) (commandName : string) (calls : list (Z * Env))
    (s : State) : list (Completion (option Q)) * State :=
  match calls with
  | [] => ([], s)
  | (dt, env) :: rest =>
      let r := checkCooldown userId commandName env (tick dt s) in
      let rs := check_all userId commandName rest r.2 in
      (r.1 :: rs.1, rs.2)
  end.

(** The times at which these calls are made, for a clock that reads [t0]
    before the first wait. *)
Fixpoint call_times (t0 : Z) (calls : list (Z * Env)) : list Z :=
  match calls with
  | [] => []
  | (dt, _) :: rest => (t0 + dt) :: call_times (t0 + dt) rest
  end.

(** The answer "wait": a positive number of seconds. *)
Definition must_wait (r : Completion (option Q)) : Prop :=
  exists t, r = Normal (Some t) /\ (0 < t)%Q.

(** Everything in a state but the roles of the members, the clock and
    the trace. *)
Definition kept (s : State) :=
  (leaderboard s, lastSave s, data_file s, cooldowns s, mutedUserRoles s,
   guild_id s, guild_roles s, channels s).

(** The member holds the role. *)
Definition holds (role member : N) (s : State) : Prop :=
  exists rs, member_roles s !! member = Some rs /\ role ∈ rs.

(** The calls of the strip step: the lookup of the reward role and the
    removals of it. *)
Definition is_strip_call (role : N) (e : Call * bool) : Prop :=
  match e.1 with
  | roles_fetch r | member_roles_remove _ r => r = role
  | _ => False
  end.

(** One turn of the loop that strips the reward role: the state it
    leaves. *)
Definition strip_turn (env : Env) (role : N) (s : State) (member : N) : State :=
  let c := member_roles_remove member role in
  let s1 := logged c (negb (throws env c)) (latency env c) s in
  if throws env c then s1 else set_roles_of member (without role) s1.

(** The calls a cycle may make on an empty tally. *)
Definition is_empty_cycle_call (env : Env) (e : Call * bool) : Prop :=
  is_strip_call (WINNER_ROLE_ID env) e
  \/ e.1 = channels_fetch (CHANNEL_ID env)
  \/ e.1 = channel_send (CHANNEL_ID env) NoActivityNotice.

(** The announcement of the cycle for the tally [lb]. *)
Definition announcement_of (lb : Js.Object) : Message :=
  let sorted := ranked lb in
  Announcement (map fst (Js.slice_to 3 sorted)) (Js.slice_to 3 sorted)
    (Js.slice_from 3 sorted) (totalMessages lb).

(** The tally in memory and on disk, and the clock of the saves, are
    what they were, and no write was tried in between. *)
Definition store_untouched (s s' : State) : Prop :=
  leaderboard s' = leaderboard s /\ lastSave s' = lastSave s
  /\ data_file s' = data_file s /\ writes_tried s' = writes_tried s.

(** The predicate of [guild.roles.cache.find(r => r.name === "Muted")]. *)
Definition named_Muted (r : Role) : bool := bool_decide (role_name r = "Muted"%string).

(** The guild still has the role. *)
Definition role_exists (s : State) (r : N) : bool :=
  bool_decide (is_Some (guild_roles_cache_get r s)).

(** A string without the character that separates the two parts of a
    cooldown key. *)
Fixpoint dash_free (s : string) : bool :=
  match s with
  | EmptyString => true
  | String c s' => negb (Ascii.eqb c "-") && dash_free s'
  end.

(** The role [guild.roles.create] gives back when asked for "Muted". *)
Definition new_Muted_role (env : Env) : Role :=
  {| role_id := created_role_id env; role_name := "Muted" |}.

(** One turn of the loop that denies the restricted role in the channels:
    the state it leaves. *)
Definition deny_turn (env : Env) (role : N) (s : State) (channel : N) : State :=
  let c := permissionOverwrites_edit channel role in
  logged c (negb (throws env c)) (latency env c) s.

(** The state once the restricted role has been created and denied in
    every channel. *)
Definition Muted_created (env : Env) (s : State) : State :=
  let c := roles_create "Muted" in
  let s1 := with_guild_roles (guild_roles s ++ [new_Muted_role env])
              (logged c true (latency env c) s) in
  fold_left (deny_turn env (created_role_id env)) (channels s1) s1.

(** Everything in a state but the roles of the guild, the clock and the
    trace. *)
Definition kept_by_calls (s : State) :=
  (leaderboard s, lastSave s, data_file s, cooldowns s, mutedUserRoles s,
   guild_id s, member_roles s, channels s).

(** The three statements both mute paths share: the roles of the member
    are captured, stored under its id, and replaced by the restricted
    role.  The number of captured roles comes back. *)
Definition capture_and_replace (env : Env) (u : N) (muteRole : Role) (s : State)
  : Completion nat * State :=
  let captured := roles_but_everyone u s in
  let c := member_roles_set u [role_id muteRole] in
  let s1 := logged c (negb (throws env c)) (latency env c)
              (with_mutedUserRoles (<[u := captured]> (mutedUserRoles s)) s) in
  if throws env c then (Thrown (PlatformError c), s1)
  else (Normal (length captured),
        set_roles_of u (fun _ => without (guild_id s) [role_id muteRole]) s1).

(** How the command and the endpoint go on from there.  The command
    builds the record for the audit channel, which can throw, and lands
    in its [catch] on any throw. *)
Definition mute_command_end (env : Env) (u : N) (r : Completion nat * State)
  : Completion Reply * State :=
  match r with
  | (Normal n, s) =>
      let b := embed_addFields "User Muted" in
      let s1 := logged b (negb (throws env b)) (latency env b) s in
      if throws env b
      then (Normal MuteFailed, with_mutedUserRoles (delete u (mutedUserRoles s1)) s1)
      else (Normal (Muted n), exec (logAction (AuditRecord "User Muted")) env s1)
  | (Thrown _, s) => (Normal MuteFailed, with_mutedUserRoles (delete u (mutedUserRoles s)) s)
  end.

Definition api_mute_end (r : Completion nat * State) : Completion Response * State :=
  match r with
  | (Normal n, s) => (Normal (Success (Some n)), s)
  | (Thrown e, s) => (Normal (Failure e), s)
  end.

(** The restricted role a mute in state [s] goes by: the role of the
    guild named "Muted" when there is one, the role it creates otherwise. *)
Definition Muted_role_used (env : Env) (s : State) : Role :=
  default (new_Muted_role env) (find_role named_Muted s).

(** A word has no space in it. *)
Fixpoint space_free (s : string) : bool :=
  match s with
  | EmptyString => true
  | String c s' => negb (is_space c) && space_free s'
  end.

(** The text starts, or ends, with a character that [p] accepts. *)
Definition starts_with (p : ascii -> bool) (s : string) : bool :=
  match s with
  | EmptyString => false
  | String c _ => p c
  end.

Fixpoint ends_with (p : ascii -> bool) (s : string) : bool :=
  match s with
  | EmptyString => false
  | String c EmptyString => p c
  | String _ s' => ends_with p s'
  end.

(** The calls of [logAction]: the lookup of the audit channel and the
    record sent there. *)
Definition is_audit_call (env : Env) (e : Call * bool) : Prop :=
  match e.1 with
  | channels_fetch id | channel_send id (AuditRecord _) => LOGS_CHANNEL_ID env = Some id
  | _ => False
  end.

Definition is_bulkDelete (e : Call * bool) : bool :=
  match e.1 with
  | channel_bulkDelete _ _ => true
  | _ => false
  end.

(** The [try] statement of the clear command on an amount that passed
    the checks: the value it gives and the state it leaves. *)
Definition clear_command_end (env : Env) (here : N) (amount : Z) (s : State)
  : Completion Reply * State :=
  let d := channel_bulkDelete here (Js.Num (Js.of_Z amount)) in
  let s1 := logged d (negb (throws env d)) (latency env d) s in
  if throws env d then (Normal ClearFailed, s1)
  else
    let r := message_reply here in
    let s2 := logged r (negb (throws env r)) (latency env r) s1 in
    if throws env r then (Normal ClearFailed, s2)
    else (Normal (Deleted amount), exec (logAction (AuditRecord "Messages Cleared")) env s2).


(** ** A small world to run the handlers in *)

Definition quiet : Env :=
  {| CHANNEL_ID := 1399398636797825046; WINNER_ROLE_ID := 1420435350949728296;
     LOGS_CHANNEL_ID := None; truncates := fun _ => false;
     throws := fun _ => false; latency := fun _ => 2;
     created_role_id := 1420435350949728400 |}.

Definition alice : N := 1420424697501192201.
Definition bob : N := 1420424697501192202.
Definition carol : N := 1420424697501192203.
Definition dave : N := 1420424697501192204.

Definition helper_role : N := 1420435350949728297.

Definition village : State :=
  {| leaderboard := [(alice, 5); (bob, 9); (carol, 9); (dave, 1)];
     lastSave := 1700000000000;
     cooldowns := ∅;
     mutedUserRoles := ∅;
     clock := 1700000010000;
     data_file := None;
     guild_id := 1420424697501192293;
     guild_roles := [ {| role_id := 1420424697501192293; role_name := "@everyone" |};
                      {| role_id := 1420435350949728296; role_name := "Winner" |};
                      {| role_id := helper_role; role_name := "Helper" |} ];
     member_roles := {[ alice := [helper_role];
                        bob := [];
                        carol := [helper_role; 1420435350949728296%N];
                        dave := [1420435350949728296%N] ]};
     channels := [1399398636797825046%N; 1420424697501192299%N];
     trace := [] |}.

(** The same world a second after [alice] used [kick]. *)
Definition village_after_kick : State :=
  with_cooldowns {[ cooldown_key alice "kick" := 1700000009000 ]} village.

(** A conversion of strings to numbers for the runs below.  It is the
    language's on the strings it is used on: the empty string is 0, a
    string of decimal digits is its value, and a string with a character
    that no numeric literal has is NaN. *)
Definition sample_StringToNumber (s : string) : Js.Number :=
  match s with
  | EmptyString => Js.of_Z 0
  | _ =>
      if forallb (fun c => bool_decide (is_Some (Js.digit_of 10 c))) (list_ascii_of_string s)
      then from_option Js.of_Z Js.NaN (Js.read_digits 10 s None)
      else Js.NaN
  end.

Definition general : N := 1420424697501192299.

(** An environment in which the platform refuses every send. *)
Definition no_send : Env :=
  {| CHANNEL_ID := CHANNEL_ID quiet; WINNER_ROLE_ID := WINNER_ROLE_ID quiet;
     LOGS_CHANNEL_ID := None; truncates := fun _ => false;
     throws := fun c => match c with channel_send _ _ => true | _ => false end;
     latency := latency quiet; created_role_id := created_role_id quiet |}.

(** An environment in which the platform refuses to replace roles. *)
Definition no_role_change : Env :=
  {| CHANNEL_ID := CHANNEL_ID quiet; WINNER_ROLE_ID := WINNER_ROLE_ID quiet;
     LOGS_CHANNEL_ID := None; truncates := fun _ => false;
     throws := fun c => match c with member_roles_set _ _ => true | _ => false end;
     latency := latency quiet; created_role_id := created_role_id quiet |}.

Definition reward_role : N := 1420435350949728296.

Definition muted_role : Role :=
  {| role_id := 1420435350949728400; role_name := "Muted" |}.

(** The village once the restricted role exists. *)
Definition village_with_muted : State :=
  with_guild_roles (guild_roles village ++ [muted_role]) village.

(** [carol] is muted there; later the guild deletes the role [Helper]. *)
Definition carol_muted : State :=
  exec (mute_command true (Some carol) general) quiet village_with_muted.

Definition helper_deleted : State :=
  with_guild_roles
    (List.filter (fun r => negb (role_id r =? helper_role)%N) (guild_roles carol_muted))
    carol_muted.

(** The village at the start of a week: nothing counted yet. *)
Definition fresh_village : State := with_leaderboard [] village.

(** A week in which [alice] posts once, [bob] twice and [carol] once. *)
Definition busy_week : State :=
  record_all [(1000, quiet, alice); (1000, quiet, bob); (40000, quiet, bob);
              (1000, quiet, carol)] fresh_village.

(** The file does not run ahead of the memory: a count it holds is at
    most the count of that user in the tally. *)
Definition file_behind (s : State) : Prop :=
  match data_file s with
  | None => True
  | Some f => forall u c, Js.get f u = Some c ->
                          exists c', Js.get (leaderboard s) u = Some c' /\ c <= c'
  end.

(** The users of [us] that are not in [seen], each once, in the order in
    which they come first. *)
Fixpoint newcomers (seen : list N) (us : list N) : list N :=
  match us with
  | [] => []
  | u :: us' =>
      if bool_decide (u ∈ seen) then newcomers seen us'
      else u :: newcomers (seen ++ [u]) us'
  end.

(** The sum of the counts of a list of entries. *)
Definition sum_counts (l : list (N * Z)) : Z := fold_left Z.add (map snd l) 0.


(** An environment in which a write of the data file fails for lack of
    space, the file open and emptied. *)
Definition disk_full : Env :=
  {| CHANNEL_ID := CHANNEL_ID quiet; WINNER_ROLE_ID := WINNER_ROLE_ID quiet;
     LOGS_CHANNEL_ID := None;
     truncates := fun c => match c with fs_writeFileSync _ => true | _ => false end;
     throws := fun c => match c with fs_writeFileSync _ => true | _ => false end;
     latency := latency quiet; created_role_id := created_role_id quiet |}.

(** An environment in which the data file cannot be opened for writing. *)
Definition write_protected : Env :=
  {| CHANNEL_ID := CHANNEL_ID quiet; WINNER_ROLE_ID := WINNER_ROLE_ID quiet;
     LOGS_CHANNEL_ID := None; truncates := fun _ => false;
     throws := fun c => match c with fs_writeFileSync _ => true | _ => false end;
     latency := latency quiet; created_role_id := created_role_id quiet |}.

(** The village with a data file that was written some messages ago. *)
Definition village_saved : State :=
  with_data_file (Some [(alice, 5); (bob, 7); (carol, 9)]) village.

(** An environment in which the channels cannot be fetched. *)
Definition unreachable : Env :=
  {| CHANNEL_ID := CHANNEL_ID quiet; WINNER_ROLE_ID := WINNER_ROLE_ID quiet;
     LOGS_CHANNEL_ID := None; truncates := fun _ => false;
     throws := fun c => match c with channels_fetch _ => true | _ => false end;
     latency := latency quiet; created_role_id := created_role_id quiet |}.

(** An environment in which the platform refuses every change to the
    roles of [dave], and nothing else. *)
Definition dave_protected : Env :=
  {| CHANNEL_ID := CHANNEL_ID quiet; WINNER_ROLE_ID := WINNER_ROLE_ID quiet;
     LOGS_CHANNEL_ID := None; truncates := fun _ => false;
     throws := fun c => match c with
                        | member_roles_remove m _ | member_roles_add m _ => (m =? dave)%N
                        | _ => false
                        end;
     latency := latency quiet; created_role_id := created_role_id quiet |}.

(** An environment in which the reason given with a mute does not fit
    the record for the audit channel. *)
Definition long_reason : Env :=
  {| CHANNEL_ID := CHANNEL_ID quiet; WINNER_ROLE_ID := WINNER_ROLE_ID quiet;
     LOGS_CHANNEL_ID := None; truncates := fun _ => false;
     throws := fun c => match c with embed_addFields _ => true | _ => false end;
     latency := latency quiet; created_role_id := created_role_id quiet |}.


(** * Properties *)

(** ** Objects and sorting *)

Lemma get_set_eq (o : Js.Object) k v : Js.get (Js.set o k v) k = Some v.
Proof.
  induction o as [|[k' v'] o IH]; simpl.
  - by rewrite N.eqb_refl.
  - destruct (k' =? k)%N eqn:E; simpl; rewrite E; auto.
Qed.

Lemma get_set_ne (o : Js.Object) k k' v : k ≠ k' -> Js.get (Js.set o k v) k' = Js.get o k'.
Proof.
  intros Hne. induction o as [|[k0 v0] o IH]; simpl.
  - destruct (N.eqb_spec k k'); congruence.
  - destruct (N.eqb_spec k0 k); simpl.
    + subst k0. destruct (N.eqb_spec k k'); congruence.
    + by rewrite IH.
Qed.

(** Writing a property creates no second property of that name, and
    leaves the creation order of the others alone. *)
Lemma keys_set (o : Js.Object) k v :
  map fst (Js.set o k v)
  = match Js.get o k with Some _ => map fst o | None => map fst o ++ [k] end.
Proof.
  induction o as [|[k' v'] o IH]; simpl; [done|].
  destruct (N.eqb_spec k' k); simpl; [done|].
  rewrite IH. by destruct (Js.get o k).
Qed.

Lemma sort_insert_perm {A} (cmp : A -> A -> Z) x l : Js.sort_insert cmp x l ≡ₚ x :: l.
Proof.
  induction l as [|y l IH]; simpl; [done|].
  destruct (cmp x y <=? 0); [done|]. rewrite IH. apply Permutation_swap.
Qed.

Lemma Array_sort_perm {A} (cmp : A -> A -> Z) l : Js.Array_sort cmp l ≡ₚ l.
Proof.
  induction l as [|x l IH]; simpl; [done|].
  by rewrite sort_insert_perm, IH.
Qed.

Lemma Array_sort_length {A} (cmp : A -> A -> Z) l : length (Js.Array_sort cmp l) = length l.
Proof. apply Permutation_length, Array_sort_perm. Qed.

Lemma sort_insert_sorted x l :
  StronglySorted count_ge l -> StronglySorted count_ge (Js.sort_insert by_count_desc x l).
Proof.
  induction 1 as [|y l Hl IH Hy]; simpl.
  - repeat constructor.
  - unfold by_count_desc at 1. destruct (Z.leb_spec (y.2 - x.2) 0).
    + constructor; [by constructor|].
      constructor; [unfold count_ge; lia|].
      eapply Forall_impl; [exact Hy|]. unfold count_ge. intros; lia.
    + constructor; [done|].
      rewrite sort_insert_perm. constructor; [unfold count_ge; lia | done].
Qed.

Lemma Array_sort_sorted l : StronglySorted count_ge (Js.Array_sort by_count_desc l).
Proof.
  induction l as [|x l IH]; simpl; [constructor | by apply sort_insert_sorted].
Qed.

(** Stability: the entries of one count stand in the order they had. *)
Lemma sort_insert_stable c x l :
  List.filter (with_count c) (Js.sort_insert by_count_desc x l)
  = List.filter (with_count c) (x :: l).
Proof.
  induction l as [|y l IH]; [done|].
  cbn [Js.sort_insert]. unfold by_count_desc at 1.
  destruct (Z.leb_spec (y.2 - x.2) 0); [done|].
  cbn [List.filter] in *. rewrite IH. unfold with_count.
  destruct (Z.eqb_spec y.2 c), (Z.eqb_spec x.2 c); try done; lia.
Qed.

Lemma Array_sort_stable c l :
  List.filter (with_count c) (Js.Array_sort by_count_desc l) = List.filter (with_count c) l.
Proof.
  induction l as [|x l IH]; [done|].
  cbn [Js.Array_sort]. rewrite sort_insert_stable. cbn [List.filter]. by rewrite IH.
Qed.

(** Order and stability leave no choice: two lists in count order that
    agree, count by count, on their entries and the order of these, are the
    same list. *)
Lemma sorted_stable_unique l1 l2 :
  StronglySorted count_ge l1 -> StronglySorted count_ge l2 ->
  (forall c, List.filter (with_count c) l1 = List.filter (with_count c) l2) ->
  l1 = l2.
Proof.
  assert (forall (a : N * Z) l, List.filter (with_count a.2) (a :: l)
                                = a :: List.filter (with_count a.2) l) as Hhd.
  { intros a l. cbn [List.filter]. unfold with_count at 1. by rewrite Z.eqb_refl. }
  assert (forall a l b, Forall (count_ge a) l -> b ∈ List.filter (with_count b.2) (a :: l) ->
                        b.2 <= a.2) as Hle.
  { intros a l b Ha Hb. apply list_elem_of_In, filter_In in Hb as [Hb _].
    destruct Hb as [->|Hb]; [lia|].
    rewrite Forall_forall in Ha. apply Ha. by apply list_elem_of_In. }
  intros H1. revert l2. induction H1 as [|x l1 Hs1 IH Hx]; intros l2 H2 Hsame.
  - destruct l2 as [|y l2]; [done|]. specialize (Hsame y.2). by rewrite Hhd in Hsame.
  - destruct H2 as [|y l2 Hs2 Hy].
    { specialize (Hsame x.2). by rewrite Hhd in Hsame. }
    assert (x.2 = y.2) as Hxy.
    { apply Z.le_antisymm.
      - apply (Hle y l2 x Hy). rewrite <- Hsame, Hhd. apply list_elem_of_here.
      - apply (Hle x l1 y Hx). rewrite Hsame, Hhd. apply list_elem_of_here. }
    pose proof (Hsame x.2) as Hhead. rewrite Hhd, Hxy, Hhd in Hhead.
    injection Hhead as -> Htail. f_equal. apply IH; [done|].
    intros c. specialize (Hsame c). cbn [List.filter] in Hsame.
    destruct (with_count c y) eqn:E; [|done]. by injection Hsame.
Qed.

(** For property names that are no array indices, the order of
    [Object.entries] is the order of creation. *)
Lemma Object_entries_creation_order (o : Js.Object) :
  Forall (fun e => Js.is_array_index e.1 = false) o -> Js.Object_entries o = o.
Proof.
  intros H. unfold Js.Object_entries.
  assert (List.filter (fun e => Js.is_array_index e.1) o = []) as ->.
  { induction H as [|e o He _ IH]; simpl; [done|]. by rewrite He. }
  simpl. induction H as [|e o He _ IH]; simpl; [done|]. rewrite He. simpl. by f_equal.
Qed.

Lemma Object_entries_perm (o : Js.Object) : Js.Object_entries o ≡ₚ o.
Proof.
  unfold Js.Object_entries. rewrite Array_sort_perm.
  induction o as [|e o IH]; simpl; [done|].
  destruct (Js.is_array_index e.1); simpl.
  - by rewrite IH.
  - rewrite <- Permutation_middle. by rewrite IH.
Qed.

(** ** The counter store *)

(** Unfolding of the handler combinators. *)
Ltac run :=
  cbv beta iota delta
    [exec result mbind mret M_bind M_ret try_catch throw gets asks modify
     perform fire Date_now console_error write_data_file channel_send_msg
     ledger_set ledger_delete].

Lemma saveData_unfold force env s :
  saveData force env s =
    if negb force && (clock s - lastSave s <? SAVE_INTERVAL) then (Normal tt, s)
    else
      let c := fs_writeFileSync (leaderboard s) in
      let s1 := logged c (negb (throws env c)) (latency env c) s in
      if throws env c then (Normal tt, if truncates env c then with_data_file None s1 else s1)
      else (Normal tt, with_lastSave (clock s1) (with_data_file (Some (leaderboard s)) s1)).
Proof.
  unfold saveData. run.
  destruct (negb force && _); [done|].
  cbn zeta. by destruct (throws env _).
Qed.

Lemma saveData_leaderboard force env s :
  leaderboard (exec (saveData force) env s) = leaderboard s.
Proof.
  unfold exec. rewrite saveData_unfold.
  destruct (negb force && _); [done|]. cbn zeta.
  destruct (throws env _); [by destruct (truncates env _) | done].
Qed.

Lemma recordActivity_get id env s u :
  Js.get (leaderboard (exec (recordActivity id) env s)) u
  = if (id =? u)%N then Some (default 0 (Js.get (leaderboard s) u) + 1)
    else Js.get (leaderboard s) u.
Proof.
  unfold recordActivity.
  set (lb := leaderboard s).
  set (lb1 := if Js.falsy (Js.get lb id) then Js.set lb id 0 else lb).
  assert (Js.get lb1 id = Some (default 0 (Js.get lb id))) as H1.
  { unfold lb1. destruct (Js.get lb id) as [v|] eqn:E; simpl.
    - destruct (Z.eqb_spec v 0); [subst; apply get_set_eq | done].
    - apply get_set_eq. }
  assert (forall k, id ≠ k -> Js.get lb1 k = Js.get lb k) as H2.
  { intros k Hk. unfold lb1. destruct (Js.falsy _); [by apply get_set_ne | done]. }
  transitivity (Js.get (Js.set lb1 id (default 0 (Js.get lb id) + 1)) u).
  - unfold exec, mbind, M_bind, gets, modify. fold lb. fold lb1. rewrite H1.
    cbn beta iota. fold (exec (saveData false) env (with_leaderboard
      (Js.set lb1 id (default 0 (Js.get lb id) + 1)) s)).
    by rewrite saveData_leaderboard.
  - destruct (N.eqb_spec id u) as [->|Hne].
    + by rewrite get_set_eq.
    + by rewrite get_set_ne, H2.
Qed.

(** A first message of a user creates the entry of that user after all
    the others; a later one leaves the order of creation alone. *)
Lemma recordActivity_keys id env s :
  map fst (leaderboard (exec (recordActivity id) env s))
  = match Js.get (leaderboard s) id with
    | Some _ => map fst (leaderboard s)
    | None => map fst (leaderboard s) ++ [id]
    end.
Proof.
  unfold recordActivity, exec, mbind, M_bind, gets, modify. cbn beta iota.
  match goal with
  | |- context [saveData false env ?x] =>
      change (saveData false env x).2 with (exec (saveData false) env x)
  end.
  rewrite saveData_leaderboard. cbn [leaderboard with_leaderboard].
  destruct (Js.get (leaderboard s) id) as [v|] eqn:E; cbn [Js.falsy].
  - destruct (Z.eqb_spec v 0).
    + rewrite get_set_eq, !keys_set, get_set_eq, E. done.
    + by rewrite E, keys_set, E.
  - rewrite get_set_eq, !keys_set, get_set_eq, E. done.
Qed.

(** The message of a bot is not counted. *)
Lemma on_messageCreate_bot id env s : on_messageCreate id true env s = (Normal tt, s).
Proof. done. Qed.

(** C1.  Whatever the sequence of counting calls, whatever the time between
    them and whatever the file system does: the tally of a user is what it
    was (0 when the user had none) plus the number of calls for that user,
    and a user for whom no call was made has exactly the entry, or the
    absence of entry, it had before. *)
Theorem recordActivity_counts_calls calls s u :
  Js.get (leaderboard (record_all calls s)) u
  = if calls_for u calls =? 0 then Js.get (leaderboard s) u
    else Some (default 0 (Js.get (leaderboard s) u) + calls_for u calls).
Proof.
  revert s. induction calls as [|[[dt env] id] calls IH]; intros s; [done|].
  cbn [record_all]. rewrite IH, recordActivity_get.
  unfold calls_for. cbn [List.filter snd]. change (leaderboard (tick dt s)) with (leaderboard s).
  destruct (N.eqb_spec id u) as [->|Hne].
  - cbn [length]. generalize (length (List.filter (fun c => (c.2 =? u)%N) calls)).
    intros n. destruct (Z.eqb_spec (Z.of_nat n) 0) as [E|E];
      destruct (Z.eqb_spec (Z.of_nat (S n)) 0); try lia; simpl; f_equal; lia.
  - done.
Qed.

Lemma writes_done_logged c ok dt s :
  writes_done (logged c ok dt s)
  = (writes_done s + if is_write (c, ok) && ok then 1 else 0)%nat.
Proof.
  unfold writes_done. cbn [trace logged]. rewrite List.filter_app, length_app.
  cbn [List.filter snd]. by destruct (is_write (c, ok) && ok).
Qed.

Lemma saveData_writes_at_most_once force env s :
  (writes_done (exec (saveData force) env s) <= writes_done s + 1)%nat.
Proof.
  unfold exec. rewrite saveData_unfold.
  destruct (negb force && _); [simpl; lia|]. cbn zeta.
  destruct (throws env _); [destruct (truncates env _)|];
    cbn [snd]; unfold writes_done; cbn [trace logged with_lastSave with_data_file];
    rewrite List.filter_app, length_app; simpl; lia.
Qed.

(** C2.  Two unforced saves whose times are both less than 30 seconds
    after [lastSave] write nothing at all; more generally, when the second
    unforced save comes less than 30 seconds after the first has returned,
    the two complete at most one write.  A forced save calls the write
    whatever the clock says, and once the write has completed the file holds
    the tally and [lastSave] is the present time. *)
Theorem saveData_coalesces_unless_forced :
  (forall env1 env2 dt s,
      let s1 := exec (saveData false) env1 s in
      let s2 := exec (saveData false) env2 (tick dt s1) in
      (clock s - lastSave s < SAVE_INTERVAL ->
       clock s1 + dt - lastSave s < SAVE_INTERVAL ->
       writes_tried s2 = writes_tried s
       /\ trace s2 = trace s /\ data_file s2 = data_file s /\ lastSave s2 = lastSave s)
      /\ (dt < SAVE_INTERVAL -> (writes_done s2 <= writes_done s + 1)%nat))
  /\ (forall env s,
         let c := fs_writeFileSync (leaderboard s) in
         let s' := exec (saveData true) env s in
         trace s' = trace s ++ [(c, negb (throws env c))]
         /\ (throws env c = false ->
             data_file s' = Some (leaderboard s)
             /\ lastSave s' = clock s'
             /\ writes_done s' = S (writes_done s))).
Proof.
  split.
  - intros env1 env2 dt s s1 s2. split.
    + intros H1 H2. subst s2 s1. unfold exec in *.
      rewrite (saveData_unfold false env1 s) in *.
      assert ((clock s - lastSave s <? SAVE_INTERVAL) = true) as E1 by (apply Z.ltb_lt; lia).
      rewrite E1 in *. cbn [negb andb snd] in *.
      rewrite saveData_unfold. cbn [negb andb tick clock lastSave].
      assert ((clock s + dt - lastSave s <? SAVE_INTERVAL) = true) as -> by (apply Z.ltb_lt; lia).
      done.
    + intros Hdt. subst s2 s1. unfold exec at 2. rewrite (saveData_unfold false env1 s).
      destruct (negb false && _) eqn:E1.
      { cbn [snd]. etransitivity; [apply saveData_writes_at_most_once|]. done. }
      cbn zeta. destruct (throws env1 _) eqn:T1; cbn [snd].
      * etransitivity; [apply saveData_writes_at_most_once|].
        change (writes_done (tick dt ?x)) with (writes_done x).
        destruct (truncates env1 _);
          try change (writes_done (with_data_file ?v ?x)) with (writes_done x);
          rewrite writes_done_logged; simpl; lia.
      * unfold exec. rewrite saveData_unfold.
        cbn [negb andb tick clock lastSave with_lastSave with_data_file logged].
        match goal with |- context [?a <? SAVE_INTERVAL] =>
          assert ((a <? SAVE_INTERVAL) = true) as -> by (apply Z.ltb_lt; lia) end.
        cbn [snd]. change (writes_done (tick dt ?x)) with (writes_done x).
        change (writes_done (with_lastSave ?v ?x)) with (writes_done x).
        change (writes_done (with_data_file ?v ?x)) with (writes_done x).
        rewrite writes_done_logged. simpl. lia.
  - intros env s c s'. subst s'. unfold exec. rewrite saveData_unfold.
    cbn [negb andb]. cbn zeta. fold c. destruct (throws env c) eqn:T; cbn [snd].
    + split; [by destruct (truncates env c)|]. intros; congruence.
    + split; [done|]. intros _. split; [done|]. split; [done|].
      change (writes_done (with_lastSave ?v ?x)) with (writes_done x).
      change (writes_done (with_data_file ?v ?x)) with (writes_done x).
      rewrite writes_done_logged. subst c. simpl. lia.
Qed.

Lemma saveData_coalesces_witness :
  (writes_done (exec (saveData false) quiet
                  (tick 5000 (exec (saveData false) quiet village)))
   <= writes_done village + 1)%nat
  /\ trace (exec (saveData false) quiet (tick 5000 (exec (saveData false) quiet village)))
     = trace village
  /\ data_file (exec (saveData true) quiet village) = Some (leaderboard village).
Proof.
  destruct saveData_coalesces_unless_forced as [Htwice Hforce].
  destruct (Htwice quiet quiet 5000 village) as [Hnone Hone].
  split; [apply Hone; reflexivity|].
  split; [apply Hnone; reflexivity|].
  apply (Hforce quiet village). reflexivity.
Defined.

(** ** The ranked view *)

(** C5.  The ranked view is the first ten of the entries of the tally
    sorted by count, largest first, entries of equal count standing in the
    order [Object.entries] lists them, and no other list is so; for the
    identifiers of users that order is the one in which their entries were
    created.  For the counts
    A:5, B:9, C:9, D:1, in any creation order that has B before C, the view
    is B, C, A, D. *)
Theorem ranked_stable_top10 :
  (forall lb,
      let entries := Js.Object_entries lb in
      let sorted := Js.Array_sort by_count_desc entries in
      ranked lb = firstn 10 sorted
      /\ sorted ≡ₚ lb
      /\ StronglySorted count_ge sorted
      /\ (forall c, List.filter (with_count c) sorted = List.filter (with_count c) entries)
      /\ (forall l, StronglySorted count_ge l ->
                    (forall c, List.filter (with_count c) l = List.filter (with_count c) entries) ->
                    l = sorted)
      /\ (user_keys lb -> entries = lb))
  /\ (forall A B C D lb l1 l2 l3,
         user_keys lb ->
         lb ≡ₚ [(A, 5); (B, 9); (C, 9); (D, 1)] ->
         lb = l1 ++ (B, 9) :: l2 ++ (C, 9) :: l3 ->
         ranked lb = [(B, 9); (C, 9); (A, 5); (D, 1)]).
Proof.
  split.
  - intros lb entries sorted. subst sorted entries.
    split; [done|]. split; [by rewrite Array_sort_perm, Object_entries_perm|].
    split; [apply Array_sort_sorted|]. split; [intros c; apply Array_sort_stable|].
    split; [|apply Object_entries_creation_order].
    intros l Hl Hsame. apply sorted_stable_unique; [done | apply Array_sort_sorted |].
    intros c. by rewrite Array_sort_stable.
  - intros A B C D lb l1 l2 l3 Hkeys Hperm ->.
    unfold ranked. rewrite (Object_entries_creation_order _ Hkeys). clear Hkeys.
    assert (l1 ++ l2 ++ l3 ≡ₚ [(A, 5); (D, 1)]) as Hrest.
    { apply (Permutation_cons_inv (a := (C, 9))), (Permutation_cons_inv (a := (B, 9))).
      etransitivity; [|etransitivity; [exact Hperm|]].
      - rewrite <- !Permutation_middle. done.
      - etransitivity; [apply perm_swap|]. apply perm_skip, perm_swap. }
    apply Permutation_sym, Permutation_length_2_inv in Hrest.
    destruct Hrest as [Hrest|Hrest];
      destruct l1 as [|? [|? [|]]]; destruct l2 as [|? [|? [|]]]; destruct l3 as [|? [|? [|]]];
      simplify_eq/=; reflexivity.
Qed.

Lemma ranked_stable_witness :
  user_keys (leaderboard village)
  /\ ranked (leaderboard village) = [(bob, 9); (carol, 9); (alice, 5); (dave, 1)].
Proof.
  assert (user_keys (leaderboard village)) as Hkeys by (repeat constructor).
  split; [exact Hkeys|].
  destruct ranked_stable_top10 as [_ Hexample].
  apply (Hexample alice bob carol dave _ [(alice, 5)] [] [(dave, 1)]);
    [exact Hkeys | reflexivity | reflexivity].
Defined.

(** ** The cooldown tracker *)

Lemma pretty_N_go_dash_free x s : dash_free s = true -> dash_free (pretty_N_go x s) = true.
Proof.
  revert s. induction (N.lt_wf_0 x) as [x _ IH]; intros s Hs.
  assert (x = 0 \/ 0 < x)%N as [->|Hx] by lia; [done|].
  rewrite pretty_N_go_step by done. apply IH; [by apply N.div_lt|].
  cbn [dash_free]. rewrite Hs. unfold pretty_N_char. by repeat case_match.
Qed.

Lemma pretty_N_dash_free (x : N) : dash_free (pretty x) = true.
Proof.
  unfold pretty, pretty_N. destruct (decide (x = 0%N)); [done|].
  by apply pretty_N_go_dash_free.
Qed.

Lemma dash_splits_once s1 s2 t1 t2 :
  dash_free s1 = true -> dash_free s2 = true ->
  s1 +:+ "-" +:+ t1 = s2 +:+ "-" +:+ t2 -> s1 = s2 /\ t1 = t2.
Proof.
  revert s2. induction s1 as [|c s1 IH]; intros [|c' s2] H1 H2 Heq; cbn in *;
    simplify_eq; [done|].
  apply andb_true_iff in H1 as [_ H1]. apply andb_true_iff in H2 as [_ H2].
  by destruct (IH s2 H1 H2) as [-> ->].
Qed.

(** Two users, or two commands, never share a cooldown entry. *)
Lemma cooldown_key_inj u c u' c' :
  cooldown_key u c = cooldown_key u' c' -> u = u' /\ c = c'.
Proof.
  unfold cooldown_key. intros H.
  apply dash_splits_once in H as [Hu Hc]; [|apply pretty_N_dash_free..].
  split; [by apply (inj pretty) | done].
Qed.

Lemma checkCooldown_unfold userId commandName env s :
  checkCooldown userId commandName env s =
    let key := cooldown_key userId commandName in
    let stamped := with_cooldowns (<[key := clock s]> (cooldowns s)) s in
    match cooldowns s !! key with
    | Some stamp =>
        if clock s <? stamp + COOLDOWN_TIME
        then (Normal (Some (inject_Z (stamp + COOLDOWN_TIME - clock s) / inject_Z 1000)%Q), s)
        else (Normal None, stamped)
    | None => (Normal None, stamped)
    end.
Proof.
  unfold checkCooldown. run. cbn zeta.
  destruct (cooldowns s !! _); [|done]. by destruct (_ <? _).
Qed.

Lemma seconds_left_positive (ms : Z) : 0 < ms -> (0 < inject_Z ms / inject_Z 1000)%Q.
Proof. intros H. unfold Qlt, Qdiv, Qmult, Qinv, inject_Z. simpl. lia. Qed.

(** C8.  For every user and command name: with no entry, or an entry at
    least 3 seconds old, the call answers [false] and stamps the present
    time; with a younger entry it answers the time left, in seconds and
    positive, and changes nothing, so that calls repeated inside the window
    all wait and leave the stamp where it was. *)
Theorem checkCooldown_window userId commandName :
  let key := cooldown_key userId commandName in
  (forall env s,
      (cooldowns s !! key = None
       \/ exists stamp, cooldowns s !! key = Some stamp /\ COOLDOWN_TIME <= clock s - stamp) ->
      checkCooldown userId commandName env s
      = (Normal None, with_cooldowns (<[key := clock s]> (cooldowns s)) s))
  /\ (forall env s stamp,
         cooldowns s !! key = Some stamp ->
         clock s - stamp < COOLDOWN_TIME ->
         checkCooldown userId commandName env s
         = (Normal (Some (inject_Z (stamp + COOLDOWN_TIME - clock s) / inject_Z 1000)%Q), s)
         /\ must_wait (result (checkCooldown userId commandName) env s))
  /\ (forall calls s stamp,
         cooldowns s !! key = Some stamp ->
         Forall (fun t => t - stamp < COOLDOWN_TIME) (call_times (clock s) calls) ->
         let r := check_all userId commandName calls s in
         Forall must_wait r.1 /\ cooldowns r.2 = cooldowns s).
Proof.
  intros key. split; [|split].
  - intros env s H. rewrite checkCooldown_unfold. cbn zeta. fold key.
    destruct H as [->|(stamp & -> & Hold)]; [done|].
    destruct (Z.ltb_spec (clock s) (stamp + COOLDOWN_TIME)); [lia | done].
  - intros env s stamp Hentry Hyoung.
    assert (checkCooldown userId commandName env s
            = (Normal (Some (inject_Z (stamp + COOLDOWN_TIME - clock s) / inject_Z 1000)%Q), s))
      as Heq.
    { rewrite checkCooldown_unfold. cbn zeta. fold key. rewrite Hentry.
      destruct (Z.ltb_spec (clock s) (stamp + COOLDOWN_TIME)); [done | lia]. }
    split; [exact Heq|]. unfold result. rewrite Heq. eexists. split; [done|].
    apply seconds_left_positive. lia.
  - intros calls. induction calls as [|[dt env] calls IH]; intros s stamp Hentry Htimes r.
    + subst r. by split.
    + subst r. cbn [check_all call_times] in *.
      apply Forall_cons in Htimes as [Hnow Hlater].
      assert (checkCooldown userId commandName env (tick dt s)
              = (Normal (Some (inject_Z (stamp + COOLDOWN_TIME - clock (tick dt s))
                               / inject_Z 1000)%Q), tick dt s)) as Heq.
      { rewrite checkCooldown_unfold. cbn zeta. fold key.
        change (cooldowns (tick dt s)) with (cooldowns s). rewrite Hentry.
        change (clock (tick dt s)) with (clock s + dt).
        destruct (Z.ltb_spec (clock s + dt) (stamp + COOLDOWN_TIME)); [done | lia]. }
      rewrite Heq. cbn [fst snd].
      destruct (IH (tick dt s) stamp Hentry Hlater) as [Hwait Hsame].
      split; [|exact Hsame].
      constructor; [|exact Hwait].
      eexists. split; [done|]. apply seconds_left_positive.
      change (clock (tick dt s)) with (clock s + dt). lia.
Qed.

Lemma checkCooldown_window_witness :
  must_wait (result (checkCooldown alice "kick") quiet village_after_kick)
  /\ exec (checkCooldown alice "kick") quiet village_after_kick = village_after_kick
  /\ result (checkCooldown alice "kick") quiet (tick 2000 village_after_kick) = Normal None
  /\ cooldowns (check_all alice "kick" [(500, quiet); (500, quiet); (900, quiet)]
                  village_after_kick).2
     = cooldowns village_after_kick.
Proof.
  destruct (checkCooldown_window alice "kick") as (Hfree & Hwait & Hspam).
  assert (cooldowns village_after_kick !! cooldown_key alice "kick" = Some 1700000009000)
    as Hentry by (vm_compute; reflexivity).
  destruct (Hwait quiet village_after_kick _ Hentry) as [Heq Hpos]; [reflexivity|].
  split; [exact Hpos|]. split; [unfold exec; by rewrite Heq|].
  split.
  - unfold result. rewrite (Hfree quiet (tick 2000 village_after_kick)); [reflexivity|].
    right. exists 1700000009000. split; [exact Hentry | vm_compute; discriminate].
  - apply (Hspam [(500, quiet); (500, quiet); (900, quiet)] village_after_kick _ Hentry).
    repeat constructor.
Defined.

(** ** The audit channel *)

Lemma logAction_unfold embed env s :
  logAction embed env s =
    match LOGS_CHANNEL_ID env with
    | None => (Normal tt, s)
    | Some id =>
        let f := channels_fetch id in
        let s1 := logged f (negb (throws env f)) (latency env f) s in
        if throws env f then (Normal tt, s1)
        else if bool_decide (id ∈ channels s) then
          let c := channel_send id embed in
          (Normal tt, logged c (negb (throws env c)) (latency env c) s1)
        else (Normal tt, s1)
    end.
Proof.
  unfold logAction, client_channels_fetch. run.
  destruct (LOGS_CHANNEL_ID env) as [id|]; [|done]. cbn zeta.
  destruct (throws env (channels_fetch id)); [done|]. cbn [channels logged negb].
  destruct (bool_decide _); [|done]. by destruct (throws env _).
Qed.

(** [logAction] returns normally and changes nothing but the clock and
    the log of calls, to which it adds calls of its own. *)
Lemma logAction_spec title env s :
  let s' := exec (logAction (AuditRecord title)) env s in
  (logAction (AuditRecord title) env s).1 = Normal tt
  /\ kept s' = kept s /\ kept_by_calls s' = kept_by_calls s
  /\ exists calls, trace s' = trace s ++ calls /\ Forall (is_audit_call env) calls.
Proof.
  cbn zeta. unfold exec. rewrite logAction_unfold.
  destruct (LOGS_CHANNEL_ID env) as [id|] eqn:L.
  2:{ repeat split. exists []. by rewrite app_nil_r. }
  cbn zeta. destruct (throws env (channels_fetch id)).
  { repeat split. eexists. split; [done|]. by repeat constructor. }
  destruct (bool_decide _).
  - repeat split. eexists. cbn [snd trace logged]. rewrite <- app_assoc.
    split; [done|]. by repeat constructor.
  - repeat split. eexists. split; [done|]. by repeat constructor.
Qed.

(** A handler that goes on after [logAction]: the call has returned. *)
Ltac logAction_returns :=
  match goal with
  | |- context [logAction (AuditRecord ?t) ?env ?x] =>
      let H := fresh in
      pose proof (proj1 (logAction_spec t env x)) as H;
      destruct (logAction (AuditRecord t) env x) as [r' s'];
      cbn [fst snd] in H |- *; by subst r'
  end.

(** ** Clear *)

(** The command accepts an amount exactly when [parseInt] reads a number
    from 1 to 100 in the first argument; then, and only then, it calls
    [bulkDelete]. *)
Lemma clear_command_validation args here env s :
  clear_command true args here env s =
    match Js.parseInt_arg (head args) with
    | Some amount =>
        if (1 <=? amount) && (amount <=? 100)
        then clear_command_end env here amount s
        else (Normal BadAmount, s)
    | None => (Normal BadAmount, s)
    end.
Proof.
  unfold clear_command. cbn [negb]. destruct (Js.parseInt_arg _) as [amount|]; [|done].
  destruct (Z.ltb_spec amount 1), (Z.ltb_spec 100 amount),
    (Z.leb_spec 1 amount), (Z.leb_spec amount 100); try lia; cbn [orb andb]; try done.
  unfold clear_command_end, try_catch, mbind, M_bind, perform, exec. cbn zeta.
  destruct (throws env (channel_bulkDelete _ _)); [done|].
  destruct (throws env (message_reply _)); [done|]. cbn [negb].
  pose proof (logAction_spec "Messages Cleared" env
                (logged (message_reply here) true (latency env (message_reply here))
                   (logged (channel_bulkDelete here (Js.Num (Js.of_Z amount))) true
                      (latency env (channel_bulkDelete here (Js.Num (Js.of_Z amount)))) s)))
    as [Hret _].
  destruct (logAction _ env _) as [r s']. cbn [fst] in Hret. by subst r.
Qed.

(** What the [try] statement leaves: the call of [bulkDelete] first, and
    after it no other call of [bulkDelete]; the answer is [Deleted] when
    that call and the reply complete. *)
Lemma clear_command_end_spec env here amount s :
  let d := channel_bulkDelete here (Js.Num (Js.of_Z amount)) in
  let r := clear_command_end env here amount s in
  kept r.2 = kept s /\ member_roles r.2 = member_roles s
  /\ (exists rest, trace r.2 = trace s ++ (d, negb (throws env d)) :: rest
                   /\ Forall (fun e => is_bulkDelete e = false) rest
                   /\ (throws env d = true -> rest = []))
  /\ r.1 = Normal (if throws env d || throws env (message_reply here)
                   then ClearFailed else Deleted amount).
Proof.
  cbn zeta. unfold clear_command_end. cbn zeta.
  destruct (throws env (channel_bulkDelete _ _)) eqn:D.
  { repeat split. exists []. by repeat split. }
  destruct (throws env (message_reply here)) eqn:R.
  { repeat split. eexists. cbn [snd trace logged]. rewrite <- app_assoc.
    split; [done|]. split; [by repeat constructor | done]. }
  cbn [fst snd orb].
  match goal with |- context [exec (logAction _) env ?x] => set (s2 := x) end.
  destruct (logAction_spec "Messages Cleared" env s2) as (_ & K1 & K2 & calls & Ht & Hc).
  split; [by rewrite K1|]. split.
  { transitivity (member_roles s2); [unfold kept_by_calls in K2; congruence | done]. }
  split; [|done]. eexists. rewrite Ht. unfold s2. cbn [trace logged]. rewrite <- !app_assoc.
  split; [done|]. split; [|done]. constructor; [done|].
  eapply Forall_impl; [exact Hc|]. intros [c ok] Hcall. unfold is_audit_call in Hcall.
  by destruct c.
Qed.

Lemma clear_command_amounts here env s :
  clear_command true ["0"%string] here env s = (Normal BadAmount, s)
  /\ clear_command true ["101"%string] here env s = (Normal BadAmount, s)
  /\ clear_command true ["abc"%string] here env s = (Normal BadAmount, s)
  /\ clear_command true [] here env s = (Normal BadAmount, s)
  /\ (channel_bulkDelete here (Js.Num (Js.of_Z 1)), negb (throws env (channel_bulkDelete here (Js.Num (Js.of_Z 1)))))
     ∈ trace (exec (clear_command true ["1"%string] here) env s)
  /\ (channel_bulkDelete here (Js.Num (Js.of_Z 100)), negb (throws env (channel_bulkDelete here (Js.Num (Js.of_Z 100)))))
     ∈ trace (exec (clear_command true ["100"%string] here) env s).
Proof.
  unfold exec. rewrite !clear_command_validation.
  assert (forall n, (clear_command_end env here n s).2 = (clear_command_end env here n s).2
                    -> (channel_bulkDelete here (Js.Num (Js.of_Z n)),
                        negb (throws env (channel_bulkDelete here (Js.Num (Js.of_Z n)))))
                       ∈ trace (clear_command_end env here n s).2) as Hin.
  { intros n _. destruct (clear_command_end_spec env here n s) as (_ & _ & (rest & -> & _) & _).
    apply elem_of_app. right. apply list_elem_of_here. }
  repeat split; try reflexivity.
  - change (Js.parseInt_arg (head ["1"%string])) with (Some 1). by apply Hin.
  - change (Js.parseInt_arg (head ["100"%string])) with (Some 100). by apply Hin.
Qed.

Lemma api_clear_unfold S2N channelId amount env s :
  api_clear S2N channelId amount env s =
    let f := channels_fetch channelId in
    let s1 := logged f (negb (throws env f)) (latency env f) s in
    if throws env f then (Normal (Failure (PlatformError f)), s1)
    else if bool_decide (channelId ∈ channels s) then
      if Js.lt_num S2N amount 1 || Js.gt_num S2N amount 100
      then (Normal (Failure (AppError "Amount must be between 1 and 100")), s1)
      else
        let d := channel_bulkDelete channelId amount in
        (Normal (if throws env d then Failure (PlatformError d) else Success None),
         logged d (negb (throws env d)) (latency env d) s1)
    else (Normal (Failure (AppError "Channel not found")), s1).
Proof.
  unfold api_clear, client_channels_fetch. run. cbn zeta.
  destruct (throws env (channels_fetch channelId)); [done|]. cbn [negb logged channels].
  destruct (bool_decide _); [|done].
  destruct (_ || _); [done|]. by destruct (throws env _).
Qed.

Lemma Qcompare_inject_Z (a b : Z) : (inject_Z a ?= inject_Z b)%Q = (a ?= b).
Proof. unfold Qcompare, inject_Z. simpl. by rewrite !Z.mul_1_r. Qed.

(** The endpoint rejects the numbers 0 and 101 and lets 1 and 100
    through to [bulkDelete]. *)
Lemma api_clear_numbers S2N env s n :
  throws env (channels_fetch general) = false ->
  general ∈ channels s ->
  (api_clear S2N general (Js.Num (Js.of_Z n)) env s).1
  = if (1 <=? n) && (n <=? 100)
    then Normal (if throws env (channel_bulkDelete general (Js.Num (Js.of_Z n)))
                 then Failure (PlatformError (channel_bulkDelete general (Js.Num (Js.of_Z n))))
                 else Success None)
    else Normal (Failure (AppError "Amount must be between 1 and 100")).
Proof.
  intros Hf Hin. rewrite api_clear_unfold. cbn zeta. rewrite Hf.
  rewrite bool_decide_eq_true_2 by done.
  unfold Js.lt_num, Js.gt_num, Js.ToNumber, Js.lt, Js.of_Z.
  rewrite !Qcompare_inject_Z.
  destruct (Z.leb_spec 1 n), (Z.leb_spec n 100);
    destruct (Z.compare_spec n 1), (Z.compare_spec 100 n); try lia; done.
Qed.



(** ** The leaderboard cycle *)

Lemma elem_of_role_members role m s : m ∈ role_members role s <-> holds role m s.
Proof.
  unfold role_members, holds. rewrite list_elem_of_fmap. split.
  - intros ([k rs] & -> & H). apply elem_of_map_to_list in H.
    apply map_lookup_filter_Some in H as [H1 H2]. by exists rs.
  - intros (rs & H1 & H2). exists (m, rs). split; [done|].
    apply elem_of_map_to_list, map_lookup_filter_Some. done.
Qed.

Lemma without_not_elem role rs : role ∉ rs -> without role rs = rs.
Proof.
  intros H. unfold without. induction rs as [|r rs IH]; [done|].
  apply not_elem_of_cons in H as [H1 H2]. simpl.
  destruct (N.eqb_spec r role); [congruence|]. simpl. by rewrite IH.
Qed.

Lemma without_idemp role rs : without role (without role rs) = without role rs.
Proof.
  unfold without. induction rs as [|r rs IH]; [done|]. simpl.
  destruct (N.eqb_spec r role) as [|Hne]; simpl; [done|].
  destruct (N.eqb_spec r role); [done|]. simpl. by rewrite IH.
Qed.

Lemma not_elem_of_without role rs : role ∉ without role rs.
Proof.
  unfold without. intros H. apply list_elem_of_In, filter_In in H as [_ H].
  by rewrite N.eqb_refl in H.
Qed.

Lemma for_of_fold {A} (body : A -> M unit) (turn : State -> A -> State) env l s :
  (forall x s, body x env s = (Normal tt, turn s x)) ->
  for_of l body env s = (Normal tt, fold_left turn l s).
Proof.
  intros Hbody. revert s. induction l as [|x l IH]; intros s; [done|].
  cbn [for_of fold_left]. unfold mbind at 1, M_bind at 1. rewrite Hbody. apply IH.
Qed.

Lemma strip_turns_kept env role holders s :
  kept (fold_left (strip_turn env role) holders s) = kept s.
Proof.
  revert s. induction holders as [|m holders IH]; intros s; [done|].
  cbn [fold_left]. rewrite IH. unfold strip_turn. cbn zeta. by destruct (throws env _).
Qed.

Lemma strip_turns_trace env role holders s :
  trace (fold_left (strip_turn env role) holders s)
  = trace s ++ map (fun m => (member_roles_remove m role,
                              negb (throws env (member_roles_remove m role)))) holders.
Proof.
  revert s. induction holders as [|m holders IH]; intros s.
  - simpl. by rewrite app_nil_r.
  - cbn [fold_left map]. rewrite IH. unfold strip_turn. cbn zeta.
    destruct (throws env _); cbn [trace logged set_roles_of with_member_roles];
      by rewrite <- app_assoc.
Qed.

Lemma strip_turns_roles env role holders s m :
  member_roles (fold_left (strip_turn env role) holders s) !! m
  = member_roles s !! m
  \/ member_roles (fold_left (strip_turn env role) holders s) !! m
     = without role <$> member_roles s !! m.
Proof.
  revert s. induction holders as [|h holders IH]; intros s; [by left|].
  cbn [fold_left].
  assert (member_roles (strip_turn env role s h) !! m = member_roles s !! m
          \/ member_roles (strip_turn env role s h) !! m = without role <$> member_roles s !! m)
    as Hturn.
  { unfold strip_turn. cbn zeta. destruct (throws env _); [by left|].
    cbn [member_roles set_roles_of with_member_roles logged].
    destruct (decide (h = m)) as [->|Hne].
    - right. by rewrite lookup_alter_eq.
    - left. by rewrite lookup_alter_ne. }
  destruct (IH (strip_turn env role s h)) as [-> | ->], Hturn as [-> | ->]; auto.
  right. destruct (member_roles s !! m); [|done]. simpl. by rewrite without_idemp.
Qed.

Lemma strip_turns_all env role holders s m :
  (forall c, throws env c = false) ->
  m ∈ holders ->
  member_roles (fold_left (strip_turn env role) holders s) !! m
  = without role <$> member_roles s !! m.
Proof.
  intros Hok. revert s. induction holders as [|h holders IH]; intros s Hin.
  - by apply elem_of_nil in Hin.
  - cbn [fold_left].
    assert (member_roles (strip_turn env role s h) !! h = without role <$> member_roles s !! h)
      as Hh.
    { unfold strip_turn. cbn zeta. rewrite Hok.
      cbn [member_roles set_roles_of with_member_roles logged]. by rewrite lookup_alter_eq. }
    destruct (decide (m ∈ holders)) as [Hlater|Hnot].
    + rewrite (IH _ Hlater). unfold strip_turn. cbn zeta. rewrite Hok.
      cbn [member_roles set_roles_of with_member_roles logged].
      destruct (decide (h = m)) as [->|Hne].
      * rewrite lookup_alter_eq. destruct (member_roles s !! m); [|done].
        simpl. by rewrite without_idemp.
      * by rewrite lookup_alter_ne.
    + apply elem_of_cons in Hin as [->|Hin]; [|done].
      destruct (strip_turns_roles env role holders (strip_turn env role s h) h) as [-> | ->].
      * done.
      * rewrite Hh. destruct (member_roles s !! h); [|done]. simpl. by rewrite without_idemp.
Qed.

Lemma removeWinnerRole_unfold env s :
  removeWinnerRole env s =
    let role := WINNER_ROLE_ID env in
    let f := roles_fetch role in
    let s1 := logged f (negb (throws env f)) (latency env f) s in
    if throws env f then (Normal tt, s1)
    else
      match find_role (fun r => (role_id r =? role)%N) s with
      | None => (Normal tt, s1)
      | Some r => (Normal tt, fold_left (strip_turn env role) (role_members (role_id r) s) s1)
      end.
Proof.
  unfold removeWinnerRole, guild_roles_fetch. run. cbn zeta.
  destruct (throws env (roles_fetch _)); [done|].
  change (find_role ?p (logged ?c ?b ?d s)) with (find_role p s).
  destruct (find_role _ s) as [r|]; [|done].
  change (role_members ?x (logged ?c ?b ?d s)) with (role_members x s).
  rewrite (for_of_fold _ (strip_turn env (WINNER_ROLE_ID env))); [done|].
  intros m s'. unfold roles_remove, strip_turn. run. cbn zeta. by destruct (throws env _).
Qed.

Lemma find_role_id role s r :
  find_role (fun r => (role_id r =? role)%N) s = Some r -> role_id r = role.
Proof. intros H. apply find_some in H as [_ H]. by apply N.eqb_eq. Qed.

Lemma removeWinnerRole_returns env s : (removeWinnerRole env s).1 = Normal tt.
Proof.
  rewrite removeWinnerRole_unfold. cbn zeta.
  destruct (throws env _); [done|]. by destruct (find_role _ s).
Qed.

Lemma removeWinnerRole_kept env s : kept (exec removeWinnerRole env s) = kept s.
Proof.
  unfold exec. rewrite removeWinnerRole_unfold. cbn zeta.
  destruct (throws env _); [done|]. destruct (find_role _ s); [|done].
  cbn [snd]. by rewrite strip_turns_kept.
Qed.

Lemma removeWinnerRole_trace env s :
  exists calls, trace (exec removeWinnerRole env s) = trace s ++ calls
                /\ Forall (is_strip_call (WINNER_ROLE_ID env)) calls.
Proof.
  unfold exec. rewrite removeWinnerRole_unfold. cbn zeta.
  destruct (throws env _) eqn:T.
  { eexists. split; [done|]. by repeat constructor. }
  destruct (find_role _ s) eqn:F.
  2:{ eexists. split; [done|]. by repeat constructor. }
  cbn [snd]. rewrite strip_turns_trace. cbn [trace logged]. rewrite <- app_assoc.
  eexists. split; [done|]. constructor; [done|].
  apply Forall_forall. intros e He. apply list_elem_of_fmap in He as (m & -> & _). done.
Qed.

Lemma removeWinnerRole_roles env s m :
  member_roles (exec removeWinnerRole env s) !! m = member_roles s !! m
  \/ member_roles (exec removeWinnerRole env s) !! m
     = without (WINNER_ROLE_ID env) <$> member_roles s !! m.
Proof.
  unfold exec. rewrite removeWinnerRole_unfold. cbn zeta.
  destruct (throws env _); [by left|]. destruct (find_role _ s); [|by left].
  cbn [snd]. exact (strip_turns_roles env _ _ (logged _ _ _ s) m).
Qed.

(** When the role is there and no call fails, the strip step takes the
    role from every member, by a removal for each of its holders. *)
Lemma removeWinnerRole_strips env s r :
  (forall c, throws env c = false) ->
  find_role (fun r => (role_id r =? WINNER_ROLE_ID env)%N) s = Some r ->
  (forall m, member_roles (exec removeWinnerRole env s) !! m
             = without (WINNER_ROLE_ID env) <$> member_roles s !! m)
  /\ (forall m, holds (WINNER_ROLE_ID env) m s ->
                (member_roles_remove m (WINNER_ROLE_ID env), true)
                ∈ trace (exec removeWinnerRole env s)).
Proof.
  intros Hok Hrole. unfold exec. rewrite removeWinnerRole_unfold. cbn zeta.
  rewrite Hok, Hrole. cbn [snd]. rewrite (find_role_id _ _ _ Hrole). split.
  - intros m. destruct (decide (m ∈ role_members (WINNER_ROLE_ID env) s)) as [Hin|Hnot].
    + by rewrite strip_turns_all.
    + destruct (strip_turns_roles env (WINNER_ROLE_ID env)
                  (role_members (WINNER_ROLE_ID env) s)
                  (logged (roles_fetch (WINNER_ROLE_ID env)) (negb false)
                     (latency env (roles_fetch (WINNER_ROLE_ID env))) s) m) as [-> | ->];
        [|done].
      cbn [member_roles logged]. destruct (member_roles s !! m) as [rs|] eqn:E; [|done].
      simpl. rewrite without_not_elem; [done|].
      intros Hin. apply Hnot, elem_of_role_members. by exists rs.
  - intros m Hm. rewrite strip_turns_trace. apply elem_of_app. right.
    apply list_elem_of_fmap. exists m. rewrite Hok. split; [done|].
    by apply elem_of_role_members.
Qed.

Lemma giveWinnerRole_unfold winnerId env s :
  giveWinnerRole winnerId env s =
    let role := WINNER_ROLE_ID env in
    let f := members_fetch winnerId in
    let s1 := logged f (negb (throws env f)) (latency env f) s in
    if throws env f then (Normal tt, s1)
    else
      match member_roles s !! winnerId with
      | None => (Normal tt, s1)
      | Some _ =>
          let a := member_roles_add winnerId role in
          let s2 := logged a (negb (throws env a)) (latency env a) s1 in
          if throws env a then (Normal tt, s2)
          else (Normal tt,
                set_roles_of winnerId
                  (fun rs => if bool_decide (role ∈ rs) then rs else rs ++ [role]) s2)
      end.
Proof.
  unfold giveWinnerRole, guild_members_fetch, roles_add. run. cbn zeta.
  destruct (throws env (members_fetch _)); [done|].
  cbn [member_roles logged]. destruct (member_roles s !! winnerId); [|done].
  by destruct (throws env _).
Qed.

Lemma giveWinnerRole_returns winnerId env s : (giveWinnerRole winnerId env s).1 = Normal tt.
Proof.
  rewrite giveWinnerRole_unfold. cbn zeta. destruct (throws env _); [done|].
  destruct (member_roles s !! winnerId); [|done]. by destruct (throws env _).
Qed.

Lemma giveWinnerRole_kept winnerId env s : kept (exec (giveWinnerRole winnerId) env s) = kept s.
Proof.
  unfold exec. rewrite giveWinnerRole_unfold. cbn zeta. destruct (throws env _); [done|].
  destruct (member_roles s !! winnerId); [|done]. by destruct (throws env _).
Qed.

Lemma kept_fields s s' :
  kept s' = kept s ->
  leaderboard s' = leaderboard s /\ lastSave s' = lastSave s /\ data_file s' = data_file s
  /\ channels s' = channels s /\ guild_roles s' = guild_roles s.
Proof. unfold kept. intros H. by simplify_eq. Qed.

Lemma sendLeaderboard_unfold env s :
  sendLeaderboard env s =
    let ch := CHANNEL_ID env in
    let f := channels_fetch ch in
    let s0 := logged f (negb (throws env f)) (latency env f) s in
    if throws env f then (Normal tt, s0)
    else if bool_decide (ch ∈ channels s) then
      let s1 := exec removeWinnerRole env s0 in
      match ranked (leaderboard s) with
      | [] =>
          let n := channel_send ch NoActivityNotice in
          (Normal tt, logged n (negb (throws env n)) (latency env n) s1)
      | first :: _ =>
          let a := channel_send ch (announcement_of (leaderboard s)) in
          let s2 := logged a (negb (throws env a)) (latency env a) s1 in
          if throws env a then (Normal tt, s2)
          else saveData true env (with_leaderboard [] (exec (giveWinnerRole first.1) env s2))
      end
    else (Normal tt, s0).
Proof.
  unfold sendLeaderboard, client_channels_fetch. run. cbn zeta.
  destruct (throws env (channels_fetch _)); [done|].
  cbn [channels logged negb]. destruct (bool_decide _); [|done].
  set (s0 := logged _ true _ s).
  pose proof (removeWinnerRole_returns env s0) as Hret.
  pose proof (removeWinnerRole_kept env s0) as Hkept.
  unfold exec in *. destruct (removeWinnerRole env s0) as [c s1]. cbn [fst snd] in *. subst c.
  apply kept_fields in Hkept as (Hlb & _). change (leaderboard s0) with (leaderboard s) in Hlb.
  rewrite Hlb. unfold announcement_of. cbn zeta.
  destruct (ranked (leaderboard s)) as [|first rest] eqn:R.
  - cbn [length Nat.eqb]. by destruct (throws env _).
  - cbn [length Nat.eqb]. destruct (throws env _); [done|]. cbn [negb].
    match goal with
    | |- context [giveWinnerRole ?w env ?x] =>
        pose proof (giveWinnerRole_returns w env x) as Hgive;
        destruct (giveWinnerRole w env x) as [c s3]
    end.
    cbn [fst snd] in *. subst c.
    rewrite saveData_unfold. cbn [negb andb]. cbn zeta. by destruct (throws env _).
Qed.

Lemma ranked_nonempty lb : lb ≠ [] -> ranked lb ≠ [].
Proof.
  intros Hlb Hr. apply Hlb. apply (f_equal length) in Hr. unfold ranked, Js.slice_to in Hr.
  rewrite length_firstn, Array_sort_length in Hr.
  rewrite (Permutation_length (Object_entries_perm lb)) in Hr.
  destruct lb; [done|]. simpl in Hr. lia.
Qed.

Lemma writes_tried_app s s' calls :
  trace s' = trace s ++ calls ->
  Forall (fun e => is_write e = false) calls ->
  writes_tried s' = writes_tried s.
Proof.
  intros Ht Hc. unfold writes_tried. rewrite Ht, List.filter_app, length_app.
  assert (List.filter is_write calls = []) as ->; [|simpl; lia].
  clear Ht. induction Hc as [|e calls He _ IH]; cbn [List.filter]; [done|].
  rewrite He. exact IH.
Qed.

Lemma removeWinnerRole_writes_tried env s :
  writes_tried (exec removeWinnerRole env s) = writes_tried s.
Proof.
  destruct (removeWinnerRole_trace env s) as (calls & Ht & Hc).
  apply (writes_tried_app _ _ calls Ht).
  eapply Forall_impl; [exact Hc|]. intros [[] ?]; done.
Qed.

Lemma writes_tried_logged c ok dt s :
  writes_tried (logged c ok dt s) = (writes_tried s + if is_write (c, ok) then 1 else 0)%nat.
Proof.
  unfold writes_tried. cbn [trace logged]. rewrite List.filter_app, length_app.
  cbn [List.filter]. by destruct (is_write (c, ok)).
Qed.

(** C4.  On an empty tally the cycle returns normally and leaves the tally,
    the data file and [lastSave] as they were; the calls it makes are the
    fetch of the channel, the strip of the reward role and the notice that
    nothing was recorded, so nothing is written and no role is granted; a
    member has afterwards the roles it had, the reward role possibly taken
    away.  When the channel is found and the send completes, the notice is
    delivered. *)
Theorem sendLeaderboard_empty_tally env s :
  leaderboard s = [] ->
  let s' := exec sendLeaderboard env s in
  result sendLeaderboard env s = Normal tt
  /\ kept s' = kept s
  /\ (exists calls, trace s' = trace s ++ calls /\ Forall (is_empty_cycle_call env) calls)
  /\ (forall m, member_roles s' !! m = member_roles s !! m
                \/ member_roles s' !! m = without (WINNER_ROLE_ID env) <$> member_roles s !! m)
  /\ (throws env (channels_fetch (CHANNEL_ID env)) = false ->
      CHANNEL_ID env ∈ channels s ->
      throws env (channel_send (CHANNEL_ID env) NoActivityNotice) = false ->
      (channel_send (CHANNEL_ID env) NoActivityNotice, true) ∈ trace s').
Proof.
  intros Hempty s'. subst s'. unfold exec, result. rewrite sendLeaderboard_unfold. cbn zeta.
  rewrite Hempty. change (ranked []) with (@nil (N * Z)). cbn iota.
  set (f := channels_fetch (CHANNEL_ID env)).
  set (n := channel_send (CHANNEL_ID env) NoActivityNotice).
  destruct (throws env f) eqn:Tf.
  { cbn [fst snd]. split; [done|]. split; [done|]. split.
    - exists [(f, false)]. split; [done|]. constructor; [|done]. right. by left.
    - split; [by left | intros; congruence]. }
  destruct (bool_decide (CHANNEL_ID env ∈ channels s)) eqn:Hch.
  2:{ cbn [fst snd]. split; [done|]. split; [done|]. split.
      - exists [(f, true)]. split; [done|]. constructor; [|done]. right. by left.
      - split; [by left|]. intros _ Hin. apply bool_decide_eq_false in Hch. done. }
  cbn [fst snd negb].
  set (s0 := logged f true (latency env f) s).
  destruct (removeWinnerRole_trace env s0) as (calls & Ht & Hc).
  split; [done|]. split; [|split; [|split]].
  - change (kept (logged ?c ?b ?d ?x)) with (kept x). by rewrite removeWinnerRole_kept.
  - exists ((f, true) :: calls ++ [(n, negb (throws env n))]). split.
    + cbn [trace logged]. rewrite Ht. cbn [trace logged s0]. by rewrite <- !app_assoc.
    + constructor; [right; by left|]. apply Forall_app. split.
      * eapply Forall_impl; [exact Hc|]. intros e He. by left.
      * constructor; [|done]. right. by right.
  - intros m. exact (removeWinnerRole_roles env s0 m).
  - intros _ _ Hsend. cbn [trace logged]. rewrite Hsend.
    apply elem_of_app. right. apply list_elem_of_singleton. done.
Qed.

(** C10.  The cycle always returns normally: what a call throws is caught
    inside.  When the fetch of the channel throws, or the send of the
    announcement throws, the tally in memory, the data file and [lastSave]
    are what they were and no write was tried.  In every run, either that
    is so, or the announcement was delivered. *)
Theorem sendLeaderboard_failure_before_reset env s :
  let s' := exec sendLeaderboard env s in
  result sendLeaderboard env s = Normal tt
  /\ (throws env (channels_fetch (CHANNEL_ID env)) = true
      \/ throws env (channel_send (CHANNEL_ID env) (announcement_of (leaderboard s))) = true ->
      store_untouched s s')
  /\ (store_untouched s s'
      \/ (channel_send (CHANNEL_ID env) (announcement_of (leaderboard s)), true) ∈ trace s').
Proof.
  intros s'. subst s'. unfold exec, result. rewrite sendLeaderboard_unfold. cbn zeta.
  set (f := channels_fetch (CHANNEL_ID env)).
  assert (forall c ok dt x, is_write (c, ok) = false -> store_untouched s x ->
                            store_untouched s (logged c ok dt x)) as Hlog.
  { intros c ok dt x Hw (H1 & H2 & H3 & H4). repeat split; try done.
    rewrite writes_tried_logged, Hw. lia. }
  assert (store_untouched s s) as Hs by done.
  destruct (throws env f) eqn:Tf.
  { cbn [fst snd]. split; [done|]. split; [intros _|left]; by apply Hlog. }
  destruct (bool_decide (CHANNEL_ID env ∈ channels s)).
  2:{ cbn [fst snd]. split; [done|]. split; [intros _|left]; by apply Hlog. }
  set (s0 := logged f (negb false) (latency env f) s).
  assert (store_untouched s (exec removeWinnerRole env s0)) as H1.
  { pose proof (removeWinnerRole_kept env s0) as Hk. apply kept_fields in Hk as (? & ? & ? & _).
    repeat split; try done. rewrite removeWinnerRole_writes_tried. subst s0.
    rewrite writes_tried_logged. simpl. lia. }
  destruct (ranked (leaderboard s)) as [|first rest] eqn:R.
  { cbn [fst snd]. split; [done|]. split; [intros _|left]; by apply Hlog. }
  set (a := channel_send (CHANNEL_ID env) _).
  destruct (throws env a) eqn:Ta.
  { cbn [fst snd]. split; [done|]. split; [intros _|left]; by apply Hlog. }
  rewrite saveData_unfold. cbn [negb andb]. cbn zeta.
  set (w := fs_writeFileSync _). split; [by destruct (throws env w)|]. split.
  - intros [Hf|Hsend]; [congruence|]. subst a. congruence.
  - right.
    assert ((channel_send (CHANNEL_ID env) (announcement_of (leaderboard s)), true)
            ∈ trace (exec (giveWinnerRole first.1) env
                       (logged a true (latency env a) (exec removeWinnerRole env s0)))) as Hin.
    { unfold exec at 1. rewrite giveWinnerRole_unfold. cbn zeta.
      assert ((channel_send (CHANNEL_ID env) (announcement_of (leaderboard s)), true)
              ∈ trace (logged a true (latency env a) (exec removeWinnerRole env s0))) as H0.
      { cbn [trace logged]. apply elem_of_app. right. by apply list_elem_of_singleton. }
      destruct (throws env (members_fetch _)); cbn [snd trace logged].
      { apply elem_of_app. by left. }
      destruct (member_roles _ !! _); cbn [snd trace logged].
      2:{ apply elem_of_app. by left. }
      destruct (throws env (member_roles_add _ _));
        cbn [snd trace logged set_roles_of with_member_roles];
        apply elem_of_app; left; apply elem_of_app; by left. }
    destruct (throws env w); [destruct (truncates env w)|];
      cbn [snd trace logged with_leaderboard with_lastSave with_data_file];
      apply elem_of_app; by left.
Qed.

Lemma giveWinnerRole_grants winnerId env s rs :
  (forall c, throws env c = false) ->
  member_roles s !! winnerId = Some rs ->
  let s' := exec (giveWinnerRole winnerId) env s in
  let role := WINNER_ROLE_ID env in
  member_roles s'
  = alter (fun rs => if bool_decide (role ∈ rs) then rs else rs ++ [role]) winnerId
      (member_roles s)
  /\ trace s' = trace s ++ [(members_fetch winnerId, true);
                            (member_roles_add winnerId role, true)].
Proof.
  intros Hok Hm. cbn zeta. unfold exec. rewrite giveWinnerRole_unfold. cbn zeta.
  rewrite !Hok, Hm. cbn [snd negb member_roles trace logged set_roles_of with_member_roles].
  split; [done|]. by rewrite <- app_assoc.
Qed.

(** C3.  On a tally that is not empty, when no call fails, the channel
    and the reward role exist and the user ranked first is a member of the
    guild: afterwards the tally is empty, the data file holds the empty
    tally and [lastSave] is the present time; the reward role was added to
    the user ranked first, who is then its only holder; and for every
    member that held the role before, a removal of the role completed. *)
Theorem sendLeaderboard_rewards_and_resets env s role :
  leaderboard s ≠ [] ->
  (forall c, throws env c = false) ->
  CHANNEL_ID env ∈ channels s ->
  find_role (fun r => (role_id r =? WINNER_ROLE_ID env)%N) s = Some role ->
  (forall e, head (ranked (leaderboard s)) = Some e -> is_Some (member_roles s !! e.1)) ->
  exists first rest,
    ranked (leaderboard s) = first :: rest
    /\ let s' := exec sendLeaderboard env s in
       let reward := WINNER_ROLE_ID env in
       leaderboard s' = []
       /\ data_file s' = Some []
       /\ lastSave s' = clock s'
       /\ (fs_writeFileSync [], true) ∈ trace s'
       /\ (channel_send (CHANNEL_ID env) (announcement_of (leaderboard s)), true) ∈ trace s'
       /\ (member_roles_add first.1 reward, true) ∈ trace s'
       /\ holds reward first.1 s'
       /\ (forall m, holds reward m s' -> m = first.1)
       /\ (forall m, holds reward m s -> (member_roles_remove m reward, true) ∈ trace s').
Proof.
  intros Hlb Hok Hch Hrole Hmember.
  destruct (ranked (leaderboard s)) as [|first rest] eqn:R; [by apply ranked_nonempty in Hlb|].
  exists first, rest. split; [done|]. cbn zeta.
  destruct (Hmember first eq_refl) as [rs Hrs]. clear Hmember.
  unfold exec at 1 2 3 4 5 6 7 8 9 10. rewrite sendLeaderboard_unfold. cbn zeta.
  rewrite R, !Hok, (bool_decide_eq_true_2 _ Hch). cbn [negb].
  set (reward := WINNER_ROLE_ID env).
  set (s0 := logged (channels_fetch (CHANNEL_ID env)) true _ s).
  destruct (removeWinnerRole_strips env s0 role Hok Hrole) as [Hroles Hremoved].
  fold reward in Hroles, Hremoved.
  set (s1 := exec removeWinnerRole env s0) in *.
  set (a := channel_send (CHANNEL_ID env) (announcement_of (leaderboard s))).
  set (s2 := logged a true (latency env a) s1).
  assert (member_roles s2 !! first.1 = Some (without reward rs)) as Hfirst.
  { change (member_roles s2) with (member_roles s1). rewrite Hroles.
    change (member_roles s0) with (member_roles s). by rewrite Hrs. }
  destruct (giveWinnerRole_grants first.1 env s2 _ Hok Hfirst) as [Hgiven Htrace].
  fold reward in Hgiven, Htrace.
  pose proof (giveWinnerRole_kept first.1 env s2) as Hkept.
  set (s3 := exec (giveWinnerRole first.1) env s2) in *.
  rewrite saveData_unfold. cbn [negb andb]. cbn zeta. rewrite Hok.
  cbn [snd leaderboard lastSave data_file clock trace member_roles
         with_leaderboard with_lastSave with_data_file logged].
  assert (forall m, holds reward m
            (with_lastSave (clock s3 + latency env (fs_writeFileSync []))
               (with_data_file (Some [])
                  (logged (fs_writeFileSync []) (negb false)
                     (latency env (fs_writeFileSync [])) (with_leaderboard [] s3))))
          <-> m = first.1) as Hholders.
  { intros m. unfold holds.
    cbn [member_roles with_leaderboard with_lastSave with_data_file logged].
    rewrite Hgiven. change (member_roles s2) with (member_roles s1).
    destruct (decide (first.1 = m)) as [<-|Hne].
    - rewrite lookup_alter_eq, Hroles. change (member_roles s0) with (member_roles s).
      rewrite Hrs. cbn [fmap option_fmap option_map].
      rewrite bool_decide_eq_false_2 by apply not_elem_of_without.
      split; [done|]. intros _. eexists. split; [done|]. apply elem_of_app. right.
      by apply list_elem_of_singleton.
    - rewrite lookup_alter_ne by done. rewrite Hroles. split; [|congruence].
      intros (rs' & Hrs' & Hin). destruct (member_roles s0 !! m); [|done].
      simplify_eq/=. by apply not_elem_of_without in Hin. }
  repeat split; try done.
  - apply elem_of_app. right. by apply list_elem_of_singleton.
  - rewrite Htrace. apply elem_of_app. left. apply elem_of_app. left.
    apply elem_of_app. right. by apply list_elem_of_singleton.
  - rewrite Htrace. apply elem_of_app. left. apply elem_of_app. right.
    apply elem_of_cons. right. by apply list_elem_of_singleton.
  - by apply Hholders.
  - intros m Hm. by apply Hholders in Hm.
  - intros m Hm. rewrite Htrace. apply elem_of_app. left. apply elem_of_app. left.
    apply elem_of_app. left. by apply Hremoved.
Qed.

Lemma sendLeaderboard_empty_witness :
  kept (exec sendLeaderboard quiet (with_leaderboard [] village))
  = kept (with_leaderboard [] village)
  /\ (channel_send (CHANNEL_ID quiet) NoActivityNotice, true)
     ∈ trace (exec sendLeaderboard quiet (with_leaderboard [] village)).
Proof.
  destruct (sendLeaderboard_empty_tally quiet (with_leaderboard [] village) eq_refl)
    as (_ & Hkept & _ & _ & Hnotice).
  split; [exact Hkept|]. apply Hnotice; [reflexivity | | reflexivity].
  apply list_elem_of_here.
Defined.

Lemma sendLeaderboard_failure_witness :
  store_untouched village (exec sendLeaderboard no_send village)
  /\ (channel_send (CHANNEL_ID quiet) (announcement_of (leaderboard village)), true)
     ∈ trace (exec sendLeaderboard quiet village).
Proof.
  destruct (sendLeaderboard_failure_before_reset no_send village) as (_ & Hfail & _).
  split; [apply Hfail; right; reflexivity|].
  destruct (sendLeaderboard_failure_before_reset quiet village) as (_ & _ & [Hsame|Hsent]);
    [|exact Hsent].
  destruct Hsame as (Hlb & _). vm_compute in Hlb. discriminate Hlb.
Defined.

Lemma sendLeaderboard_rewards_witness :
  leaderboard (exec sendLeaderboard quiet village) = []
  /\ data_file (exec sendLeaderboard quiet village) = Some []
  /\ holds (WINNER_ROLE_ID quiet) bob (exec sendLeaderboard quiet village)
  /\ (member_roles_remove dave (WINNER_ROLE_ID quiet), true)
     ∈ trace (exec sendLeaderboard quiet village).
Proof.
  destruct (sendLeaderboard_rewards_and_resets quiet village
              {| role_id := 1420435350949728296; role_name := "Winner" |})
    as (first & rest & R & Hlb & Hfile & _ & _ & _ & _ & Hholds & _ & Hremoved).
  - discriminate.
  - reflexivity.
  - apply list_elem_of_here.
  - reflexivity.
  - intros e He. vm_compute in He. injection He as <-. eexists. vm_compute. reflexivity.
  - vm_compute in R. injection R as <- <-.
    split; [exact Hlb|]. split; [exact Hfile|]. split; [exact Hholds|].
    apply Hremoved. exists [1420435350949728296%N]. split; [vm_compute; reflexivity|].
    apply list_elem_of_here.
Defined.

(** A week and its cycle: three users post 1, 2 and 1 messages, the one
    save that falls after the interval writes the file, the cycle announces
    the three by count, the first poster before the last among the equal
    ones, and leaves the tally empty in memory and on disk. *)
Example week_then_cycle :
  leaderboard busy_week = [(alice, 1); (bob, 2); (carol, 1)]
  /\ data_file busy_week = Some [(alice, 1); (bob, 2)]
  /\ (channel_send (CHANNEL_ID quiet)
        (Announcement [bob; alice; carol] [(bob, 2); (alice, 1); (carol, 1)] [] 4), true)
     ∈ trace (exec sendLeaderboard quiet busy_week)
  /\ leaderboard (exec sendLeaderboard quiet busy_week) = []
  /\ data_file (exec sendLeaderboard quiet busy_week) = Some []
  /\ role_members reward_role (exec sendLeaderboard quiet busy_week) = [bob].
Proof.
  repeat split; try (vm_compute; reflexivity).
  vm_compute. repeat (try apply list_elem_of_here; apply list_elem_of_further).
Qed.

(** ** The mute ledger *)

Lemma deny_in_all_channels_unfold role env s :
  deny_in_all_channels role env s
  = (Normal tt, fold_left (deny_turn env role) (channels s) s).
Proof.
  unfold deny_in_all_channels. run.
  apply for_of_fold. intros ch s'. unfold deny_turn. cbn zeta. by destruct (throws env _).
Qed.

Lemma deny_turns_kept env role chans s :
  kept_by_calls (fold_left (deny_turn env role) chans s) = kept_by_calls s
  /\ guild_roles (fold_left (deny_turn env role) chans s) = guild_roles s.
Proof.
  revert s. induction chans as [|ch chans IH]; intros s; [done|].
  cbn [fold_left]. destruct (IH (deny_turn env role s ch)) as [-> ->]. done.
Qed.

Lemma Muted_created_kept env s : kept_by_calls (Muted_created env s) = kept_by_calls s.
Proof. unfold Muted_created. cbn zeta. by rewrite (proj1 (deny_turns_kept _ _ _ _)). Qed.

Lemma kept_by_calls_fields s s' :
  kept_by_calls s' = kept_by_calls s ->
  mutedUserRoles s' = mutedUserRoles s /\ member_roles s' = member_roles s
  /\ guild_id s' = guild_id s.
Proof. unfold kept_by_calls. intros H. by simplify_eq. Qed.

(** The [mute] command on a user without entry. *)
Lemma mute_command_unfold env s u here :
  mutedUserRoles s !! u = None ->
  mute_command true (Some u) here env s =
    match find_role named_Muted s with
    | Some muteRole => mute_command_end env u (capture_and_replace env u muteRole s)
    | None =>
        let c := roles_create "Muted" in
        if throws env c then (Normal CannotCreateMutedRole, logged c false (latency env c) s)
        else
          let n := channel_send here MutedRoleNotice in
          mute_command_end env u
            (capture_and_replace env u (new_Muted_role env)
               (logged n (negb (throws env n)) (latency env n) (Muted_created env s)))
    end.
Proof.
  intros Hfree.
  unfold mute_command, guild_roles_cache_find, guild_roles_create, roles_set,
    mute_command_end, capture_and_replace. run.
  cbn [negb]. rewrite Hfree, (bool_decide_eq_false_2 (is_Some None)) by (by intros [? ?]).
  fold named_Muted. destruct (find_role named_Muted s) as [muteRole|].
  { cbn zeta. destruct (throws env (member_roles_set _ _)); [done|].
    destruct (throws env (embed_addFields _)); [done|].
    cbn [negb guild_id logged with_mutedUserRoles]. logAction_returns. }
  cbn zeta. destruct (throws env (roles_create _)); [done|].
  rewrite deny_in_all_channels_unfold. fold (new_Muted_role env).
  change (fold_left _ _ _) with (Muted_created env s).
  destruct (throws env (channel_send _ _)); cbn [negb];
    (destruct (throws env (member_roles_set _ _)); [done|]);
    (destruct (throws env (embed_addFields _)); [done|]);
    cbn [negb guild_id logged with_mutedUserRoles]; logAction_returns.
Qed.

(** The endpoint on a user without entry. *)
Lemma api_mute_unfold env s u :
  mutedUserRoles s !! u = None ->
  api_mute u env s =
    let f := members_fetch u in
    let s0 := logged f (negb (throws env f)) (latency env f) s in
    if throws env f then (Normal (Failure (PlatformError f)), s0)
    else
      match member_roles s !! u with
      | None => (Normal (Failure (AppError "Member not found")), s0)
      | Some _ =>
          match find_role named_Muted s with
          | Some muteRole => api_mute_end (capture_and_replace env u muteRole s0)
          | None =>
              let c := roles_create "Muted" in
              if throws env c
              then (Normal (Failure (PlatformError c)), logged c false (latency env c) s0)
              else api_mute_end
                     (capture_and_replace env u (new_Muted_role env) (Muted_created env s0))
          end
      end.
Proof.
  intros Hfree.
  unfold api_mute, guild_members_fetch, guild_roles_cache_find, guild_roles_create, roles_set,
    api_mute_end, capture_and_replace. run. cbn zeta.
  destruct (throws env (members_fetch u)); [done|].
  cbn [member_roles mutedUserRoles logged negb].
  destruct (member_roles s !! u); [|done].
  cbn beta iota. cbn [member_roles mutedUserRoles logged].
  rewrite Hfree, (bool_decide_eq_false_2 (is_Some None)) by (by intros [? ?]).
  change (find_role ?p (logged ?c ?b ?d s)) with (find_role p s). fold named_Muted.
  destruct (find_role named_Muted s) as [muteRole|].
  { by destruct (throws env (member_roles_set _ _)). }
  destruct (throws env (roles_create _)); [done|].
  rewrite deny_in_all_channels_unfold. fold (new_Muted_role env).
  change (fold_left _ _ _) with (Muted_created env (logged (members_fetch u) true
                                   (latency env (members_fetch u)) s)).
  by destruct (throws env (member_roles_set _ _)).
Qed.

(** What the three shared statements leave, on a state whose ledger and
    members are those of [s]. *)
Lemma capture_and_replace_spec env u muteRole s0 s :
  kept_by_calls s0 = kept_by_calls s ->
  let r := capture_and_replace env u muteRole s0 in
  mutedUserRoles r.2 = <[u := roles_but_everyone u s]> (mutedUserRoles s)
  /\ match r.1 with
     | Normal n =>
         n = length (roles_but_everyone u s)
         /\ member_roles r.2
            = alter (fun _ => without (guild_id s) [role_id muteRole]) u (member_roles s)
     | Thrown e =>
         e = PlatformError (member_roles_set u [role_id muteRole])
         /\ member_roles r.2 = member_roles s
     end.
Proof.
  intros Hkept. apply kept_by_calls_fields in Hkept as (Hledger & Hroles & Hgid).
  assert (roles_but_everyone u s0 = roles_but_everyone u s) as Hcap.
  { unfold roles_but_everyone, member_roles_cache. by rewrite Hroles, Hgid. }
  unfold capture_and_replace. cbn zeta. rewrite Hcap, Hledger, Hgid.
  destruct (throws env _);
    cbn [fst snd mutedUserRoles member_roles logged set_roles_of with_member_roles
           with_mutedUserRoles]; by rewrite ?Hroles.
Qed.

(** What the command leaves when it has gone through the three shared
    statements: a refused change of roles leaves the ledger and the roles
    as they were; a record that cannot be built leaves the ledger as it
    was and the roles replaced; otherwise the user is muted. *)
Lemma mute_command_end_spec env u muteRole s0 s :
  kept_by_calls s0 = kept_by_calls s ->
  mutedUserRoles s !! u = None ->
  let r := mute_command_end env u (capture_and_replace env u muteRole s0) in
  let replaced := alter (fun _ => without (guild_id s) [role_id muteRole]) u (member_roles s) in
  guild_roles r.2 = guild_roles s0 /\ guild_id r.2 = guild_id s
  /\ if throws env (member_roles_set u [role_id muteRole])
     then r.1 = Normal MuteFailed
          /\ mutedUserRoles r.2 = mutedUserRoles s /\ member_roles r.2 = member_roles s
     else if throws env (embed_addFields "User Muted")
     then r.1 = Normal MuteFailed
          /\ mutedUserRoles r.2 = mutedUserRoles s /\ member_roles r.2 = replaced
     else r.1 = Normal (Muted (length (roles_but_everyone u s)))
          /\ mutedUserRoles r.2 = <[u := roles_but_everyone u s]> (mutedUserRoles s)
          /\ member_roles r.2 = replaced.
Proof.
  intros Hkept Hfree. cbn zeta.
  destruct (capture_and_replace_spec env u muteRole s0 s Hkept) as [Hledger Hres].
  assert (guild_roles (capture_and_replace env u muteRole s0).2 = guild_roles s0
          /\ guild_id (capture_and_replace env u muteRole s0).2 = guild_id s0) as [Hg Hgid].
  { unfold capture_and_replace. cbn zeta. by destruct (throws env _). }
  assert (guild_id s0 = guild_id s) as Hgid0.
  { unfold kept_by_calls in Hkept. congruence. }
  assert ((capture_and_replace env u muteRole s0).1
          = if throws env (member_roles_set u [role_id muteRole])
            then Thrown (PlatformError (member_roles_set u [role_id muteRole]))
            else Normal (length (roles_but_everyone u s0))) as Hfst.
  { unfold capture_and_replace. cbn zeta. by destruct (throws env _). }
  assert (roles_but_everyone u s0 = roles_but_everyone u s) as Hcap.
  { unfold kept_by_calls in Hkept. unfold roles_but_everyone, member_roles_cache.
    assert (member_roles s0 = member_roles s) as -> by congruence. by rewrite Hgid0. }
  assert (delete u (<[u := roles_but_everyone u s]> (mutedUserRoles s)) = mutedUserRoles s)
    as Hback.
  { rewrite delete_insert_eq. by apply delete_id. }
  unfold mute_command_end.
  destruct (capture_and_replace env u muteRole s0) as [[n|e] s1]; cbn [fst snd] in *;
    destruct (throws env (member_roles_set u [role_id muteRole])); try done.
  - destruct Hres as [_ Hroles]. simplify_eq.
    destruct (throws env (embed_addFields "User Muted")).
    + cbn [fst snd guild_roles guild_id mutedUserRoles member_roles with_mutedUserRoles logged].
      rewrite Hledger, Hback. repeat split; congruence.
    + cbn [fst snd]. rewrite Hcap.
      match goal with |- context [exec (logAction _) env ?x] =>
        destruct (logAction_spec "User Muted" env x) as (_ & K1 & K2 & _) end.
      unfold kept in K1. unfold kept_by_calls in K2.
      cbn [guild_roles guild_id mutedUserRoles member_roles logged] in K1, K2.
      repeat split; congruence.
  - destruct Hres as [_ Hroles].
    cbn [guild_roles guild_id mutedUserRoles member_roles with_mutedUserRoles].
    rewrite Hledger, Hback. repeat split; congruence.
Qed.

(** The chat command never leaves an entry behind a mute that did not
    take place: unless it answers that the user is muted, the ledger is
    what it was; so are the roles of the members, when it is the change
    of roles that the platform has refused. *)
Lemma mute_command_rolls_back env s u here :
  mutedUserRoles s !! u = None ->
  (forall n, result (mute_command true (Some u) here) env s ≠ Normal (Muted n)) ->
  mutedUserRoles (exec (mute_command true (Some u) here) env s) = mutedUserRoles s
  /\ (throws env (member_roles_set u [role_id (Muted_role_used env s)]) = true ->
      member_roles (exec (mute_command true (Some u) here) env s) = member_roles s).
Proof.
  intros Hfree. unfold result, exec, Muted_role_used.
  rewrite (mute_command_unfold _ _ _ _ Hfree).
  assert (forall muteRole s0, kept_by_calls s0 = kept_by_calls s ->
            (forall n, (mute_command_end env u (capture_and_replace env u muteRole s0)).1
                       ≠ Normal (Muted n)) ->
            mutedUserRoles (mute_command_end env u (capture_and_replace env u muteRole s0)).2
            = mutedUserRoles s
            /\ (throws env (member_roles_set u [role_id muteRole]) = true ->
                member_roles (mute_command_end env u (capture_and_replace env u muteRole s0)).2
                = member_roles s)) as Hend.
  { intros muteRole s0 Hkept Hnot.
    destruct (mute_command_end_spec env u muteRole s0 s Hkept Hfree) as (_ & _ & H).
    destruct (throws env (member_roles_set u [role_id muteRole]));
      [|destruct (throws env (embed_addFields "User Muted"))];
      destruct H as (Hr & Hl & Hm); try done.
    by destruct (Hnot (length (roles_but_everyone u s))). }
  destruct (find_role named_Muted s); [by apply Hend|]. cbn zeta.
  destruct (throws env (roles_create _)); [done|].
  cbn [default from_option id].
  apply Hend. change (kept_by_calls (logged ?c ?b ?d ?x)) with (kept_by_calls x).
  apply Muted_created_kept.
Qed.

(** C7, what is wrong: when the endpoint has stored the roles of a member
    and [member.roles.set] then throws, it answers with that error and keeps
    the entry, although the roles of the member are what they were; every
    later mute of that user is refused as already muted. *)
Theorem api_mute_keeps_entry_on_failure env s u roles :
  mutedUserRoles s !! u = None ->
  result (api_mute u) env s = Normal (Failure (PlatformError (member_roles_set u roles))) ->
  let s' := exec (api_mute u) env s in
  mutedUserRoles s' !! u = Some (roles_but_everyone u s)
  /\ member_roles s' = member_roles s
  /\ (forall here env', mute_command true (Some u) here env' s' = (Normal AlreadyMuted, s')).
Proof.
  intros Hfree. unfold result, exec. rewrite (api_mute_unfold _ _ _ Hfree). cbn zeta.
  assert (forall muteRole s0, kept_by_calls s0 = kept_by_calls s ->
            (api_mute_end (capture_and_replace env u muteRole s0)).1
            = Normal (Failure (PlatformError (member_roles_set u roles))) ->
            mutedUserRoles (api_mute_end (capture_and_replace env u muteRole s0)).2 !! u
            = Some (roles_but_everyone u s)
            /\ member_roles (api_mute_end (capture_and_replace env u muteRole s0)).2
               = member_roles s) as Hend.
  { intros muteRole s0 Hkept Hres.
    destruct (capture_and_replace_spec env u muteRole s0 s Hkept) as [Hledger Hspec].
    unfold api_mute_end in *.
    destruct (capture_and_replace env u muteRole s0) as [[n|e] s1]; cbn [fst snd] in *;
      [done|].
    destruct Hspec as [_ Hroles]. rewrite Hledger. split; [apply lookup_insert_eq | done]. }
  assert (forall s1, mutedUserRoles s1 !! u = Some (roles_but_everyone u s) ->
            forall here env', mute_command true (Some u) here env' s1 = (Normal AlreadyMuted, s1))
    as Hlater.
  { intros s1 Hentry here env'. unfold mute_command. run. cbn [negb].
    by rewrite Hentry, (bool_decide_eq_true_2 (is_Some (Some _))) by eauto. }
  destruct (throws env (members_fetch u)); [done|].
  destruct (member_roles s !! u); [|done].
  destruct (find_role named_Muted s).
  { intros Hres.
    destruct (Hend _ (logged (members_fetch u) (negb false)
                        (latency env (members_fetch u)) s) eq_refl Hres) as [Hentry Hroles].
    auto. }
  destruct (throws env (roles_create _)); [done|].
  intros Hres.
  destruct (Hend _ _ (Muted_created_kept env
                        (logged (members_fetch u) (negb false)
                           (latency env (members_fetch u)) s)) Hres) as [Hentry Hroles].
  auto.
Qed.

Lemma guild_roles_cache_get_id r s role : guild_roles_cache_get r s = Some role -> role_id role = r.
Proof. apply find_role_id. Qed.

Lemma validRoles_filter muteRole stored s :
  validRoles muteRole stored s
  = List.filter
      (fun r => role_exists s r
                && match muteRole with
                   | Some mr => negb (r =? role_id mr)%N
                   | None => true
                   end) stored.
Proof.
  unfold validRoles, role_exists. induction stored as [|r stored IH]; [done|].
  cbn [List.filter]. rewrite IH.
  destruct (guild_roles_cache_get r s) as [role|] eqn:E.
  - rewrite (guild_roles_cache_get_id _ _ _ E).
    rewrite (bool_decide_eq_true_2 (is_Some (Some role))) by eauto. done.
  - rewrite (bool_decide_eq_false_2 (is_Some None)) by (by intros [? ?]). done.
Qed.

Lemma validRoles_all_exist mr stored s :
  Forall (fun r => role_exists s r = true) stored ->
  validRoles (Some mr) stored s = without (role_id mr) stored.
Proof.
  intros H. rewrite validRoles_filter. unfold without.
  induction H as [|r stored Hr _ IH]; [done|]. cbn [List.filter]. by rewrite Hr, IH.
Qed.

Lemma unmute_command_unfold env s u stored muteRole :
  find_role named_Muted s = Some muteRole ->
  mutedUserRoles s !! u = Some stored ->
  unmute_command true (Some u) env s =
    let valid := validRoles (Some muteRole) stored s in
    let c := member_roles_set u valid in
    let s1 := logged c (negb (throws env c)) (latency env c) s in
    if throws env c then (Normal UnmuteFailed, s1)
    else (Normal (Unmuted (length valid)),
          with_mutedUserRoles (delete u (mutedUserRoles s))
            (set_roles_of u (fun _ => without (guild_id s) valid) s1)).
Proof.
  intros Hrole Hstored. unfold unmute_command, guild_roles_cache_find, roles_set. run.
  cbn [negb]. fold named_Muted. rewrite Hrole, Hstored. cbn zeta.
  by destruct (throws env (member_roles_set _ _)).
Qed.

Lemma api_unmute_unfold env s u stored rs :
  throws env (members_fetch u) = false ->
  member_roles s !! u = Some rs ->
  mutedUserRoles s !! u = Some stored ->
  api_unmute u env s =
    let s0 := logged (members_fetch u) true (latency env (members_fetch u)) s in
    let valid := validRoles (find_role named_Muted s) stored s in
    let c := member_roles_set u valid in
    let s1 := logged c (negb (throws env c)) (latency env c) s0 in
    if throws env c then (Normal (Failure (PlatformError c)), s1)
    else (Normal (Success (Some (length valid))),
          with_mutedUserRoles (delete u (mutedUserRoles s))
            (set_roles_of u (fun _ => without (guild_id s) valid) s1)).
Proof.
  intros Hfetch Hmember Hstored.
  unfold api_unmute, guild_members_fetch, guild_roles_cache_find, roles_set. run.
  rewrite Hfetch. cbn [member_roles mutedUserRoles logged negb]. rewrite Hmember.
  cbn beta iota. cbn [member_roles mutedUserRoles logged]. rewrite Hstored.
  cbn beta iota zeta. fold named_Muted.
  change (find_role ?p (logged ?c ?b ?d s)) with (find_role p s).
  change (validRoles ?m ?l (logged ?c ?b ?d s)) with (validRoles m l s).
  by destruct (throws env (member_roles_set _ _)).
Qed.

Lemma api_mute_keeps_entry_witness :
  mutedUserRoles (exec (api_mute carol) no_role_change village_with_muted) !! carol
  = Some [helper_role; reward_role]
  /\ member_roles (exec (api_mute carol) no_role_change village_with_muted)
     = member_roles village_with_muted
  /\ mutedUserRoles (exec (api_mute carol) no_role_change village) !! carol
     = Some [helper_role; reward_role]
  /\ mutedUserRoles (exec (mute_command true (Some carol) general) no_role_change
                       village_with_muted) !! carol = None.
Proof.
  destruct (api_mute_keeps_entry_on_failure no_role_change village_with_muted carol
              [role_id muted_role] eq_refl) as (Hentry & Hroles & _);
    [vm_compute; reflexivity|].
  destruct (api_mute_keeps_entry_on_failure no_role_change village carol
              [created_role_id no_role_change] eq_refl) as (Hcreated & _ & _);
    [vm_compute; reflexivity|].
  split; [exact Hentry|]. split; [exact Hroles|]. split; [exact Hcreated|].
  destruct (mute_command_rolls_back no_role_change village_with_muted carol general eq_refl)
    as [-> _]; [|reflexivity].
  intros n. vm_compute. discriminate.
Defined.

(** C6, as the program has it.  A mute of a user who has an entry is
    refused: the command changes nothing, the endpoint does no more than
    look the member up.  A mute that succeeds, on either path, stores the
    roles of the member, the everyone role aside.  An unmute sets the roles of the member to the
    stored ones that the guild still has and that are not the restricted
    role, in the stored order, and then deletes the entry; when the guild
    still has all the stored roles, these are the stored roles without the
    restricted one. *)
Theorem mute_again_refused_unmute_restores :
  (forall env s u here,
      is_Some (mutedUserRoles s !! u) ->
      mute_command true (Some u) here env s = (Normal AlreadyMuted, s))
  /\ (forall env s u,
         is_Some (mutedUserRoles s !! u) ->
         let f := members_fetch u in
         exec (api_mute u) env s = logged f (negb (throws env f)) (latency env f) s
         /\ exists e, result (api_mute u) env s = Normal (Failure e))
  /\ (forall env s u here n,
         mutedUserRoles s !! u = None ->
         result (mute_command true (Some u) here) env s = Normal (Muted n) ->
         mutedUserRoles (exec (mute_command true (Some u) here) env s) !! u
         = Some (roles_but_everyone u s)
         /\ n = length (roles_but_everyone u s))
  /\ (forall env s u n,
         mutedUserRoles s !! u = None ->
         result (api_mute u) env s = Normal (Success n) ->
         mutedUserRoles (exec (api_mute u) env s) !! u = Some (roles_but_everyone u s)
         /\ n = Some (length (roles_but_everyone u s)))
  /\ (forall env s u stored muteRole,
         mutedUserRoles s !! u = Some stored ->
         find_role named_Muted s = Some muteRole ->
         let valid := List.filter
                        (fun r => role_exists s r && negb (r =? role_id muteRole)%N) stored in
         throws env (member_roles_set u valid) = false ->
         let s' := exec (unmute_command true (Some u)) env s in
         result (unmute_command true (Some u)) env s = Normal (Unmuted (length valid))
         /\ trace s' = trace s ++ [(member_roles_set u valid, true)]
         /\ mutedUserRoles s' = delete u (mutedUserRoles s)
         /\ (Forall (fun r => role_exists s r = true) stored ->
             valid = without (role_id muteRole) stored))
  /\ (forall env s u stored rs,
         throws env (members_fetch u) = false ->
         member_roles s !! u = Some rs ->
         mutedUserRoles s !! u = Some stored ->
         let valid := List.filter
                        (fun r => role_exists s r
                                  && match find_role named_Muted s with
                                     | Some mr => negb (r =? role_id mr)%N
                                     | None => true
                                     end) stored in
         throws env (member_roles_set u valid) = false ->
         let s' := exec (api_unmute u) env s in
         result (api_unmute u) env s = Normal (Success (Some (length valid)))
         /\ trace s' = trace s ++ [(members_fetch u, true); (member_roles_set u valid, true)]
         /\ mutedUserRoles s' = delete u (mutedUserRoles s)).
Proof.
  split; [|split; [|split; [|split; [|split]]]].
  - intros env s u here Hin. unfold mute_command. run. cbn [negb].
    by rewrite bool_decide_eq_true_2.
  - intros env s u Hin f. unfold exec, result, api_mute, guild_members_fetch. run. fold f.
    destruct (throws env f); [by eauto|].
    cbn [member_roles mutedUserRoles logged negb].
    destruct (member_roles s !! u); [|by eauto].
    cbn beta iota. cbn [member_roles mutedUserRoles logged].
    rewrite bool_decide_eq_true_2 by done. by eauto.
  - intros env s u here n Hfree. unfold exec, result.
    rewrite (mute_command_unfold _ _ _ _ Hfree).
    assert (forall muteRole s0, kept_by_calls s0 = kept_by_calls s ->
              (mute_command_end env u (capture_and_replace env u muteRole s0)).1
              = Normal (Muted n) ->
              mutedUserRoles (mute_command_end env u (capture_and_replace env u muteRole s0)).2
                !! u
              = Some (roles_but_everyone u s)
              /\ n = length (roles_but_everyone u s)) as Hend.
    { intros muteRole s0 Hkept Hres.
      destruct (mute_command_end_spec env u muteRole s0 s Hkept Hfree) as (_ & _ & H).
      destruct (throws env (member_roles_set u [role_id muteRole]));
        [|destruct (throws env (embed_addFields "User Muted"))];
        destruct H as (Hr & Hl & Hm); rewrite Hr in Hres; try done.
      rewrite Hl. split; [apply lookup_insert_eq|]. by simplify_eq. }
    destruct (find_role named_Muted s); [by apply Hend|]. cbn zeta.
    destruct (throws env (roles_create _)); [done|].
    apply Hend. change (kept_by_calls (logged ?c ?b ?d ?x)) with (kept_by_calls x).
    apply Muted_created_kept.
  - intros env s u n Hfree. unfold exec, result.
    rewrite (api_mute_unfold _ _ _ Hfree). cbn zeta.
    assert (forall muteRole s0, kept_by_calls s0 = kept_by_calls s ->
              (api_mute_end (capture_and_replace env u muteRole s0)).1 = Normal (Success n) ->
              mutedUserRoles (api_mute_end (capture_and_replace env u muteRole s0)).2 !! u
              = Some (roles_but_everyone u s)
              /\ n = Some (length (roles_but_everyone u s))) as Hend.
    { intros muteRole s0 Hkept Hres.
      destruct (capture_and_replace_spec env u muteRole s0 s Hkept) as [Hledger Hspec].
      unfold api_mute_end in *.
      destruct (capture_and_replace env u muteRole s0) as [[k|e] s1]; cbn [fst snd] in *;
        [|done].
      destruct Hspec as [-> _]. rewrite Hledger. split; [apply lookup_insert_eq|].
      by simplify_eq. }
    destruct (throws env (members_fetch u)); [done|].
    destruct (member_roles s !! u); [|done].
    destruct (find_role named_Muted s).
    { apply (Hend _ (logged (members_fetch u) (negb false)
                       (latency env (members_fetch u)) s) eq_refl). }
    destruct (throws env (roles_create _)); [done|].
    apply Hend. apply (Muted_created_kept env (logged (members_fetch u) (negb false)
                                                (latency env (members_fetch u)) s)).
  - intros env s u stored muteRole Hstored Hrole valid Hok s'. subst s'. unfold exec, result.
    rewrite (unmute_command_unfold _ _ _ _ _ Hrole Hstored). cbn zeta.
    rewrite validRoles_filter. fold valid. rewrite Hok.
    cbn [fst snd mutedUserRoles trace logged set_roles_of with_member_roles with_mutedUserRoles].
    repeat split; try done.
    intros Hall. subst valid. rewrite <- (validRoles_filter (Some muteRole)).
    by apply validRoles_all_exist.
  - intros env s u stored rs Hfetch Hmember Hstored valid Hok s'. subst s'. unfold exec, result.
    rewrite (api_unmute_unfold _ _ _ _ _ Hfetch Hmember Hstored). cbn zeta.
    rewrite validRoles_filter. fold valid. rewrite Hok.
    cbn [fst snd mutedUserRoles trace logged set_roles_of with_member_roles with_mutedUserRoles].
    repeat split; try done. by rewrite <- app_assoc.
Qed.

Lemma mute_again_refused_witness :
  mute_command true (Some carol) general quiet carol_muted = (Normal AlreadyMuted, carol_muted)
  /\ mutedUserRoles carol_muted !! carol = Some [helper_role; reward_role]
  /\ trace (exec (unmute_command true (Some carol)) quiet carol_muted)
     = trace carol_muted ++ [(member_roles_set carol [helper_role; reward_role], true)]
  /\ mutedUserRoles (exec (unmute_command true (Some carol)) quiet carol_muted) !! carol = None
  /\ mutedUserRoles (exec (api_unmute carol) quiet carol_muted) !! carol = None.
Proof.
  destruct mute_again_refused_unmute_restores as (Hagain & _ & Hmute & _ & Hunmute & Hapi).
  assert (mutedUserRoles carol_muted !! carol = Some [helper_role; reward_role]) as Hentry.
  { apply (Hmute quiet village_with_muted carol general 2%nat); reflexivity. }
  split; [apply Hagain; rewrite Hentry; eauto|]. split; [exact Hentry|].
  destruct (Hunmute quiet carol_muted carol _ muted_role Hentry eq_refl eq_refl)
    as (_ & Htrace & Hledger & _).
  split; [exact Htrace|]. split; [rewrite Hledger; apply lookup_delete_eq|].
  destruct (Hapi quiet carol_muted carol _ [1420435350949728400%N] eq_refl eq_refl Hentry eq_refl)
    as (_ & _ & ->).
  apply lookup_delete_eq.
Defined.

(** C6 as it was stated fails when the guild has lost one of the stored
    roles between the mute and the unmute: [carol] had [Helper] and the
    reward role, the mute stored both, [Helper] was deleted, and the unmute
    gives back the reward role only. *)
Lemma unmute_after_role_deleted :
  result (mute_command true (Some carol) general) quiet village_with_muted = Normal (Muted 2)
  /\ mutedUserRoles helper_deleted !! carol = Some [helper_role; reward_role]
  /\ result (unmute_command true (Some carol)) quiet helper_deleted = Normal (Unmuted 1)
  /\ trace (exec (unmute_command true (Some carol)) quiet helper_deleted)
     = trace helper_deleted ++ [(member_roles_set carol [reward_role], true)]
  /\ [reward_role] ≠ without (role_id muted_role) [helper_role; reward_role].
Proof. repeat split; try (vm_compute; reflexivity). vm_compute. discriminate. Qed.


(** * Further properties of the code *)

(** ** The counter store, continued *)

Lemma fold_add_shift (l : list Z) (a : Z) : fold_left Z.add l a = a + fold_left Z.add l 0.
Proof.
  revert a. induction l as [|x l IH]; intros a; cbn [fold_left]; [lia|].
  rewrite (IH (a + x)), (IH (0 + x)). lia.
Qed.

Lemma sum_counts_cons e l : sum_counts (e :: l) = e.2 + sum_counts l.
Proof. unfold sum_counts. cbn [map fold_left]. rewrite fold_add_shift. lia. Qed.

Lemma sum_counts_app l1 l2 : sum_counts (l1 ++ l2) = sum_counts l1 + sum_counts l2.
Proof.
  induction l1 as [|e l1 IH]; [done|].
  cbn [app]. rewrite !sum_counts_cons, IH. lia.
Qed.

Lemma sum_counts_perm l1 l2 : l1 ≡ₚ l2 -> sum_counts l1 = sum_counts l2.
Proof.
  induction 1 as [|e l1 l2 _ IH|e1 e2 l|l1 l2 l3 _ IH1 _ IH2];
    rewrite ?sum_counts_cons; lia.
Qed.

Lemma totalMessages_sum lb : totalMessages lb = sum_counts lb.
Proof. unfold totalMessages, Js.Object_values. apply sum_counts_perm, Object_entries_perm. Qed.

Lemma sum_counts_set (o : Js.Object) k v :
  sum_counts (Js.set o k v) = sum_counts o + v - default 0 (Js.get o k).
Proof.
  induction o as [|[k' v'] o IH]; cbn [Js.set Js.get].
  - rewrite sum_counts_cons. cbn. lia.
  - destruct (N.eqb_spec k' k); rewrite !sum_counts_cons; cbn [snd default from_option id];
      [lia | rewrite IH; lia].
Qed.

Lemma length_set (o : Js.Object) k v :
  length (Js.set o k v) = (length o + match Js.get o k with Some _ => 0 | None => 1 end)%nat.
Proof.
  induction o as [|[k' v'] o IH]; cbn [Js.set Js.get length]; [done|].
  destruct (N.eqb_spec k' k); cbn [length]; [lia | rewrite IH; lia].
Qed.

Lemma get_None_keys (o : Js.Object) k : Js.get o k = None <-> k ∉ map fst o.
Proof.
  induction o as [|[k' v'] o IH]; cbn [Js.get map fst].
  - split; [intros _; apply not_elem_of_nil | done].
  - rewrite not_elem_of_cons. destruct (N.eqb_spec k' k); [split; [done | intros [? _]; done]|].
    rewrite IH. split; [by split | by intros [_ ?]].
Qed.

(** What one counting call leaves in the tally. *)
Lemma recordActivity_leaderboard id env s :
  leaderboard (exec (recordActivity id) env s)
  = let lb := leaderboard s in
    let lb1 := if Js.falsy (Js.get lb id) then Js.set lb id 0 else lb in
    Js.set lb1 id (default 0 (Js.get lb id) + 1).
Proof.
  unfold recordActivity, exec, mbind, M_bind, gets, modify. cbn beta iota zeta.
  match goal with
  | |- context [saveData false env ?x] =>
      change (saveData false env x).2 with (exec (saveData false) env x)
  end.
  rewrite saveData_leaderboard. cbn [leaderboard with_leaderboard].
  destruct (Js.get (leaderboard s) id) as [v|] eqn:E; cbn [Js.falsy].
  - destruct (Z.eqb_spec v 0) as [->|]; [by rewrite get_set_eq | by rewrite E].
  - by rewrite get_set_eq.
Qed.


(** X2.  A save whose write throws is not counted as a save: [lastSave]
    stays as it was, so that the next save that comes, at any later time,
    tries the write again although less than [SAVE_INTERVAL] has passed
    between the two.  Until then the file is as it was, or holds no tally
    when the write failed with the file open. *)
Theorem saveData_failed_write_is_retried env1 env2 dt s :
  throws env1 (fs_writeFileSync (leaderboard s)) = true ->
  SAVE_INTERVAL <= clock s - lastSave s ->
  0 <= latency env1 (fs_writeFileSync (leaderboard s)) ->
  0 <= dt ->
  let s1 := exec (saveData false) env1 s in
  let s2 := exec (saveData false) env2 (tick dt s1) in
  lastSave s1 = lastSave s
  /\ data_file s1 = (if truncates env1 (fs_writeFileSync (leaderboard s))
                     then None else data_file s)
  /\ leaderboard s1 = leaderboard s
  /\ writes_tried s1 = S (writes_tried s)
  /\ writes_tried s2 = S (S (writes_tried s)).
Proof.
  intros Hthrow Hdue Hlat Hdt. cbn zeta. unfold exec.
  rewrite (saveData_unfold false env1 s).
  assert ((clock s - lastSave s <? SAVE_INTERVAL) = false) as -> by lia.
  cbn [negb andb]. cbn zeta. rewrite Hthrow. cbn [snd negb].
  set (s0 := logged _ _ _ s).
  set (s1 := if truncates env1 _ then with_data_file None s0 else s0).
  assert (writes_tried s1 = S (writes_tried s) /\ lastSave s1 = lastSave s
          /\ clock s1 = clock s0 /\ leaderboard s1 = leaderboard s
          /\ data_file s1 = (if truncates env1 (fs_writeFileSync (leaderboard s))
                             then None else data_file s)) as (Hw & Hl & Hc & Hlb & Hd).
  { assert (writes_tried s0 = S (writes_tried s)) as Hw0.
    { unfold s0. rewrite writes_tried_logged. cbn. lia. }
    unfold s1. by destruct (truncates env1 _). }
  split; [done|]. split; [done|]. split; [done|]. split; [done|].
  rewrite saveData_unfold.
  assert ((clock (tick dt s1) - lastSave (tick dt s1) <? SAVE_INTERVAL) = false) as ->.
  { cbn [clock lastSave tick]. rewrite Hl, Hc. cbn [clock s0 logged]. lia. }
  cbn [negb andb]. cbn zeta.
  assert (forall c ok l, writes_tried (logged (fs_writeFileSync c) ok l (tick dt s1))
                         = S (S (writes_tried s))) as Hw2.
  { intros. rewrite writes_tried_logged. cbn [is_write fst].
    change (writes_tried (tick dt s1)) with (writes_tried s1). lia. }
  destruct (throws env2 _); [destruct (truncates env2 _)|]; cbn [snd]; apply Hw2.
Qed.

Lemma saveData_failed_write_witness :
  writes_tried (exec (saveData false) quiet
                  (tick 1000 (exec (saveData false) disk_full (tick 40000 village))))
  = 2%nat.
Proof.
  apply (saveData_failed_write_is_retried disk_full quiet 1000 (tick 40000 village));
    [reflexivity | vm_compute; discriminate | vm_compute; discriminate | lia].
Defined.

Lemma recordActivity_data_file id env s :
  let s' := exec (recordActivity id) env s in
  data_file s' = data_file s \/ data_file s' = None
  \/ data_file s' = Some (leaderboard s').
Proof.
  cbn zeta. rewrite recordActivity_leaderboard.
  unfold recordActivity, exec, mbind, M_bind, gets, modify. cbn beta iota zeta.
  rewrite saveData_unfold. cbn [leaderboard with_leaderboard].
  destruct (negb false && _); [by left|].
  cbn zeta. destruct (throws env _); [destruct (truncates env _); by auto|right; right].
  cbn [snd data_file with_lastSave with_data_file leaderboard with_leaderboard logged].
  f_equal.
  destruct (Js.get (leaderboard s) id) as [v|] eqn:E; cbn [Js.falsy].
  - destruct (Z.eqb_spec v 0) as [->|]; [by rewrite get_set_eq | by rewrite E].
  - by rewrite get_set_eq.
Qed.

(** X3.  The file never runs ahead of the memory.  Counting messages, with
    whatever saves succeed or fail on the way, keeps every count of the
    file at or below the count of the same user in the tally: what a
    crash can lose is messages counted since the last write, never more. *)
Theorem record_all_file_behind calls s :
  file_behind s -> file_behind (record_all calls s).
Proof.
  revert s. induction calls as [|[[dt env] id] calls IH]; intros s Hs; [done|].
  cbn [record_all]. apply IH.
  destruct (recordActivity_data_file id env (tick dt s)) as [Hf|[Hf|Hf]];
    unfold file_behind; rewrite Hf; [|done|].
  - change (data_file (tick dt s)) with (data_file s).
    unfold file_behind in Hs. destruct (data_file s) as [f|]; [|done].
    intros u c Hc. destruct (Hs u c Hc) as (c' & Hc' & Hle).
    rewrite recordActivity_get. change (leaderboard (tick dt s)) with (leaderboard s).
    rewrite Hc'. destruct (id =? u)%N; eexists; (split; [reflexivity|]); simpl; lia.
  - intros u c Hc. exists c. split; [exact Hc | lia].
Qed.

Lemma record_all_file_behind_witness :
  file_behind (record_all [(1000, quiet, bob); (1000, disk_full, dave); (40000, quiet, alice)]
                 village_saved).
Proof.
  apply (record_all_file_behind _ village_saved).
  intros u c. cbn [Js.get village_saved data_file with_data_file village leaderboard].
  repeat (case_match; [intros [= <-]; eexists; (split; [reflexivity|lia])|]).
  done.
Defined.

Lemma recordActivity_status id env s :
  let s' := exec (recordActivity id) env s in
  messages (api_status s') = messages (api_status s) + 1
  /\ users (api_status s')
     = (users (api_status s) + match Js.get (leaderboard s) id with Some _ => 0 | None => 1 end)%nat.
Proof.
  cbn zeta. unfold api_status. cbn [messages users].
  rewrite !totalMessages_sum.
  unfold Js.Object_keys. rewrite !length_map.
  rewrite !(Permutation_length (Object_entries_perm _)).
  rewrite recordActivity_leaderboard. cbn zeta.
  destruct (Js.get (leaderboard s) id) as [v|] eqn:E; cbn [Js.falsy].
  - destruct (Z.eqb_spec v 0) as [->|].
    + rewrite !sum_counts_set, !length_set, get_set_eq, E. cbn. lia.
    + rewrite !sum_counts_set, !length_set, E. cbn. lia.
  - rewrite !sum_counts_set, !length_set, get_set_eq, E. cbn. lia.
Qed.

(** X4.  What the status endpoint reports follows the counting one for
    one: after any run of counted messages [messages] has grown by the
    number of messages, whether or not the saves on the way succeeded,
    and one message makes [users] grow by one exactly when its author was
    not in the tally. *)
Theorem api_status_counts_messages :
  (forall calls s,
      messages (api_status (record_all calls s))
      = messages (api_status s) + Z.of_nat (length calls))
  /\ (forall id env s,
        users (api_status (exec (recordActivity id) env s))
        = if bool_decide (id ∈ Js.Object_keys (leaderboard s))
          then users (api_status s) else S (users (api_status s))).
Proof.
  split.
  - intros calls. induction calls as [|[[dt env] id] calls IH]; intros s.
    + cbn. lia.
    + cbn [record_all length]. rewrite IH.
      rewrite (proj1 (recordActivity_status id env (tick dt s))).
      change (api_status (tick dt s)) with (api_status s). lia.
  - intros id env s. rewrite (proj2 (recordActivity_status id env s)).
    assert (id ∈ Js.Object_keys (leaderboard s) <-> id ∈ map fst (leaderboard s)) as Hk.
    { unfold Js.Object_keys. by rewrite (Object_entries_perm (leaderboard s)). }
    destruct (Js.get (leaderboard s) id) as [v|] eqn:E.
    + rewrite bool_decide_eq_true_2; [lia|].
      apply Hk. destruct (decide (id ∈ map fst (leaderboard s))) as [|Hn]; [done|].
      apply get_None_keys in Hn. congruence.
    + rewrite bool_decide_eq_false_2; [lia|].
      rewrite Hk. by apply get_None_keys.
Qed.

Lemma newcomers_NoDup seen us :
  NoDup seen -> NoDup (seen ++ newcomers seen us).
Proof.
  revert seen. induction us as [|u us IH]; intros seen Hs; cbn [newcomers].
  - by rewrite app_nil_r.
  - case_bool_decide as Hu; [by apply IH|].
    rewrite cons_middle, app_assoc. apply IH.
    apply NoDup_app. split; [done|]. split; [|apply NoDup_singleton].
    intros x Hx ->%list_elem_of_singleton. done.
Qed.

(** X5.  The tally keeps its users in the order of their first counted
    message.  A run of counted messages leaves the keys that were there
    where they were and appends the newcomers, each once, in the order in
    which they first wrote; no key is ever listed twice. *)
Theorem record_all_creation_order calls s :
  NoDup (map fst (leaderboard s)) ->
  map fst (leaderboard (record_all calls s))
  = map fst (leaderboard s) ++ newcomers (map fst (leaderboard s)) (map snd calls)
  /\ NoDup (map fst (leaderboard (record_all calls s))).
Proof.
  intros Hnd.
  assert (map fst (leaderboard (record_all calls s))
          = map fst (leaderboard s) ++ newcomers (map fst (leaderboard s)) (map snd calls)) as H.
  { clear Hnd. revert s. induction calls as [|[[dt env] id] calls IH]; intros s.
    - cbn. by rewrite app_nil_r.
    - cbn [record_all map snd newcomers]. rewrite IH, recordActivity_keys.
      change (leaderboard (tick dt s)) with (leaderboard s).
      destruct (Js.get (leaderboard s) id) as [v|] eqn:E.
      + rewrite bool_decide_eq_true_2; [done|].
        destruct (decide (id ∈ map fst (leaderboard s))) as [|Hn]; [done|].
        apply get_None_keys in Hn. congruence.
      + rewrite bool_decide_eq_false_2 by (by apply get_None_keys).
        by rewrite <- app_assoc. }
  split; [exact H|]. rewrite H. by apply newcomers_NoDup.
Qed.

Lemma record_all_creation_order_witness :
  map fst (leaderboard (record_all [(1000, quiet, 7%N); (1000, disk_full, bob);
                                    (1000, quiet, 3%N); (1000, quiet, 7%N)] village))
  = [alice; bob; carol; dave; 7%N; 3%N].
Proof.
  refine (proj1 (record_all_creation_order _ village _)).
  apply (bool_decide_unpack _). vm_compute. exact I.
Defined.

(** ** The ranking, continued *)

Lemma sorted_app_ge (l1 l2 : list (N * Z)) :
  StronglySorted count_ge (l1 ++ l2) ->
  forall e1 e2, e1 ∈ l1 -> e2 ∈ l2 -> e2.2 <= e1.2.
Proof.
  induction l1 as [|x l1 IH]; intros Hs e1 e2 H1 H2; [by apply elem_of_nil in H1|].
  cbn [app] in Hs. apply StronglySorted_inv in Hs as [Hs Hx].
  apply elem_of_cons in H1 as [->|H1]; [|by apply IH].
  rewrite Forall_forall in Hx. apply (Hx e2). apply elem_of_app. by right.
Qed.

Lemma ranked_split lb :
  ranked lb ++ Js.slice_from 10 (Js.Array_sort by_count_desc (Js.Object_entries lb)) ≡ₚ lb.
Proof.
  unfold ranked, Js.slice_to, Js.slice_from. rewrite firstn_skipn.
  by rewrite Array_sort_perm, Object_entries_perm.
Qed.

(** X6.  The ranking is the top of the tally.  It lists ten entries, or
    all of them when there are fewer; they are entries of the tally, in
    descending order of count; every entry left out has at most the count
    of every entry listed; the first entry, to whom the reward goes, has
    the greatest count of the whole tally. *)
Theorem ranked_is_the_top lb :
  length (ranked lb) = Nat.min 10 (length lb)
  /\ StronglySorted count_ge (ranked lb)
  /\ (exists rest, ranked lb ++ rest ≡ₚ lb
                   /\ forall e e', e ∈ ranked lb -> e' ∈ rest -> e'.2 <= e.2)
  /\ (forall first others, ranked lb = first :: others ->
        first ∈ lb /\ forall e, e ∈ lb -> e.2 <= first.2).
Proof.
  pose proof (Array_sort_sorted (Js.Object_entries lb)) as Hs.
  pose proof (ranked_split lb) as Hp.
  set (sorted := Js.Array_sort by_count_desc (Js.Object_entries lb)) in *.
  assert (ranked lb ++ Js.slice_from 10 sorted = sorted) as Hcut
    by apply firstn_skipn.
  rewrite <- Hcut in Hs.
  split; [|split; [|split]].
  - unfold ranked, Js.slice_to. fold sorted.
    rewrite length_firstn. unfold sorted.
    by rewrite Array_sort_length, (Permutation_length (Object_entries_perm lb)).
  - clear Hp Hcut. revert Hs. generalize (Js.slice_from 10 sorted).
    induction (ranked lb) as [|x l IH]; intros rest Hs; [constructor|].
    cbn [app] in Hs. apply StronglySorted_inv in Hs as [Hs Hx]. constructor; [by eapply IH|].
    rewrite Forall_app in Hx. tauto.
  - exists (Js.slice_from 10 sorted). split; [exact Hp|]. by apply sorted_app_ge.
  - intros first others Hr. rewrite Hr in Hs, Hp. split.
    + rewrite <- Hp. apply list_elem_of_here.
    + intros e He. rewrite <- Hp in He. cbn [app] in Hs, He.
      apply StronglySorted_inv in Hs as [_ Hx]. rewrite Forall_forall in Hx.
      apply elem_of_cons in He as [->|He]; [lia|]. by apply Hx.
Qed.

Lemma ranked_is_the_top_witness :
  (bob, 9) ∈ leaderboard village /\ (carol, 9).2 <= (bob, 9).2.
Proof.
  destruct (ranked_is_the_top (leaderboard village)) as (_ & _ & _ & H).
  destruct (H (bob, 9) [(carol, 9); (alice, 5); (dave, 1)] eq_refl) as [Hin Hmax].
  split; [exact Hin|]. apply Hmax.
  apply list_elem_of_further, list_elem_of_further, list_elem_of_here.
Defined.

Lemma sum_counts_nonneg l : Forall (fun e : N * Z => 0 <= e.2) l -> 0 <= sum_counts l.
Proof.
  induction 1 as [|e l He _ IH]; [done|]. rewrite sum_counts_cons. lia.
Qed.

(** X7.  The total of the announcement covers the lines of the
    announcement.  The three winners and the seven that follow are the
    ranking, cut in two; when no count is negative, the counts that the
    announcement lists sum to at most the total it states, and to exactly
    the total when the tally has no more than ten users. *)
Theorem announcement_total_covers_list lb :
  Forall (fun e => 0 <= e.2) lb ->
  Js.slice_to 3 (ranked lb) ++ Js.slice_from 3 (ranked lb) = ranked lb
  /\ sum_counts (ranked lb) <= totalMessages lb
  /\ ((length lb <= 10)%nat -> sum_counts (ranked lb) = totalMessages lb).
Proof.
  intros Hpos. split; [apply firstn_skipn|].
  pose proof (ranked_split lb) as Hp. rewrite totalMessages_sum.
  rewrite <- (sum_counts_perm _ _ Hp), sum_counts_app.
  set (rest := Js.slice_from 10 _) in *.
  split.
  - assert (0 <= sum_counts rest); [|lia].
    apply sum_counts_nonneg. rewrite Forall_forall in Hpos |- *.
    intros e He. apply Hpos. rewrite <- Hp. apply elem_of_app. by right.
  - intros Hlen. assert (rest = []) as ->; [|cbn; lia].
    unfold rest, Js.slice_from. apply skipn_all2.
    by rewrite Array_sort_length, (Permutation_length (Object_entries_perm lb)).
Qed.

Lemma announcement_total_witness :
  sum_counts (ranked (leaderboard busy_week)) <= totalMessages (leaderboard busy_week).
Proof.
  refine (proj1 (proj2 (announcement_total_covers_list (leaderboard busy_week) _))).
  vm_compute. repeat (constructor; [discriminate|]). constructor.
Defined.

(** ** The cycle, continued *)

Lemma without_snoc role rs : without role (rs ++ [role]) = without role rs.
Proof.
  unfold without. rewrite List.filter_app. cbn [List.filter].
  by rewrite N.eqb_refl, app_nil_r.
Qed.

Lemma giveWinnerRole_other_roles winnerId env s m :
  without (WINNER_ROLE_ID env) <$> member_roles (exec (giveWinnerRole winnerId) env s) !! m
  = without (WINNER_ROLE_ID env) <$> member_roles s !! m.
Proof.
  unfold exec. rewrite giveWinnerRole_unfold. cbn zeta.
  destruct (throws env (members_fetch _)); [done|].
  destruct (member_roles s !! winnerId) eqn:E; [|done].
  destruct (throws env (member_roles_add _ _)); [done|].
  cbn [snd member_roles set_roles_of with_member_roles logged].
  destruct (decide (winnerId = m)) as [->|Hne]; [|by rewrite lookup_alter_ne].
  rewrite lookup_alter_eq, E. cbn. f_equal.
  case_bool_decide; [done | apply without_snoc].
Qed.

Lemma removeWinnerRole_other_roles env s m :
  without (WINNER_ROLE_ID env) <$> member_roles (exec removeWinnerRole env s) !! m
  = without (WINNER_ROLE_ID env) <$> member_roles s !! m.
Proof.
  destruct (removeWinnerRole_roles env s m) as [-> | ->]; [done|].
  destruct (member_roles s !! m); [|done]. cbn. by rewrite without_idemp.
Qed.

(** The fields of a state that no step of the cycle writes. *)
Lemma sendLeaderboard_kept_rest env s :
  let s' := exec sendLeaderboard env s in
  result sendLeaderboard env s = Normal tt
  /\ cooldowns s' = cooldowns s /\ mutedUserRoles s' = mutedUserRoles s
  /\ guild_id s' = guild_id s /\ guild_roles s' = guild_roles s /\ channels s' = channels s
  /\ (leaderboard s' = leaderboard s \/ leaderboard s' = []).
Proof.
  cbn zeta. unfold exec, result. rewrite sendLeaderboard_unfold. cbn zeta.
  destruct (throws env (channels_fetch _)); [cbn; tauto|].
  case_bool_decide; [|cbn; tauto].
  match goal with |- context [exec removeWinnerRole env ?x] => set (s0 := x) end.
  pose proof (removeWinnerRole_kept env s0) as K1. unfold kept in K1.
  cbn [s0 leaderboard lastSave data_file cooldowns mutedUserRoles guild_id guild_roles
         channels logged] in K1.
  destruct (ranked (leaderboard s)) as [|first rest].
  { cbn [fst snd cooldowns mutedUserRoles guild_id guild_roles channels leaderboard logged].
    simplify_eq.
    repeat (split; [congruence|]); first [left; congruence | by right]. }
  cbn zeta.
  destruct (throws env (channel_send _ _)).
  { cbn [fst snd cooldowns mutedUserRoles guild_id guild_roles channels leaderboard logged].
    simplify_eq.
    repeat (split; [congruence|]); first [left; congruence | by right]. }
  match goal with |- context [exec (giveWinnerRole ?w) env ?x] =>
    pose proof (giveWinnerRole_kept w env x) as K2 end.
  unfold kept in K2.
  cbn [leaderboard lastSave data_file cooldowns mutedUserRoles guild_id guild_roles
         channels logged] in K2.
  rewrite saveData_unfold. cbn [negb andb] in *. cbn zeta.
  destruct (throws env (fs_writeFileSync _)); [destruct (truncates env (fs_writeFileSync _))|];
    cbn [fst snd cooldowns mutedUserRoles guild_id guild_roles channels leaderboard logged
           with_leaderboard with_lastSave with_data_file];
    simplify_eq;
    repeat (split; [congruence|]); first [left; congruence | by right].
Qed.

Lemma sendLeaderboard_other_roles env s m :
  without (WINNER_ROLE_ID env) <$> member_roles (exec sendLeaderboard env s) !! m
  = without (WINNER_ROLE_ID env) <$> member_roles s !! m.
Proof.
  unfold exec. rewrite sendLeaderboard_unfold. cbn zeta.
  destruct (throws env (channels_fetch _)); [done|].
  case_bool_decide; [|done].
  set (s0 := logged _ _ _ s).
  pose proof (removeWinnerRole_other_roles env s0 m) as R1.
  change (member_roles s0) with (member_roles s) in R1.
  destruct (ranked (leaderboard s)) as [|first rest]; [exact R1|].
  cbn zeta. set (s2 := logged _ _ _ (exec removeWinnerRole env s0)).
  destruct (throws env (channel_send _ _)); [exact R1|].
  pose proof (giveWinnerRole_other_roles first.1 env s2 m) as R2.
  change (member_roles s2) with (member_roles (exec removeWinnerRole env s0)) in R2.
  rewrite saveData_unfold. cbn [negb andb]. cbn zeta.
  destruct (throws env (fs_writeFileSync _)); [destruct (truncates env (fs_writeFileSync _))|];
    cbn [snd member_roles logged with_leaderboard with_lastSave with_data_file];
    by rewrite R2.
Qed.

(** X8.  What the cycle never does.  Whatever the platform and the file
    system answer, the cycle returns normally, leaves the cooldowns, the
    ledger of muted users, the roles of the guild and its channels as
    they were, leaves the tally as it was or empty, and changes no role
    of any member other than the reward role. *)
Theorem sendLeaderboard_frame env s :
  let s' := exec sendLeaderboard env s in
  result sendLeaderboard env s = Normal tt
  /\ cooldowns s' = cooldowns s
  /\ mutedUserRoles s' = mutedUserRoles s
  /\ guild_roles s' = guild_roles s
  /\ channels s' = channels s
  /\ (leaderboard s' = leaderboard s \/ leaderboard s' = [])
  /\ (forall m, without (WINNER_ROLE_ID env) <$> member_roles s' !! m
                = without (WINNER_ROLE_ID env) <$> member_roles s !! m).
Proof.
  cbn zeta. destruct (sendLeaderboard_kept_rest env s) as (H1 & H2 & H3 & _ & H4 & H5 & H6).
  repeat (split; [assumption|]). intros m. apply sendLeaderboard_other_roles.
Qed.

Lemma sendLeaderboard_pair env s :
  sendLeaderboard env s = (Normal tt, exec sendLeaderboard env s).
Proof.
  pose proof (sendLeaderboard_kept_rest env s) as [H _]. unfold result, exec in *.
  destruct (sendLeaderboard env s) as [c s']. cbn [fst snd] in *. by subst c.
Qed.

(** X9.  A cycle that is asked for cannot be seen to fail.  The endpoint
    answers success and the command gives no reply after any run of the
    cycle, and both leave what the cycle leaves; this is so when the
    channel could not be fetched or is not there, although nothing was
    sent then and nothing but the log of calls has changed.  Without the
    permission the command does nothing. *)
Theorem testlb_always_reports_success env s :
  api_test_leaderboard env s = (Normal (Success None), exec sendLeaderboard env s)
  /\ testlb_command true env s = (Normal None, exec sendLeaderboard env s)
  /\ testlb_command false env s = (Normal (Some NeedPermission), s)
  /\ (throws env (channels_fetch (CHANNEL_ID env)) = true \/ CHANNEL_ID env ∉ channels s ->
      kept (exec sendLeaderboard env s) = kept s
      /\ member_roles (exec sendLeaderboard env s) = member_roles s
      /\ forall e, e ∈ trace (exec sendLeaderboard env s) -> e ∉ trace s ->
                   e.1 = channels_fetch (CHANNEL_ID env)).
Proof.
  split; [|split; [|split]].
  - unfold api_test_leaderboard. run. fold (sendLeaderboard env s).
    by rewrite sendLeaderboard_pair.
  - unfold testlb_command. cbn [negb]. run. fold (sendLeaderboard env s).
    by rewrite sendLeaderboard_pair.
  - done.
  - intros Hno. unfold exec. rewrite sendLeaderboard_unfold. cbn zeta.
    assert (forall b l e, e ∈ trace (logged (channels_fetch (CHANNEL_ID env)) b l s) ->
                          e ∉ trace s -> e.1 = channels_fetch (CHANNEL_ID env)) as Hlog.
    { intros b l e He Hn. cbn [trace logged] in He. apply elem_of_app in He as [He|He]; [done|].
      by apply list_elem_of_singleton in He as ->. }
    destruct (throws env (channels_fetch _)) eqn:T; [by repeat split; try apply Hlog|].
    destruct Hno as [?|Hno]; [done|].
    rewrite bool_decide_eq_false_2 by done. by repeat split; try apply Hlog.
Qed.

(** X10.  A reset is answered with success whether or not it reached the
    disk.  The tally in memory is empty afterwards and one write was
    tried.  When the write throws before the file is open, the file keeps
    the counts it had and a restart brings them back; when it throws
    later, the file holds no tally and a restart starts from the empty
    one; [lastSave] is as it was in both cases. *)
Theorem api_reset_leaderboard_write_failure env s :
  let s' := exec api_reset_leaderboard env s in
  let c := fs_writeFileSync [] in
  result api_reset_leaderboard env s = Normal (Success None)
  /\ leaderboard s' = []
  /\ writes_tried s' = S (writes_tried s)
  /\ (if throws env c
      then lastSave s' = lastSave s
           /\ data_file s' = (if truncates env c then None else data_file s)
           /\ load_leaderboard true (data_file s')
              = (if truncates env c then [] else load_leaderboard true (data_file s))
      else data_file s' = Some [] /\ lastSave s' = clock s'
           /\ load_leaderboard true (data_file s') = []).
Proof.
  cbn zeta. unfold api_reset_leaderboard, exec, result.
  unfold try_catch, mbind, M_bind, modify. cbn beta iota.
  rewrite saveData_unfold. cbn [negb andb leaderboard with_leaderboard]. cbn zeta.
  assert (forall b l, writes_tried (logged (fs_writeFileSync []) b l (with_leaderboard [] s))
                      = S (writes_tried s)) as Hw.
  { intros. rewrite writes_tried_logged. cbn [is_write fst].
    change (writes_tried (with_leaderboard [] s)) with (writes_tried s). lia. }
  destruct (throws env (fs_writeFileSync [])); [destruct (truncates env (fs_writeFileSync []))|];
    cbn [fst snd mret M_ret]; (split; [done|]); (split; [done|]); (split; [apply Hw|done]).
Qed.

Lemma testlb_always_reports_success_witness :
  kept (exec sendLeaderboard unreachable village) = kept village.
Proof.
  refine (proj1 (proj2 (proj2 (proj2 (testlb_always_reports_success unreachable village))) _)).
  left. reflexivity.
Defined.

Lemma strip_turns_exact env role holders s m :
  member_roles (fold_left (strip_turn env role) holders s) !! m
  = if bool_decide (m ∈ holders) && negb (throws env (member_roles_remove m role))
    then without role <$> member_roles s !! m
    else member_roles s !! m.
Proof.
  revert s. induction holders as [|h holders IH]; intros s; [done|].
  cbn [fold_left]. rewrite IH.
  assert (member_roles (strip_turn env role s h) !! m
          = if bool_decide (h = m) && negb (throws env (member_roles_remove m role))
            then without role <$> member_roles s !! m else member_roles s !! m) as ->.
  { clear IH. unfold strip_turn. cbn zeta. case_bool_decide as Hh.
    - subst h. destruct (throws env _); [done|].
      cbn [member_roles set_roles_of with_member_roles logged andb negb].
      by rewrite lookup_alter_eq.
    - cbn [andb]. destruct (throws env (member_roles_remove h role)); [done|].
      cbn [member_roles set_roles_of with_member_roles logged]. by rewrite lookup_alter_ne. }
  destruct (throws env (member_roles_remove m role)); cbn [negb].
  { by rewrite !andb_false_r. }
  rewrite !andb_true_r.
  destruct (decide (h = m)) as [->|Hne].
  - rewrite (bool_decide_eq_true_2 (m = m)) by done.
    rewrite (bool_decide_eq_true_2 (m ∈ m :: holders)) by apply list_elem_of_here.
    case_bool_decide; [|done].
    destruct (member_roles s !! m); [|done]. cbn. by rewrite without_idemp.
  - rewrite (bool_decide_eq_false_2 (h = m)) by done.
    case_bool_decide as Hin.
    + by rewrite bool_decide_eq_true_2 by by apply list_elem_of_further.
    + rewrite bool_decide_eq_false_2; [done|].
      intros [?|?]%elem_of_cons; by simplify_eq.
Qed.

(** X11.  The strip step is best effort, member by member.  When the
    reward role is found, a removal is tried for every holder, whether or
    not earlier removals failed, and the holders afterwards are exactly
    the holders before whose removal the platform refused. *)
Theorem removeWinnerRole_best_effort env s r :
  throws env (roles_fetch (WINNER_ROLE_ID env)) = false ->
  find_role (fun r => (role_id r =? WINNER_ROLE_ID env)%N) s = Some r ->
  let role := WINNER_ROLE_ID env in
  let s' := exec removeWinnerRole env s in
  (forall m, holds role m s ->
             (member_roles_remove m role, negb (throws env (member_roles_remove m role)))
             ∈ trace s')
  /\ (forall m, holds role m s'
                <-> holds role m s /\ throws env (member_roles_remove m role) = true).
Proof.
  intros Hfetch Hrole. cbn zeta. unfold exec. rewrite removeWinnerRole_unfold. cbn zeta.
  rewrite Hfetch, Hrole. cbn [snd]. rewrite (find_role_id _ _ _ Hrole). split.
  - intros m Hm. rewrite strip_turns_trace. apply elem_of_app. right.
    apply list_elem_of_fmap. exists m. split; [done|]. by apply elem_of_role_members.
  - intros m. unfold holds at 1. rewrite strip_turns_exact.
    cbn [member_roles logged].
    destruct (throws env (member_roles_remove m _)); cbn [negb].
    + rewrite andb_false_r. fold (holds (WINNER_ROLE_ID env) m s).
      split; [by split | by intros [? _]].
    + rewrite andb_true_r. case_bool_decide as Hin.
      * split; [|by intros [_ ?]]. intros (rs & Hrs & Hr).
        destruct (member_roles s !! m) as [rs'|]; [|done]. cbn in Hrs. simplify_eq.
        by apply not_elem_of_without in Hr.
      * split; [|by intros [_ ?]]. intros Hh. destruct Hin. by apply elem_of_role_members.
Qed.

Lemma removeWinnerRole_best_effort_witness :
  holds reward_role dave (exec removeWinnerRole dave_protected village)
  /\ ~ holds reward_role carol (exec removeWinnerRole dave_protected village).
Proof.
  assert (find_role (fun r => (role_id r =? WINNER_ROLE_ID dave_protected)%N) village
          = Some {| role_id := reward_role; role_name := "Winner" |}) as Hrole by reflexivity.
  destruct (removeWinnerRole_best_effort dave_protected village _ eq_refl Hrole) as [_ H].
  split.
  - apply H. split; [|reflexivity]. exists [reward_role]. split; [reflexivity|].
    apply list_elem_of_here.
  - intros Hc. apply H in Hc as [_ Hc]. vm_compute in Hc. discriminate.
Defined.

Lemma giveWinnerRole_trace winnerId env s :
  writes_tried (exec (giveWinnerRole winnerId) env s) = writes_tried s
  /\ (members_fetch winnerId, negb (throws env (members_fetch winnerId)))
     ∈ trace (exec (giveWinnerRole winnerId) env s).
Proof.
  unfold exec. rewrite giveWinnerRole_unfold. cbn zeta.
  assert ((members_fetch winnerId, negb (throws env (members_fetch winnerId)))
          ∈ trace s ++ [(members_fetch winnerId, negb (throws env (members_fetch winnerId)))])
    as Hin by (apply elem_of_app; right; apply list_elem_of_here).
  destruct (throws env (members_fetch _)) eqn:F.
  { cbn [snd]. rewrite writes_tried_logged. cbn. split; [lia | exact Hin]. }
  destruct (member_roles s !! winnerId).
  2:{ cbn [snd]. rewrite writes_tried_logged. cbn. split; [lia | exact Hin]. }
  destruct (throws env (member_roles_add _ _)); cbn [snd].
  - rewrite !writes_tried_logged. cbn. split; [lia|].
    cbn [trace logged]. apply elem_of_app. by left.
  - match goal with
    | |- writes_tried (set_roles_of _ _ ?x) = _ /\ _ ∈ trace (set_roles_of _ _ ?x) =>
        change (writes_tried x = writes_tried s
                /\ (members_fetch winnerId, negb false) ∈ trace x)
    end.
    rewrite !writes_tried_logged. cbn. split; [lia|]. apply elem_of_app. by left.
Qed.

(** X12.  Once the announcement is out the counts are gone, rewarded or
    not.  When the channel is there and the announcement is delivered,
    the tally in memory is empty afterwards and exactly one write of the
    file was tried, whatever the platform answered to the removals of the
    role, to the lookup of the winner and to the grant; the winner was
    looked up.  The file holds the empty tally once the write completes;
    when the write throws, [lastSave] is as it was and the file is as it
    was or, the write failing with the file open, holds no tally. *)
Theorem sendLeaderboard_resets_once_announced env s first rest :
  throws env (channels_fetch (CHANNEL_ID env)) = false ->
  CHANNEL_ID env ∈ channels s ->
  ranked (leaderboard s) = first :: rest ->
  throws env (channel_send (CHANNEL_ID env) (announcement_of (leaderboard s))) = false ->
  let s' := exec sendLeaderboard env s in
  leaderboard s' = []
  /\ writes_tried s' = S (writes_tried s)
  /\ (members_fetch first.1, negb (throws env (members_fetch first.1))) ∈ trace s'
  /\ (if throws env (fs_writeFileSync [])
      then lastSave s' = lastSave s
           /\ data_file s' = (if truncates env (fs_writeFileSync [])
                              then None else data_file s)
      else data_file s' = Some [] /\ lastSave s' = clock s').
Proof.
  intros Hfetch Hch Hranked Hsend. cbn zeta. unfold exec.
  rewrite sendLeaderboard_unfold. cbn zeta.
  rewrite Hfetch, (bool_decide_eq_true_2 _ Hch), Hranked, Hsend. cbn [negb].
  match goal with |- context [exec removeWinnerRole env ?x] => set (s0 := x) end.
  pose proof (removeWinnerRole_kept env s0) as K1.
  apply kept_fields in K1 as (_ & L1 & D1 & _).
  change (lastSave s0) with (lastSave s) in L1. change (data_file s0) with (data_file s) in D1.
  pose proof (removeWinnerRole_writes_tried env s0) as W1.
  unfold s0 in W1 at 2. rewrite writes_tried_logged in W1. cbn [is_write fst] in W1.
  match goal with |- context [exec (giveWinnerRole ?w) env ?x] => set (s2 := x) end.
  pose proof (giveWinnerRole_kept first.1 env s2) as K2.
  apply kept_fields in K2 as (_ & L2 & D2 & _).
  change (lastSave s2) with (lastSave (exec removeWinnerRole env s0)) in L2.
  change (data_file s2) with (data_file (exec removeWinnerRole env s0)) in D2.
  destruct (giveWinnerRole_trace first.1 env s2) as [W2 T2].
  unfold s2 in W2 at 2. rewrite writes_tried_logged in W2. cbn [is_write fst] in W2.
  set (s3 := exec (giveWinnerRole first.1) env s2) in *.
  rewrite saveData_unfold. cbn [negb andb leaderboard with_leaderboard]. cbn zeta.
  assert (forall b l, writes_tried (logged (fs_writeFileSync []) b l (with_leaderboard [] s3))
                      = S (writes_tried s)) as Hw.
  { intros. rewrite writes_tried_logged. cbn [is_write fst].
    change (writes_tried (with_leaderboard [] s3)) with (writes_tried s3). lia. }
  assert (forall b l, (members_fetch first.1, negb (throws env (members_fetch first.1)))
                      ∈ trace (logged (fs_writeFileSync []) b l (with_leaderboard [] s3)))
    as Ht.
  { intros. cbn [trace logged with_leaderboard]. apply elem_of_app. by left. }
  destruct (throws env (fs_writeFileSync [])); [destruct (truncates env (fs_writeFileSync []))|];
    cbn [snd]; (split; [done|]); (split; [apply Hw|]); (split; [apply Ht|]);
    cbn [data_file lastSave logged with_leaderboard with_data_file]; try done;
    split; congruence.
Qed.

Lemma sendLeaderboard_resets_witness :
  leaderboard (exec sendLeaderboard dave_protected village) = []
  /\ holds reward_role dave (exec sendLeaderboard dave_protected village).
Proof.
  split.
  - refine (proj1 (sendLeaderboard_resets_once_announced dave_protected village
                     (bob, 9) [(carol, 9); (alice, 5); (dave, 1)] _ _ _ _));
      [reflexivity | | reflexivity | reflexivity].
    apply list_elem_of_here.
  - exists [reward_role]. split; [reflexivity | apply list_elem_of_here].
Defined.

Lemma ranked_nil : ranked [] = [].
Proof. reflexivity. Qed.

Lemma ranked_nil_inv lb : ranked lb = [] -> lb = [].
Proof.
  intros H. destruct (decide (lb = [])) as [|Hne]; [done|]. by apply ranked_nonempty in Hne.
Qed.

(** X13.  The reward lasts one cycle.  When no call fails, the channel
    is there and the guild has the reward role, a cycle leaves the tally
    empty, and the cycle that follows it, with no message counted in
    between, sends the notice of no activity and leaves nobody with the
    reward role. *)
Theorem sendLeaderboard_twice_clears_reward env s r dt :
  (forall c, throws env c = false) ->
  CHANNEL_ID env ∈ channels s ->
  find_role (fun r => (role_id r =? WINNER_ROLE_ID env)%N) s = Some r ->
  let s1 := exec sendLeaderboard env s in
  let s2 := exec sendLeaderboard env (tick dt s1) in
  leaderboard s1 = []
  /\ leaderboard s2 = []
  /\ (channel_send (CHANNEL_ID env) NoActivityNotice, true) ∈ trace s2
  /\ forall m, ~ holds (WINNER_ROLE_ID env) m s2.
Proof.
  intros Hok Hch Hrole. cbn zeta.
  destruct (sendLeaderboard_kept_rest env s) as (_ & _ & _ & _ & Hg & Hc & _).
  set (s1 := exec sendLeaderboard env s) in *.
  assert (leaderboard s1 = []) as Hlb.
  { unfold s1, exec. rewrite sendLeaderboard_unfold. cbn zeta.
    rewrite Hok, (bool_decide_eq_true_2 _ Hch).
    destruct (ranked (leaderboard s)) as [|first rest] eqn:R.
    - cbn [snd leaderboard logged].
      pose proof (removeWinnerRole_kept env
                    (logged (channels_fetch (CHANNEL_ID env)) (negb false)
                       (latency env (channels_fetch (CHANNEL_ID env))) s)) as K.
      apply kept_fields in K as (-> & _). by apply ranked_nil_inv.
    - rewrite Hok. exact (saveData_leaderboard true env (with_leaderboard [] _)). }
  split; [exact Hlb|].
  unfold exec at 1 2 3. rewrite sendLeaderboard_unfold. cbn zeta.
  change (channels (tick dt s1)) with (channels s1).
  change (leaderboard (tick dt s1)) with (leaderboard s1).
  rewrite Hok, Hc, (bool_decide_eq_true_2 _ Hch), Hlb, ranked_nil, Hok. cbn [negb snd].
  match goal with |- context [exec removeWinnerRole env ?x] => set (s0 := x) end.
  assert (find_role (fun r => (role_id r =? WINNER_ROLE_ID env)%N) s0 = Some r) as Hrole0.
  { unfold find_role, s0. cbn [guild_roles logged tick]. rewrite Hg. exact Hrole. }
  destruct (removeWinnerRole_strips env s0 r Hok Hrole0) as [Hstrip _].
  pose proof (removeWinnerRole_kept env s0) as K.
  apply kept_fields in K as (K & _). change (leaderboard s0) with (leaderboard s1) in K.
  split; [cbn [leaderboard logged]; congruence|].
  split; [cbn [trace logged]; apply elem_of_app; right; apply list_elem_of_here|].
  intros m (rs & Hrs & Hin). cbn [member_roles logged] in Hrs. rewrite Hstrip in Hrs.
  destruct (member_roles s0 !! m) as [rs'|]; [|done]. cbn in Hrs. simplify_eq.
  by apply not_elem_of_without in Hin.
Qed.

Lemma sendLeaderboard_twice_witness :
  leaderboard (exec sendLeaderboard quiet
                 (tick 604800000 (exec sendLeaderboard quiet village))) = []
  /\ ~ holds reward_role bob
         (exec sendLeaderboard quiet (tick 604800000 (exec sendLeaderboard quiet village))).
Proof.
  assert (forall c, throws quiet c = false) as Hok by reflexivity.
  assert (CHANNEL_ID quiet ∈ channels village) as Hch by apply list_elem_of_here.
  destruct (sendLeaderboard_twice_clears_reward quiet village
              {| role_id := reward_role; role_name := "Winner" |} 604800000 Hok Hch eq_refl)
    as (_ & Hlb & _ & Hnone).
  split; [exact Hlb | apply Hnone].
Defined.

(** ** The cooldown tracker, continued *)

(** X14.  Cooldowns are kept apart and never forgotten.  A check for one
    user and command leaves the entry of every other pair of user and
    command as it was, so that the answer to a check for another pair is
    the same after it as before it; it removes no entry; and it changes
    nothing in the state but the cooldowns. *)
Theorem checkCooldown_isolated u c u' c' env env' s :
  (u, c) ≠ (u', c') ->
  let s' := exec (checkCooldown u c) env s in
  cooldowns s' !! cooldown_key u' c' = cooldowns s !! cooldown_key u' c'
  /\ result (checkCooldown u' c') env' s' = result (checkCooldown u' c') env' s
  /\ (forall k, is_Some (cooldowns s !! k) -> is_Some (cooldowns s' !! k))
  /\ with_cooldowns (cooldowns s) s' = s.
Proof.
  intros Hne. cbn zeta.
  assert (cooldown_key u c ≠ cooldown_key u' c') as Hk.
  { intros [-> ->]%cooldown_key_inj. done. }
  assert (clock (exec (checkCooldown u c) env s) = clock s
          /\ cooldowns (exec (checkCooldown u c) env s) !! cooldown_key u' c'
             = cooldowns s !! cooldown_key u' c'
          /\ (forall k, is_Some (cooldowns s !! k) ->
                        is_Some (cooldowns (exec (checkCooldown u c) env s) !! k))
          /\ with_cooldowns (cooldowns s) (exec (checkCooldown u c) env s) = s)
    as (Hclock & Hentry & Hdom & Hframe).
  { unfold exec. rewrite checkCooldown_unfold. cbn zeta.
    assert (forall k, is_Some (cooldowns s !! k) ->
                      is_Some (<[cooldown_key u c := clock s]> (cooldowns s) !! k)) as Hins.
    { intros k Hsome. destruct (decide (cooldown_key u c = k)) as [<-|Hkk].
      - rewrite lookup_insert_eq. by eexists.
      - by rewrite lookup_insert_ne. }
    assert (with_cooldowns (cooldowns s) s = s) as Hsame by by destruct s.
    destruct (cooldowns s !! cooldown_key u c) as [stamp|];
      [destruct (clock s <? stamp + COOLDOWN_TIME)|];
      cbn [snd clock cooldowns with_cooldowns];
      rewrite ?lookup_insert_ne by done; repeat split; try done; by destruct s. }
  split; [exact Hentry|]. split; [|split; [exact Hdom | exact Hframe]].
  unfold result. rewrite !checkCooldown_unfold. cbn zeta. rewrite Hentry, Hclock.
  destruct (cooldowns s !! cooldown_key u' c') as [stamp|]; [|done].
  by destruct (clock s <? stamp + COOLDOWN_TIME).
Qed.

Lemma checkCooldown_isolated_witness :
  result (checkCooldown alice "ban") quiet (exec (checkCooldown bob "kick") quiet village_after_kick)
  = result (checkCooldown alice "ban") quiet village_after_kick.
Proof.
  refine (proj1 (proj2 (checkCooldown_isolated bob "kick" alice "ban" quiet quiet
                          village_after_kick _))).
  discriminate.
Defined.


(** ** Mute and unmute, continued *)

Lemma capture_and_replace_guild env u muteRole s :
  guild_roles (capture_and_replace env u muteRole s).2 = guild_roles s
  /\ guild_id (capture_and_replace env u muteRole s).2 = guild_id s
  /\ channels (capture_and_replace env u muteRole s).2 = channels s.
Proof. unfold capture_and_replace. cbn zeta. by destruct (throws env _). Qed.

Lemma deny_turns_trace env role chans s :
  trace (fold_left (deny_turn env role) chans s)
  = trace s ++ map (fun ch => (permissionOverwrites_edit ch role,
                               negb (throws env (permissionOverwrites_edit ch role)))) chans.
Proof.
  revert s. induction chans as [|ch chans IH]; intros s; cbn [fold_left map].
  - by rewrite app_nil_r.
  - rewrite IH. unfold deny_turn. cbn [trace logged]. by rewrite <- app_assoc.
Qed.

Lemma Muted_created_guild env s :
  guild_roles (Muted_created env s) = guild_roles s ++ [new_Muted_role env]
  /\ channels (Muted_created env s) = channels s.
Proof.
  unfold Muted_created. cbn zeta. rewrite (proj2 (deny_turns_kept _ _ _ _)).
  split; [done|].
  pose proof (proj1 (deny_turns_kept env (created_role_id env)
                       (channels (with_guild_roles (guild_roles s ++ [new_Muted_role env])
                                    (logged (roles_create "Muted") true
                                       (latency env (roles_create "Muted")) s)))
                       (with_guild_roles (guild_roles s ++ [new_Muted_role env])
                          (logged (roles_create "Muted") true
                             (latency env (roles_create "Muted")) s)))) as K.
  unfold kept_by_calls in K. by simplify_eq.
Qed.

Lemma find_app_l {A} (p : A -> bool) l1 l2 x :
  List.find p l1 = Some x -> List.find p (l1 ++ l2) = Some x.
Proof.
  induction l1 as [|y l1 IH]; [done|]. cbn [List.find app]. by destruct (p y).
Qed.

Lemma find_app_r {A} (p : A -> bool) l1 l2 :
  List.find p l1 = None -> List.find p (l1 ++ l2) = List.find p l2.
Proof.
  induction l1 as [|y l1 IH]; [done|]. cbn [List.find app]. by destruct (p y).
Qed.

(** The ways a mute of a user without entry can go. *)
Lemma mute_command_cases env s u here :
  mutedUserRoles s !! u = None ->
  let r := mute_command true (Some u) here env s in
  let mr := Muted_role_used env s in
  let replaced := alter (fun _ => without (guild_id s) [role_id mr]) u (member_roles s) in
  (find_role named_Muted s = None /\ throws env (roles_create "Muted") = true
   /\ r.1 = Normal CannotCreateMutedRole
   /\ mutedUserRoles r.2 = mutedUserRoles s /\ member_roles r.2 = member_roles s)
  \/ ((is_Some (find_role named_Muted s) \/ throws env (roles_create "Muted") = false)
      /\ guild_id r.2 = guild_id s
      /\ find_role named_Muted r.2 = Some mr
      /\ (forall x, role_exists s x = true -> role_exists r.2 x = true)
      /\ if throws env (member_roles_set u [role_id mr])
         then r.1 = Normal MuteFailed
              /\ mutedUserRoles r.2 = mutedUserRoles s /\ member_roles r.2 = member_roles s
         else if throws env (embed_addFields "User Muted")
         then r.1 = Normal MuteFailed
              /\ mutedUserRoles r.2 = mutedUserRoles s /\ member_roles r.2 = replaced
         else r.1 = Normal (Muted (length (roles_but_everyone u s)))
              /\ mutedUserRoles r.2 = <[u := roles_but_everyone u s]> (mutedUserRoles s)
              /\ member_roles r.2 = replaced).
Proof.
  intros Hfree. cbn zeta. unfold Muted_role_used.
  rewrite (mute_command_unfold _ _ _ _ Hfree).
  destruct (find_role named_Muted s) as [muteRole|] eqn:Hfind.
  - right. cbn [default from_option id].
    destruct (mute_command_end_spec env u muteRole s s eq_refl Hfree) as (Hg & Hgid & H).
    split; [left; by eexists|]. split; [exact Hgid|]. split; [|split; [|exact H]].
    + unfold find_role. by rewrite Hg.
    + intros x. unfold role_exists, guild_roles_cache_get, find_role. by rewrite Hg.
  - cbn zeta. destruct (throws env (roles_create "Muted")) eqn:Hcreate.
    { left. by repeat split. }
    right. cbn [default from_option id].
    match goal with
    | |- context [capture_and_replace env u _ ?x] => set (s0 := x)
    end.
    assert (kept_by_calls s0 = kept_by_calls s) as Hkept by apply Muted_created_kept.
    assert (guild_roles s0 = guild_roles s ++ [new_Muted_role env]) as Hg0
      by apply Muted_created_guild.
    destruct (mute_command_end_spec env u (new_Muted_role env) s0 s Hkept Hfree)
      as (Hg & Hgid & H).
    split; [by right|]. split; [exact Hgid|]. split; [|split; [|exact H]].
    + unfold find_role in *. rewrite Hg, Hg0, (find_app_r _ _ _ Hfind). done.
    + intros x. unfold role_exists, guild_roles_cache_get, find_role. rewrite Hg, Hg0.
      intros Hx%bool_decide_eq_true. destruct Hx as [y Hy].
      rewrite (find_app_l _ _ _ _ Hy). apply bool_decide_eq_true. by eexists.
Qed.

(** What a mute that answers [Muted] leaves. *)
Lemma mute_command_success env s u here n :
  mutedUserRoles s !! u = None ->
  result (mute_command true (Some u) here) env s = Normal (Muted n) ->
  let s1 := exec (mute_command true (Some u) here) env s in
  let mr := Muted_role_used env s in
  n = length (roles_but_everyone u s)
  /\ mutedUserRoles s1 = <[u := roles_but_everyone u s]> (mutedUserRoles s)
  /\ member_roles s1 = alter (fun _ => without (guild_id s) [role_id mr]) u (member_roles s)
  /\ guild_id s1 = guild_id s
  /\ find_role named_Muted s1 = Some mr
  /\ (forall r, role_exists s r = true -> role_exists s1 r = true).
Proof.
  intros Hfree. cbn zeta. unfold result, exec. intros Hres.
  destruct (mute_command_cases env s u here Hfree)
    as [(_ & _ & Hr & _)|(_ & Hgid & Hfind & Hkeep & H)].
  { rewrite Hr in Hres. discriminate. }
  destruct (throws env (member_roles_set _ _));
    [|destruct (throws env (embed_addFields "User Muted"))];
    destruct H as (Hr & Hl & Hm); rewrite Hr in Hres; try discriminate.
  injection Hres as <-. by repeat split.
Qed.

Lemma roles_but_everyone_lookup u s rs :
  member_roles s !! u = Some rs -> guild_id s ∉ rs -> roles_but_everyone u s = rs.
Proof.
  intros Hrs Hgid. unfold roles_but_everyone, member_roles_cache. rewrite Hrs.
  cbn [default from_option id]. rewrite without_snoc. by apply without_not_elem.
Qed.

(** X15.  Mute and unmute are a round trip.  When the guild still has
    every role the member held, and neither the everyone role nor the
    restricted role is among them, a mute that succeeds followed, any time
    later, by an unmute whose role change the platform accepts leaves the
    ledger of muted users and the roles of every member exactly as they
    were before the mute; both replies count the roles the member held. *)
Theorem mute_then_unmute_restores env env' s u here rs n dt :
  mutedUserRoles s !! u = None ->
  member_roles s !! u = Some rs ->
  guild_id s ∉ rs ->
  role_id (Muted_role_used env s) ∉ rs ->
  Forall (fun r => role_exists s r = true) rs ->
  result (mute_command true (Some u) here) env s = Normal (Muted n) ->
  throws env' (member_roles_set u rs) = false ->
  let s1 := tick dt (exec (mute_command true (Some u) here) env s) in
  let s2 := exec (unmute_command true (Some u)) env' s1 in
  n = length rs
  /\ result (unmute_command true (Some u)) env' s1 = Normal (Unmuted (length rs))
  /\ mutedUserRoles s2 = mutedUserRoles s
  /\ member_roles s2 = member_roles s.
Proof.
  intros Hfree Hrs Hgid Hmuted Hexist Hres Hset. cbn zeta.
  destruct (mute_command_success env s u here n Hfree Hres)
    as (Hn & Hledger & Hroles & Hgid1 & Hfind & Hkeep).
  rewrite (roles_but_everyone_lookup u s rs Hrs Hgid) in Hn, Hledger.
  set (s1 := exec (mute_command true (Some u) here) env s) in *.
  assert (validRoles (Some (Muted_role_used env s)) rs (tick dt s1) = rs) as Hvalid.
  { change (validRoles ?m ?l (tick dt s1)) with (validRoles m l s1).
    rewrite validRoles_all_exist.
    - by apply without_not_elem.
    - eapply Forall_impl; [exact Hexist|]. intros r. apply Hkeep. }
  assert (mutedUserRoles (tick dt s1) !! u = Some rs) as Hstored.
  { cbn [mutedUserRoles tick]. rewrite Hledger. apply lookup_insert_eq. }
  split; [exact Hn|].
  unfold result, exec.
  rewrite (unmute_command_unfold env' (tick dt s1) u rs (Muted_role_used env s) Hfind Hstored).
  cbn zeta. rewrite Hvalid, Hset.
  cbn [fst snd mutedUserRoles member_roles with_mutedUserRoles set_roles_of with_member_roles
         logged tick guild_id].
  split; [done|]. split.
  - rewrite Hledger, delete_insert_eq. by apply delete_id.
  - rewrite Hroles, Hgid1, (without_not_elem _ _ Hgid). apply map_eq. intros m.
    destruct (decide (u = m)) as [<-|Hne].
    + by rewrite !lookup_alter_eq, Hrs.
    + by rewrite !lookup_alter_ne.
Qed.

Lemma mute_then_unmute_witness :
  member_roles (exec (unmute_command true (Some carol)) quiet
                  (tick 60000 (exec (mute_command true (Some carol) general) quiet
                                 village_with_muted)))
  = member_roles village_with_muted.
Proof.
  refine (proj2 (proj2 (proj2 (mute_then_unmute_restores quiet quiet village_with_muted carol
                                 general [helper_role; reward_role] 2 60000 _ _ _ _ _ _ _))));
    try reflexivity.
  - apply (bool_decide_unpack _). vm_compute. exact I.
  - apply (bool_decide_unpack _). vm_compute. exact I.
  - repeat constructor.
Defined.

(** X16.  What the chat command leaves behind each of its answers.  For
    a user without an entry, the ledger follows the answer: the entry is
    there, holding the roles the member had, exactly when the answer is
    [Muted].  The roles follow the platform: they are as they were when
    no restricted role could be created or the change of roles was
    refused, and the member holds the restricted role alone as soon as
    the change was accepted.  So when the change is accepted and the
    record for the audit channel cannot be built, the answer is that the
    mute failed, the member holds the restricted role alone and has no
    entry, and an unmute of the member is refused. *)
Theorem mute_command_outcomes env s u here :
  mutedUserRoles s !! u = None ->
  let s1 := exec (mute_command true (Some u) here) env s in
  let mr := Muted_role_used env s in
  let replaced := alter (fun _ => without (guild_id s) [role_id mr]) u (member_roles s) in
  match result (mute_command true (Some u) here) env s with
  | Normal (Muted n) =>
      n = length (roles_but_everyone u s)
      /\ mutedUserRoles s1 = <[u := roles_but_everyone u s]> (mutedUserRoles s)
      /\ member_roles s1 = replaced
  | Normal CannotCreateMutedRole =>
      mutedUserRoles s1 = mutedUserRoles s /\ member_roles s1 = member_roles s
  | Normal MuteFailed =>
      mutedUserRoles s1 = mutedUserRoles s
      /\ if throws env (member_roles_set u [role_id mr])
         then member_roles s1 = member_roles s
         else throws env (embed_addFields "User Muted") = true
              /\ member_roles s1 = replaced
              /\ forall env', unmute_command true (Some u) env' s1 = (Normal NotMutedHere, s1)
  | _ => False
  end.
Proof.
  intros Hfree. cbn zeta. unfold result, exec.
  destruct (mute_command_cases env s u here Hfree)
    as [(_ & _ & Hr & Hl & Hm)|(_ & Hgid & Hfind & Hkeep & H)].
  { by rewrite Hr. }
  destruct (throws env (member_roles_set _ _));
    [|destruct (throws env (embed_addFields "User Muted"))];
    destruct H as (Hr & Hl & Hm); rewrite Hr; try done.
  split; [done|]. split; [done|]. split; [done|].
  intros env'. unfold unmute_command, guild_roles_cache_find. run. cbn [negb].
  fold named_Muted. by rewrite Hfind, Hl, Hfree.
Qed.

Lemma mute_command_outcomes_witness :
  result (mute_command true (Some carol) general) long_reason village_with_muted
  = Normal MuteFailed
  /\ member_roles (exec (mute_command true (Some carol) general) long_reason
                     village_with_muted) !! carol = Some [role_id muted_role]
  /\ mutedUserRoles (exec (mute_command true (Some carol) general) long_reason
                       village_with_muted) !! carol = None.
Proof.
  pose proof (mute_command_outcomes long_reason village_with_muted carol general eq_refl) as H.
  cbn zeta in H.
  assert (result (mute_command true (Some carol) general) long_reason village_with_muted
          = Normal MuteFailed) as Hr by reflexivity.
  rewrite Hr in H. destruct H as (Hl & _ & Hm & _).
  split; [exact Hr|]. split; [by rewrite Hm | by rewrite Hl].
Defined.

(** X17.  An unmute that does not take place changes nothing.  For a
    user without an entry the command is refused and leaves the state as
    it is, and the endpoint answers with an error having done no more than
    look the member up.  When the platform refuses the change of roles,
    the command and the endpoint report the failure and the ledger and
    the roles of every member are what they were: the entry is still there
    for another attempt. *)
Theorem unmute_refusals_keep_state :
  (forall env s u,
      mutedUserRoles s !! u = None ->
      exec (unmute_command true (Some u)) env s = s
      /\ (result (unmute_command true (Some u)) env s = Normal NoMutedRole
          \/ result (unmute_command true (Some u)) env s = Normal NotMutedHere)
      /\ exec (api_unmute u) env s
         = logged (members_fetch u) (negb (throws env (members_fetch u)))
             (latency env (members_fetch u)) s
      /\ exists e, result (api_unmute u) env s = Normal (Failure e))
  /\ (forall env s u stored mr,
         find_role named_Muted s = Some mr ->
         mutedUserRoles s !! u = Some stored ->
         throws env (member_roles_set u (validRoles (Some mr) stored s)) = true ->
         (result (unmute_command true (Some u)) env s = Normal UnmuteFailed
          /\ mutedUserRoles (exec (unmute_command true (Some u)) env s) = mutedUserRoles s
          /\ member_roles (exec (unmute_command true (Some u)) env s) = member_roles s)
         /\ (forall rs,
                throws env (members_fetch u) = false ->
                member_roles s !! u = Some rs ->
                (exists e, result (api_unmute u) env s = Normal (Failure e))
                /\ mutedUserRoles (exec (api_unmute u) env s) = mutedUserRoles s
                /\ member_roles (exec (api_unmute u) env s) = member_roles s)).
Proof.
  split.
  - intros env s u Hfree. split; [|split; [|split]].
    + unfold exec, unmute_command, guild_roles_cache_find. run. cbn [negb].
      destruct (find_role _ s); [|done]. by rewrite Hfree.
    + unfold result, unmute_command, guild_roles_cache_find. run. cbn [negb].
      destruct (find_role _ s); [|by left]. rewrite Hfree. by right.
    + unfold exec, api_unmute, guild_members_fetch. run.
      destruct (throws env (members_fetch u)); [done|].
      cbn [member_roles mutedUserRoles logged]. destruct (member_roles s !! u); [|done].
      cbn beta iota. cbn [mutedUserRoles logged]. by rewrite Hfree.
    + unfold result, api_unmute, guild_members_fetch. run.
      destruct (throws env (members_fetch u)); [by eexists|].
      cbn [member_roles mutedUserRoles logged]. destruct (member_roles s !! u); [|by eexists].
      cbn beta iota. cbn [mutedUserRoles logged]. rewrite Hfree. by eexists.
  - intros env s u stored mr Hfind Hstored Hthrow. split.
    + unfold result, exec. rewrite (unmute_command_unfold env s u stored mr Hfind Hstored).
      cbn zeta. by rewrite Hthrow.
    + intros rs Hfetch Hrs. unfold result, exec.
      rewrite (api_unmute_unfold env s u stored rs Hfetch Hrs Hstored).
      cbn zeta. rewrite Hfind, Hthrow. split; [by eexists | done].
Qed.

Lemma unmute_refusals_witness :
  exec (unmute_command true (Some bob)) quiet village_with_muted = village_with_muted
  /\ mutedUserRoles (exec (unmute_command true (Some carol)) no_role_change carol_muted)
     = mutedUserRoles carol_muted.
Proof.
  destruct unmute_refusals_keep_state as [Hnone Hfail]. split.
  - apply (Hnone quiet village_with_muted bob). reflexivity.
  - apply (Hfail no_role_change carol_muted carol [helper_role; reward_role] muted_role);
      reflexivity.
Defined.

Lemma mute_command_end_trace env u muteRole s0 :
  exists calls,
    trace (mute_command_end env u (capture_and_replace env u muteRole s0)).2
    = trace s0 ++ calls.
Proof.
  unfold mute_command_end, capture_and_replace. cbn zeta.
  destruct (throws env (member_roles_set _ _)); [by eexists|].
  destruct (throws env (embed_addFields _)).
  { cbn [snd trace logged with_mutedUserRoles set_roles_of with_member_roles].
    rewrite <- app_assoc. by eexists. }
  cbn [snd].
  match goal with |- context [exec (logAction _) env ?x] =>
    destruct (logAction_spec "User Muted" env x) as (_ & _ & _ & calls & -> & _) end.
  cbn [trace logged with_mutedUserRoles set_roles_of with_member_roles].
  rewrite <- !app_assoc. by eexists.
Qed.

(** X18.  A first mute creates the restricted role and denies it in
    every channel.  When the guild has no role named "Muted" and the
    platform creates one, the guild has the new role afterwards whether or
    not the mute then succeeds; a denial was tried in every channel of the
    guild, a refusal in one channel stopping neither the others nor the
    mute; and the mute succeeds exactly when the platform accepts the
    change of the member's roles and the record for the audit channel can
    be built. *)
Theorem mute_command_creates_and_denies env s u here :
  mutedUserRoles s !! u = None ->
  find_role named_Muted s = None ->
  throws env (roles_create "Muted") = false ->
  let s1 := exec (mute_command true (Some u) here) env s in
  let role := created_role_id env in
  guild_roles s1 = guild_roles s ++ [new_Muted_role env]
  /\ (forall ch, ch ∈ channels s ->
                 (permissionOverwrites_edit ch role,
                  negb (throws env (permissionOverwrites_edit ch role))) ∈ trace s1)
  /\ result (mute_command true (Some u) here) env s
     = if throws env (member_roles_set u [role]) || throws env (embed_addFields "User Muted")
       then Normal MuteFailed
       else Normal (Muted (length (roles_but_everyone u s))).
Proof.
  intros Hfree Hfind Hcreate. cbn zeta. unfold exec, result.
  rewrite (mute_command_unfold _ _ _ _ Hfree), Hfind. cbn zeta. rewrite Hcreate.
  match goal with
  | |- context [capture_and_replace env u _ ?x] => set (s0 := x)
  end.
  assert (kept_by_calls s0 = kept_by_calls s) as Hkept by apply Muted_created_kept.
  assert (guild_roles s0 = guild_roles s ++ [new_Muted_role env]) as Hg0
    by apply Muted_created_guild.
  assert (forall ch, ch ∈ channels s ->
                     (permissionOverwrites_edit ch (created_role_id env),
                      negb (throws env (permissionOverwrites_edit ch (created_role_id env))))
                     ∈ trace s0) as Hdenied.
  { intros ch Hch. unfold s0. cbn [trace logged]. apply elem_of_app. left.
    unfold Muted_created. cbn zeta. rewrite deny_turns_trace. apply elem_of_app. right.
    apply list_elem_of_fmap. by exists ch. }
  destruct (mute_command_end_spec env u (new_Muted_role env) s0 s Hkept Hfree)
    as (Hg & _ & H).
  destruct (mute_command_end_trace env u (new_Muted_role env) s0) as [calls Ht].
  split; [by rewrite Hg|]. split.
  - intros ch Hch. rewrite Ht. apply elem_of_app. left. by apply Hdenied.
  - change (role_id (new_Muted_role env)) with (created_role_id env) in H.
    destruct (throws env (member_roles_set u [created_role_id env]));
      [|destruct (throws env (embed_addFields "User Muted"))]; by destruct H as [-> _].
Qed.

Lemma mute_command_creates_witness :
  guild_roles (exec (mute_command true (Some carol) general) no_role_change village)
  = guild_roles village ++ [new_Muted_role no_role_change].
Proof.
  refine (proj1 (mute_command_creates_and_denies no_role_change village carol general _ _ _));
    reflexivity.
Defined.

(** ** Clear, continued *)

Lemma digit_of_pretty_N_char (d : N) :
  (d < 10)%N -> Js.digit_of 10 (pretty_N_char d) = Some (Z.of_N d).
Proof.
  intros Hd.
  assert (d = 0 \/ d = 1 \/ d = 2 \/ d = 3 \/ d = 4 \/ d = 5 \/ d = 6 \/ d = 7 \/ d = 8
          \/ d = 9)%N as H by lia.
  by destruct H as [-> | [-> | [-> | [-> | [-> | [-> | [-> | [-> | [-> | ->]]]]]]]]].
Qed.

(** Reading back the digits that [pretty] has written. *)
Lemma read_digits_pretty_N_go x s acc :
  (0 < x)%N -> default 0 acc = 0 ->
  Js.read_digits 10 (pretty_N_go x s) acc = Js.read_digits 10 s (Some (Z.of_N x)).
Proof.
  revert s acc. induction (N.lt_wf_0 x) as [x _ IH]; intros s acc Hx Hacc.
  rewrite pretty_N_go_step by done.
  assert (x `mod` 10 < 10)%N as Hd by (apply N.mod_lt; lia).
  assert (Z.of_N x = Z.of_N (x `div` 10) * 10 + Z.of_N (x `mod` 10)) as Hsplit.
  { pose proof (N.div_mod x 10) as E. lia. }
  destruct (N.eq_0_gt_0_cases (x `div` 10)) as [H0|Hpos].
  - rewrite H0, pretty_N_go_0. cbn [Js.read_digits].
    rewrite (digit_of_pretty_N_char _ Hd), Hacc, Hsplit, H0. done.
  - rewrite (IH (x `div` 10)%N); [|by apply N.div_lt|done|done].
    cbn [Js.read_digits]. rewrite (digit_of_pretty_N_char _ Hd).
    cbn [default from_option id]. by rewrite Hsplit.
Qed.

(** The first digit [pretty] writes for a positive number is not a zero. *)
Lemma pretty_N_go_head x s :
  (0 < x)%N -> exists d rest, (1 <= d <= 9)%N /\ pretty_N_go x s = String (pretty_N_char d) rest.
Proof.
  revert s. induction (N.lt_wf_0 x) as [x _ IH]; intros s Hx.
  rewrite pretty_N_go_step by done.
  destruct (N.eq_0_gt_0_cases (x `div` 10)) as [H0|Hpos].
  - rewrite H0, pretty_N_go_0. exists (x `mod` 10)%N, s. split; [|done].
    assert (x `mod` 10 < 10)%N by (apply N.mod_lt; lia).
    pose proof (N.div_mod x 10) as E. lia.
  - apply IH; [by apply N.div_lt | done].
Qed.

Lemma pretty_N_go_app x s t : pretty_N_go x s +:+ t = pretty_N_go x (s +:+ t).
Proof.
  revert s. induction (N.lt_wf_0 x) as [x _ IH]; intros s.
  assert (x = 0 \/ 0 < x)%N as [->|Hx] by lia; [by rewrite !pretty_N_go_0|].
  rewrite (pretty_N_go_step x s), (pretty_N_go_step x (s +:+ t)) by done.
  rewrite IH by by apply N.div_lt. done.
Qed.

Lemma to_double_small n : Z.abs n < 2 ^ 53 -> Js.to_double n = n.
Proof.
  intros H. unfold Js.to_double. cbn zeta.
  destruct (Z.ltb_spec (Z.abs n) (2 ^ 53)); [done | lia].
Qed.

(** Rounding does not bring a large integer below 2^53. *)
Lemma to_double_large n : 2 ^ 53 <= n -> 2 ^ 53 <= Js.to_double n.
Proof.
  intros H. unfold Js.to_double. cbn zeta.
  assert (0 < 2 ^ 53) as Hpos by (by apply Z.pow_pos_nonneg).
  rewrite (Z.abs_eq n) by lia.
  destruct (Z.ltb_spec n (2 ^ 53)) as [|_]; [lia|].
  assert (53 <= Z.log2 n) as Hlog by (apply Z.log2_le_pow2; lia).
  set (e := Z.log2 n - 52).
  assert (1 <= e) as He by (unfold e; lia).
  destruct (Z.log2_spec n ltac:(lia)) as [Hlo _].
  assert (2 ^ Z.log2 n = 2 ^ e * 2 ^ 52) as E.
  { unfold e. rewrite <- Z.pow_add_r by lia. f_equal. lia. }
  assert (0 < 2 ^ e) as Hpe by (apply Z.pow_pos_nonneg; lia).
  assert (2 <= 2 ^ e) as H2e.
  { change 2 with (2 ^ 1) at 1. apply Z.pow_le_mono_r; lia. }
  rewrite Z.shiftr_div_pow2, !Z.shiftl_mul_pow2 by lia.
  assert (2 ^ 52 <= n / 2 ^ e) as Hq.
  { apply Z.div_le_lower_bound; [done | lia]. }
  set (q := n / 2 ^ e) in *.
  match goal with
  | |- context [if ?b then q else q + 1] => set (q' := if b then q else q + 1)
  end.
  assert (q <= q') as Hq'.
  { unfold q'. match goal with |- context [if ?b then _ else _] => destruct b end; lia. }
  rewrite Z.sgn_pos by lia.
  assert (0 < 2 ^ 52) as Hp52 by (by apply Z.pow_pos_nonneg).
  assert (2 ^ 53 = 2 ^ 52 * 2) as E53 by reflexivity.
  assert (2 ^ 53 <= q' * 2 ^ e) as Hr by nia.
  assert (2 ^ 53 <= 2 ^ 1024) as Hmax by (apply Z.pow_le_mono_r; lia).
  lia.
Qed.

(** [parseInt] reads a positive decimal numeral back, and stops at the
    first character that is not a digit. *)
Lemma parseInt_pretty (n : N) (junk : string) :
  (0 < n)%N ->
  (forall c rest, junk = String c rest -> Js.digit_of 10 c = None) ->
  Js.parseInt (pretty n +:+ junk) = Some (Js.to_double (Z.of_N n)).
Proof.
  intros Hn Hjunk. unfold pretty, pretty_N. destruct (decide (n = 0%N)); [lia|].
  rewrite pretty_N_go_app. change ("" +:+ junk) with junk.
  destruct (pretty_N_go_head n junk Hn) as (d & rest & Hd & Hhead).
  assert (Js.parseInt (pretty_N_go n junk)
          = Js.to_double <$> Js.read_digits 10 (pretty_N_go n junk) None) as ->.
  { rewrite Hhead.
    assert (d = 1 \/ d = 2 \/ d = 3 \/ d = 4 \/ d = 5 \/ d = 6 \/ d = 7 \/ d = 8 \/ d = 9)%N
      as H by lia.
    destruct H as [-> | [-> | [-> | [-> | [-> | [-> | [-> | [-> | ->]]]]]]]];
      cbv -[Js.read_digits Js.to_double Z.mul];
      (destruct (Js.read_digits _ _ _) as [k|]; [do 2 f_equal; lia | done]). }
  rewrite (read_digits_pretty_N_go n junk None Hn eq_refl).
  destruct junk as [|c rest']; [done|]. cbn [Js.read_digits].
  by rewrite (Hjunk c rest' eq_refl).
Qed.

(** X19.  The command reads the decimal numeral at the front of its
    argument, and nothing after it.  For a positive number [n] written in
    decimal and followed by nothing, or by anything that does not start
    with a digit, [parseInt] gives the number value of [n], which is [n]
    below 2^53.  The command then calls [bulkDelete] with [n] when [n] is
    at most 100, answering that [n] messages are deleted when that call
    and the reply complete and that the deletion failed otherwise; it
    refuses a larger [n] and calls nothing.  The text after the numeral
    plays no part. *)
Theorem clear_command_reads_leading_numeral (n : N) (junk : string) here env s :
  (0 < n)%N ->
  (forall c rest, junk = String c rest -> Js.digit_of 10 c = None) ->
  let d := channel_bulkDelete here (Js.Num (Js.of_Z (Z.of_N n))) in
  let s' := exec (clear_command true [pretty n +:+ junk] here) env s in
  Js.parseInt (pretty n +:+ junk) = Some (Js.to_double (Z.of_N n))
  /\ (Z.of_N n < 2 ^ 53 -> Js.parseInt (pretty n +:+ junk) = Some (Z.of_N n))
  /\ result (clear_command true [pretty n +:+ junk] here) env s
     = Normal (if (n <=? 100)%N
               then if throws env d || throws env (message_reply here)
                    then ClearFailed else Deleted (Z.of_N n)
               else BadAmount)
  /\ (if (n <=? 100)%N then (d, negb (throws env d)) ∈ trace s' else s' = s).
Proof.
  intros Hn Hjunk. cbn zeta. pose proof (parseInt_pretty n junk Hn Hjunk) as Hparse.
  split; [exact Hparse|].
  split; [intros Hsmall; rewrite Hparse, to_double_small; [done | lia]|].
  unfold result, exec. rewrite clear_command_validation. unfold Js.parseInt_arg.
  change (default "undefined"%string (head [pretty n +:+ junk])) with (pretty n +:+ junk).
  rewrite Hparse.
  destruct (N.leb_spec n 100) as [Hle|Hgt].
  - rewrite to_double_small by lia.
    destruct (Z.leb_spec 1 (Z.of_N n)), (Z.leb_spec (Z.of_N n) 100); try lia. cbn [andb].
    destruct (clear_command_end_spec env here (Z.of_N n) s)
      as (_ & _ & (rest & Ht & _) & Hr).
    split; [exact Hr|]. rewrite Ht. apply elem_of_app. right. apply list_elem_of_here.
  - assert (100 < Js.to_double (Z.of_N n)) as Hbig.
    { destruct (Z.lt_ge_cases (Z.of_N n) (2 ^ 53)) as [Hs|Hl].
      - rewrite to_double_small; lia.
      - apply to_double_large in Hl. lia. }
    destruct (Z.leb_spec (Js.to_double (Z.of_N n)) 100); [lia|].
    rewrite andb_false_r. done.
Qed.

Lemma clear_command_reads_witness :
  result (clear_command true ["42 messages"%string] general) quiet village
  = Normal (Deleted 42).
Proof.
  refine (proj1 (proj2 (proj2 (clear_command_reads_leading_numeral 42 " messages" general quiet
                                 village _ _)))).
  - reflexivity.
  - intros c rest [= <- _]. reflexivity.
Defined.

(** X20.  What the command can delete.  Whatever its arguments, the
    command changes nothing but the log of calls and the clock.  It makes
    no call at all, or its first call is [bulkDelete] in the channel of
    the message, with a whole number from 1 to 100, and this only with
    the permission; no other call of [bulkDelete] follows, and no call
    at all follows one that threw. *)
Theorem clear_command_bounded can_manage args here env s :
  let s' := exec (clear_command can_manage args here) env s in
  kept s' = kept s
  /\ member_roles s' = member_roles s
  /\ (s' = s
      \/ exists n rest,
           let d := channel_bulkDelete here (Js.Num (Js.of_Z n)) in
           1 <= n <= 100 /\ can_manage = true
           /\ Js.parseInt_arg (head args) = Some n
           /\ trace s' = trace s ++ (d, negb (throws env d)) :: rest
           /\ Forall (fun e => is_bulkDelete e = false) rest
           /\ (throws env d = true -> rest = [])).
Proof.
  cbn zeta. destruct can_manage; [|by repeat split; try left].
  unfold exec. rewrite clear_command_validation.
  destruct (Js.parseInt_arg (head args)) as [n|]; [|by repeat split; try left].
  destruct (Z.leb_spec 1 n), (Z.leb_spec n 100); cbn [andb];
    try (by repeat split; try left).
  destruct (clear_command_end_spec env here n s) as (K & M & (rest & Ht & Hrest & Hnone) & _).
  split; [exact K|]. split; [exact M|]. right. exists n, rest. cbn zeta.
  repeat split; try done; lia.
Qed.

(** X21.  The endpoint on amounts that are numbers.  When the channel is
    there, an amount that converts to a rational number goes to
    [bulkDelete] as it came exactly when the number lies between 1 and
    100, whole or not; otherwise the request is answered with the error
    about the amount and nothing is deleted.  When the channel is not
    there, nothing is deleted whatever the amount. *)
Theorem api_clear_rational_amounts (StringToNumber : string -> Js.Number)
    env s channelId amount :
  throws env (channels_fetch channelId) = false ->
  let fetched := logged (channels_fetch channelId) true
                   (latency env (channels_fetch channelId)) s in
  let d := channel_bulkDelete channelId amount in
  (channelId ∉ channels s ->
   api_clear StringToNumber channelId amount env s
   = (Normal (Failure (AppError "Channel not found")), fetched))
  /\ (forall q, channelId ∈ channels s ->
                Js.ToNumber StringToNumber amount = Js.Fin q ->
                api_clear StringToNumber channelId amount env s
                = if Qle_bool 1 q && Qle_bool q 100
                  then (Normal (if throws env d then Failure (PlatformError d) else Success None),
                        logged d (negb (throws env d)) (latency env d) fetched)
                  else (Normal (Failure (AppError "Amount must be between 1 and 100")),
                        fetched)).
Proof.
  intros Hfetch. cbn zeta. split.
  - intros Hch. rewrite api_clear_unfold. cbn zeta.
    by rewrite Hfetch, (bool_decide_eq_false_2 _ Hch).
  - intros q Hch Hq. rewrite api_clear_unfold. cbn zeta.
    rewrite Hfetch, (bool_decide_eq_true_2 _ Hch).
    unfold Js.lt_num, Js.gt_num. rewrite Hq. unfold Js.lt, Js.of_Z.
    assert (Qle_bool 1 q = negb match (q ?= inject_Z 1)%Q with Lt => true | _ => false end)
      as ->.
    { change (inject_Z 1) with 1%Q.
      destruct (Qle_bool 1 q) eqn:E.
      - apply Qle_bool_iff in E. destruct (Qcompare_spec q 1) as [H|H|H]; try done.
        exfalso. apply (Qlt_not_le _ _ H E).
      - destruct (Qcompare_spec q 1) as [H|H|H]; try done.
        + assert (Qle_bool 1 q = true); [|congruence]. apply Qle_bool_iff. rewrite H. apply Qle_refl.
        + assert (Qle_bool 1 q = true); [|congruence]. apply Qle_bool_iff. by apply Qlt_le_weak. }
    assert (Qle_bool q 100 = negb match (inject_Z 100 ?= q)%Q with Lt => true | _ => false end)
      as ->.
    { change (inject_Z 100) with 100%Q.
      destruct (Qle_bool q 100) eqn:E.
      - apply Qle_bool_iff in E. destruct (Qcompare_spec 100 q) as [H|H|H]; try done.
        exfalso. apply (Qlt_not_le _ _ H E).
      - destruct (Qcompare_spec 100 q) as [H|H|H]; try done.
        + assert (Qle_bool q 100 = true); [|congruence]. apply Qle_bool_iff. rewrite H. apply Qle_refl.
        + assert (Qle_bool q 100 = true); [|congruence]. apply Qle_bool_iff. by apply Qlt_le_weak. }
    destruct (q ?= inject_Z 1)%Q, (inject_Z 100 ?= q)%Q; done.
Qed.

Lemma api_clear_rational_witness :
  result (api_clear sample_StringToNumber general (Js.Num (Js.Fin (5 # 2)))) quiet village
  = Normal (Success None).
Proof.
  assert (general ∈ channels village) as Hch
    by (apply list_elem_of_further, list_elem_of_here).
  pose proof (proj2 (api_clear_rational_amounts sample_StringToNumber quiet village general
                       (Js.Num (Js.Fin (5 # 2))) eq_refl) (5 # 2)%Q Hch eq_refl) as H.
  unfold result. rewrite H. reflexivity.
Defined.

(** ** Start of the process *)

Lemma get_Some_elem_of (o : Js.Object) k v :
  NoDup (map fst o) -> Js.get o k = Some v <-> (k, v) ∈ o.
Proof.
  induction o as [|[k' v'] o IH]; cbn [Js.get map fst].
  - intros _. split; [done | by intros ?%elem_of_nil].
  - intros [Hk' Hnd]%NoDup_cons. rewrite elem_of_cons.
    destruct (N.eqb_spec k' k) as [->|Hne].
    + split; [intros [= ->]; by left|].
      intros [[= ->]|Hin]; [done|].
      destruct Hk'. apply list_elem_of_fmap. by exists (k, v).
    + rewrite (IH Hnd). split; [by right|]. intros [[= -> ->]|Hin]; [done|done].
Qed.

Lemma get_perm (o o' : Js.Object) k :
  o ≡ₚ o' -> NoDup (map fst o) -> Js.get o k = Js.get o' k.
Proof.
  intros Hp Hnd.
  assert (NoDup (map fst o')) as Hnd' by by rewrite <- Hp.
  destruct (Js.get o k) as [v|] eqn:E.
  - apply (get_Some_elem_of o k v Hnd) in E. rewrite Hp in E.
    symmetry. by apply get_Some_elem_of.
  - destruct (Js.get o' k) as [v'|] eqn:E'; [|done].
    apply (get_Some_elem_of o' k v' Hnd') in E'. rewrite <- Hp in E'.
    apply (get_Some_elem_of o k v' Hnd) in E'. congruence.
Qed.

(** X22.  A restart after a save that reached the disk finds the tally
    again.  The tally loaded from the file gives every user the count it
    had, has as many users and the same total; it is the same object,
    key order included, when no key is an array index; the file is not
    ahead of it.  A file that cannot be read or parsed gives the empty
    tally. *)
Theorem restart_restores_saved_tally env s :
  throws env (fs_writeFileSync (leaderboard s)) = false ->
  NoDup (map fst (leaderboard s)) ->
  let s' := exec (saveData true) env s in
  let loaded := load_leaderboard true (data_file s') in
  (forall u, Js.get loaded u = Js.get (leaderboard s) u)
  /\ length loaded = length (leaderboard s)
  /\ totalMessages loaded = totalMessages (leaderboard s)
  /\ (user_keys (leaderboard s) -> loaded = leaderboard s)
  /\ file_behind (with_leaderboard loaded s')
  /\ load_leaderboard false (data_file s') = [].
Proof.
  intros Hwrite Hnd. cbn zeta. unfold exec. rewrite saveData_unfold.
  cbn [negb andb]. cbn zeta. rewrite Hwrite.
  cbn [snd data_file with_lastSave with_data_file load_leaderboard]. unfold JSON_reparsed.
  pose proof (Object_entries_perm (leaderboard s)) as Hp.
  assert (forall u, Js.get (Js.Object_entries (leaderboard s)) u = Js.get (leaderboard s) u)
    as Hget.
  { intros u. symmetry. apply get_perm; [by symmetry | done]. }
  split; [exact Hget|]. split; [by apply Permutation_length|].
  split; [rewrite !totalMessages_sum; by apply sum_counts_perm|].
  split; [apply Object_entries_creation_order|]. split; [|done].
  unfold file_behind. cbn [data_file leaderboard with_leaderboard with_lastSave with_data_file].
  intros u c Hc. exists c. rewrite Hget. split; [done | lia].
Qed.

Lemma restart_restores_witness :
  load_leaderboard true (data_file (exec (saveData true) quiet village)) = leaderboard village.
Proof.
  refine (proj1 (proj2 (proj2 (proj2 (restart_restores_saved_tally quiet village eq_refl _)))) _).
  - apply (bool_decide_unpack _). vm_compute. exact I.
  - repeat constructor.
Defined.


(** ** The front of the command handler *)

Lemma is_space_white c : is_space c = true -> Js.is_white_space c = true.
Proof. intros H. apply Ascii.eqb_eq in H. by subst c. Qed.

Lemma skip_white_space_clean s : starts_with Js.is_white_space (Js.skip_white_space s) = false.
Proof.
  induction s as [|c s IH]; [done|]. cbn [Js.skip_white_space].
  destruct (Js.is_white_space c) eqn:E; [exact IH|]. cbn [starts_with]. exact E.
Qed.

Lemma trimEnd_clean s :
  ends_with Js.is_white_space (trimEnd s) = false
  /\ (starts_with Js.is_white_space s = false ->
      starts_with Js.is_white_space (trimEnd s) = false).
Proof.
  induction s as [|c s [IH1 IH2]]; [done|]. cbn [trimEnd].
  destruct (trimEnd s) as [|c' t] eqn:E.
  - destruct (Js.is_white_space c) eqn:W; [done|]. cbn. by rewrite W.
  - split; [exact IH1 | done].
Qed.

Lemma starts_with_weaken (p q : ascii -> bool) s :
  (forall c, p c = true -> q c = true) -> starts_with q s = false -> starts_with p s = false.
Proof.
  intros Hpq. destruct s as [|c s]; [done|]. cbn. intros Hq.
  destruct (p c) eqn:E; [|done]. apply Hpq in E. congruence.
Qed.

Lemma ends_with_weaken (p q : ascii -> bool) s :
  (forall c, p c = true -> q c = true) -> ends_with q s = false -> ends_with p s = false.
Proof.
  intros Hpq. induction s as [|c s IH]; [done|]. destruct s as [|c' s']; [|exact IH].
  cbn. intros Hq. destruct (p c) eqn:E; [|done]. apply Hpq in E. congruence.
Qed.

(** A trimmed text neither starts nor ends with a space. *)
Lemma trim_clean s : starts_with is_space (trim s) = false /\ ends_with is_space (trim s) = false.
Proof.
  unfold trim. destruct (trimEnd_clean (Js.skip_white_space s)) as [H1 H2]. split.
  - apply (starts_with_weaken _ _ _ is_space_white), H2, skip_white_space_clean.
  - by apply (ends_with_weaken _ _ _ is_space_white).
Qed.

Lemma split_spaces_cons s : exists t ts, split_spaces s = t :: ts.
Proof.
  induction s as [|c s (t & ts & IH)]; [by eexists _, _|]. cbn [split_spaces].
  destruct (is_space c).
  - destruct s as [|c' s']; [by eexists _, _|]. destruct (is_space c'); by eexists _, _.
  - rewrite IH. by eexists _, _.
Qed.

Lemma split_spaces_space_free s : Forall (fun t => space_free t = true) (split_spaces s).
Proof.
  induction s as [|c s IH]; [by repeat constructor|]. cbn [split_spaces].
  destruct (is_space c) eqn:E.
  - destruct s as [|c' s']; [by repeat constructor|].
    destruct (is_space c'); [exact IH | by constructor].
  - destruct (split_spaces s) as [|t ts]; [repeat constructor; cbn; by rewrite E|].
    apply Forall_cons in IH as [Ht Hts]. constructor; [|exact Hts]. cbn. by rewrite E, Ht.
Qed.

(** The pieces after the first are not empty when the text does not end
    with a space, and the first is not empty when the text has a first
    character that is not a space. *)
Lemma split_spaces_nonempty s t ts :
  split_spaces s = t :: ts ->
  (ends_with is_space s = false -> Forall (fun a => a ≠ EmptyString) ts)
  /\ (s ≠ EmptyString -> starts_with is_space s = false -> t ≠ EmptyString).
Proof.
  revert t ts. induction s as [|c s IH]; intros t ts; cbn [split_spaces].
  - intros [= <- <-]. by split.
  - destruct (is_space c) eqn:E.
    + intros H. split.
      2:{ intros _. cbn. by rewrite E. }
      destruct s as [|c' s'].
      { cbn. by rewrite E. }
      change (ends_with is_space (String c (String c' s')))
        with (ends_with is_space (String c' s')).
      intros Hend. destruct (is_space c') eqn:E'.
      * by apply (IH t ts H).
      * destruct (split_spaces_cons (String c' s')) as (t' & ts' & Hs).
        rewrite Hs in H. injection H as <- <-. destruct (IH t' ts' Hs) as [IH1 IH2].
        constructor; [|by apply IH1]. by apply IH2.
    + destruct (split_spaces_cons s) as (t' & ts' & Hs). rewrite Hs.
      intros [= <- <-]. split; [|done].
      destruct s as [|c' s']; [cbn in Hs; by simplify_eq|].
      change (ends_with is_space (String c (String c' s')))
        with (ends_with is_space (String c' s')).
      by apply (IH t' ts').
Qed.

Lemma lower_char_idemp c : lower_char (lower_char c) = lower_char c.
Proof. by destruct c as [[] [] [] [] [] [] [] []]. Qed.

Lemma lower_char_space c : is_space (lower_char c) = is_space c.
Proof. by destruct c as [[] [] [] [] [] [] [] []]. Qed.

Lemma toLowerCase_idemp s : toLowerCase (toLowerCase s) = toLowerCase s.
Proof. induction s as [|c s IH]; [done|]. cbn. by rewrite lower_char_idemp, IH. Qed.

Lemma toLowerCase_space_free s : space_free (toLowerCase s) = space_free s.
Proof. induction s as [|c s IH]; [done|]. cbn. by rewrite lower_char_space, IH. Qed.

Lemma route_unfold author bot content env s :
  route author bot content env s =
    if bot || negb (String.prefix PREFIX content) then (Normal Ignored, s)
    else
      let words := split_spaces (trim (slice (String.length PREFIX) content)) in
      let command := toLowerCase (hd EmptyString words) in
      let key := cooldown_key author command in
      let stamped := with_cooldowns (<[key := clock s]> (cooldowns s)) s in
      match cooldowns s !! key with
      | Some stamp =>
          if clock s <? stamp + COOLDOWN_TIME
          then (Normal (Waiting (inject_Z (stamp + COOLDOWN_TIME - clock s) / inject_Z 1000)%Q),
                s)
          else (Normal (Dispatched command (tl words)), stamped)
      | None => (Normal (Dispatched command (tl words)), stamped)
      end.
Proof.
  unfold route. destruct (bot || _); [done|]. cbn zeta.
  unfold mbind, M_bind. rewrite checkCooldown_unfold. cbn zeta.
  destruct (cooldowns s !! _) as [stamp|]; [|done].
  destruct (Z.ltb_spec (clock s) (stamp + COOLDOWN_TIME)) as [Hlt|]; [|done].
  assert (0 < inject_Z (stamp + COOLDOWN_TIME - clock s) / inject_Z 1000)%Q as Hpos
    by (apply seconds_left_positive; lia).
  destruct (Qeq_bool _ 0) eqn:E; [|done].
  apply Qeq_bool_iff in E. rewrite E in Hpos. by apply Qlt_irrefl in Hpos.
Qed.

(** X23.  The words of a command.  When the handler goes on to a command,
    the name of the command is in lower case and has no space in it, and
    the arguments are words without a space, none of them empty, in the
    case in which they were written; only the name can be the empty word,
    which it is when nothing but white space follows the prefix. *)
Theorem route_words author content env s command args :
  result (route author false content) env s = Normal (Dispatched command args) ->
  toLowerCase command = command
  /\ space_free command = true
  /\ Forall (fun a => a ≠ EmptyString /\ space_free a = true) args
  /\ (command = EmptyString <-> trim (slice (String.length PREFIX) content) = EmptyString)
  /\ exists first, split_spaces (trim (slice (String.length PREFIX) content)) = first :: args
                   /\ command = toLowerCase first.
Proof.
  unfold result. rewrite route_unfold. cbn [orb].
  destruct (negb _); [done|]. cbn zeta.
  set (text := trim (slice (String.length PREFIX) content)).
  destruct (split_spaces_cons text) as (first & rest & Hw). rewrite Hw. cbn [hd tl].
  intros Hres.
  assert (command = toLowerCase first /\ args = rest) as [-> ->].
  { destruct (cooldowns s !! _) as [stamp|]; [destruct (_ <? _)|]; cbn [fst] in Hres;
      by simplify_eq. }
  clear Hres.
  pose proof (split_spaces_space_free text) as Hfree. rewrite Hw in Hfree.
  apply Forall_cons in Hfree as [Hfirst Hrest].
  destruct (trim_clean (slice (String.length PREFIX) content)) as [Hstart Hend].
  fold text in Hstart, Hend.
  destruct (split_spaces_nonempty text first rest Hw) as [Hne Hhead].
  split; [apply toLowerCase_idemp|]. split; [by rewrite toLowerCase_space_free|].
  split; [|split; [|by exists first]].
  - specialize (Hne Hend). rewrite Forall_forall in Hne, Hrest |- *.
    intros a Ha. split; [by apply Hne | by apply Hrest].
  - split.
    + intros Hempty. destruct (decide (text = EmptyString)) as [|Htext]; [done|].
      destruct (Hhead Htext Hstart). by destruct first.
    + intros Htext. rewrite Htext in Hw. cbn in Hw. by simplify_eq.
Qed.

Lemma route_words_witness :
  result (route alice false "!CLEAR   5  Now  ") quiet village
  = Normal (Dispatched "clear" ["5"; "Now"]%string)
  /\ Forall (fun a => a ≠ EmptyString /\ space_free a = true) ["5"; "Now"]%string.
Proof.
  assert (result (route alice false "!CLEAR   5  Now  ") quiet village
          = Normal (Dispatched "clear" ["5"; "Now"]%string)) as H by reflexivity.
  split; [exact H|].
  exact (proj1 (proj2 (proj2 (route_words alice _ quiet village _ _ H)))).
Defined.

(** X24.  What the front of the handler does to the state.  A message of
    a bot, or one that does not start with the prefix, is ignored and
    changes nothing.  Any other message either is told to wait, for a
    positive time, and changes nothing, or goes on to its command having
    stamped the cooldown of its author for that command name with the
    time of the message, whether or not a command of that name exists;
    nothing else in the state changes, and the front never throws. *)
Theorem route_stamps_or_waits author bot content env s :
  let s' := exec (route author bot content) env s in
  match result (route author bot content) env s with
  | Thrown _ => False
  | Normal Ignored =>
      s' = s /\ (bot = true \/ String.prefix PREFIX content = false)
  | Normal (Waiting t) =>
      s' = s /\ (0 < t)%Q /\ bot = false /\ String.prefix PREFIX content = true
  | Normal (Dispatched command args) =>
      bot = false /\ String.prefix PREFIX content = true
      /\ s' = with_cooldowns (<[cooldown_key author command := clock s]> (cooldowns s)) s
      /\ exists t, result (route author bot content) env s' = Normal (Waiting t)
                   /\ (t == 3)%Q
  end.
Proof.
  cbn zeta. unfold exec, result. rewrite route_unfold.
  destruct bot; [cbn; by auto|]. cbn [orb].
  destruct (String.prefix PREFIX content) eqn:P; [|cbn; by auto]. cbn [negb]. cbn zeta.
  set (command := toLowerCase _).
  assert (forall s0, cooldowns s0 !! cooldown_key author command = Some (clock s0) ->
                     exists t, (route author false content env s0).1 = Normal (Waiting t)
                               /\ (t == 3)%Q) as Hagain.
  { intros s0 Hs0. rewrite route_unfold, P. cbn [orb negb]. cbn zeta. fold command.
    rewrite Hs0. unfold COOLDOWN_TIME.
    assert ((clock s0 <? clock s0 + 3000) = true) as -> by lia.
    cbn [fst]. eexists. split; [reflexivity|].
    assert (clock s0 + 3000 - clock s0 = 3000) as -> by lia. reflexivity. }
  destruct (cooldowns s !! cooldown_key author command) as [stamp|] eqn:Hentry.
  - destruct (Z.ltb_spec (clock s) (stamp + COOLDOWN_TIME)) as [Hlt|]; cbn [fst snd].
    + repeat split; try done. apply seconds_left_positive. lia.
    + repeat split; try done. apply Hagain. apply lookup_insert_eq.
  - cbn [fst snd]. repeat split; try done. apply Hagain. apply lookup_insert_eq.
Qed.

(** ** The timeout command *)

(** X25.  What the timeout command can ask for.  It asks for a timeout
    only with the permission and a mentioned member; the time it asks for
    is a whole number of minutes from 1 to 1440, in milliseconds, and it
    is ten minutes when the second argument is missing, is not a number
    or is zero; the reason it gives is never empty. *)
Theorem timeout_request_bounds can_moderate mention args member ms reason :
  timeout_request can_moderate mention args = TimeoutFor member ms reason ->
  can_moderate = true
  /\ mention = Some member
  /\ (exists minutes, 1 <= minutes <= 1440 /\ ms = minutes * 60000)
  /\ reason ≠ EmptyString
  /\ (Js.parseInt_arg (args !! 1%nat) = None \/ Js.parseInt_arg (args !! 1%nat) = Some 0 ->
      ms = 600000).
Proof.
  unfold timeout_request. destruct can_moderate; [|done]. cbn [negb].
  destruct mention as [m|]; [|done].
  set (duration := match Js.parseInt_arg (args !! 1%nat) with
                   | Some n => if n =? 0 then 10 else n
                   | None => 10
                   end).
  destruct (Z.ltb_spec duration 1), (Z.ltb_spec 1440 duration); cbn [orb]; try done.
  intros [= <- <- <-]. split; [done|]. split; [done|].
  split; [exists duration; split; lia|]. split.
  - by destruct (String.concat " " (drop 2 args)).
  - unfold duration. intros [-> | ->]; reflexivity.
Qed.

Lemma timeout_request_witness :
  timeout_request true (Some bob) ["@bob"; "soon"; "spam"; "again"]%string
  = TimeoutFor bob 600000 "spam again"
  /\ exists minutes, 1 <= minutes <= 1440 /\ 600000 = minutes * 60000.
Proof.
  assert (timeout_request true (Some bob) ["@bob"; "soon"; "spam"; "again"]%string
          = TimeoutFor bob 600000 "spam again") as H by reflexivity.
  split; [exact H|]. exact (proj1 (proj2 (proj2 (timeout_request_bounds _ _ _ _ _ _ H)))).
Defined.

(** ** The command and the endpoint side by side *)

Lemma capture_and_replace_result env u muteRole s0 :
  (capture_and_replace env u muteRole s0).1
  = if throws env (member_roles_set u [role_id muteRole])
    then Thrown (PlatformError (member_roles_set u [role_id muteRole]))
    else Normal (length (roles_but_everyone u s0)).
Proof. unfold capture_and_replace. cbn zeta. by destruct (throws env _). Qed.

(** The two ends on two states that agree with [s] on everything the
    shared statements read, and with each other on the roles of the
    guild. *)
Lemma mute_ends_agree env u muteRole s s1 s2 :
  mutedUserRoles s !! u = None ->
  kept_by_calls s1 = kept_by_calls s ->
  kept_by_calls s2 = kept_by_calls s ->
  guild_roles s1 = guild_roles s2 ->
  let c := mute_command_end env u (capture_and_replace env u muteRole s1) in
  let a := api_mute_end (capture_and_replace env u muteRole s2) in
  let fits := negb (throws env (embed_addFields "User Muted")) in
  (forall n, c.1 = Normal (Muted n) <-> a.1 = Normal (Success (Some n)) /\ fits = true)
  /\ (forall n, a.1 = Normal (Success (Some n)) ->
                member_roles c.2 = member_roles a.2
                /\ guild_roles c.2 = guild_roles a.2
                /\ if fits then mutedUserRoles c.2 = mutedUserRoles a.2
                   else c.1 = Normal MuteFailed
                        /\ mutedUserRoles c.2 = delete u (mutedUserRoles a.2)).
Proof.
  intros Hfree K1 K2 Hg. cbn zeta.
  pose proof (capture_and_replace_result env u muteRole s2) as R2.
  destruct (capture_and_replace_spec env u muteRole s2 s K2) as [L2 M2].
  destruct (capture_and_replace_guild env u muteRole s2) as (G2 & _).
  destruct (mute_command_end_spec env u muteRole s1 s K1 Hfree) as (G1 & _ & H).
  assert (roles_but_everyone u s2 = roles_but_everyone u s) as Hcap.
  { apply kept_by_calls_fields in K2 as (_ & A2 & B2).
    unfold roles_but_everyone, member_roles_cache. by rewrite A2, B2. }
  assert (delete u (<[u := roles_but_everyone u s]> (mutedUserRoles s)) = mutedUserRoles s)
    as Hback.
  { rewrite delete_insert_eq. by apply delete_id. }
  unfold api_mute_end.
  destruct (capture_and_replace env u muteRole s2) as [r2 t2].
  cbn [fst snd] in *. subst r2. rewrite Hcap.
  destruct (throws env (member_roles_set u [role_id muteRole])); cbn [fst snd].
  - destruct H as (Hr & _). rewrite Hr. split; [split; [done | by intros [? _]]|]. by intros n.
  - destruct M2 as [_ M2].
    destruct (throws env (embed_addFields "User Muted")); cbn [negb];
      destruct H as (Hr & Hl & Hm); rewrite Hr.
    + split; [split; [done | by intros [_ ?]]|]. intros n _.
      rewrite Hm, M2, G1, G2, Hl, L2, Hback. done.
    + split; [split; [by intros [= <-] | by intros [[= <-] _]]|]. intros n _.
      rewrite Hm, M2, G1, G2, Hl, L2. done.
Qed.

(** X26.  The endpoint mutes as the command does, the record for the
    audit channel aside.  For a member without an entry whom the platform
    can fetch, the command answers [Muted] exactly when the endpoint
    succeeds, with the same count, and the record can be built.  Whenever
    the endpoint succeeds both leave the same roles of the members and of
    the guild; they leave the same ledger when the record can be built,
    and otherwise the command, which then answers that the mute failed,
    leaves the ledger of the endpoint without the entry of the member. *)
Theorem api_mute_agrees_with_command env s u here rs :
  mutedUserRoles s !! u = None ->
  throws env (members_fetch u) = false ->
  member_roles s !! u = Some rs ->
  let sc := exec (mute_command true (Some u) here) env s in
  let sa := exec (api_mute u) env s in
  let fits := negb (throws env (embed_addFields "User Muted")) in
  (forall n, result (mute_command true (Some u) here) env s = Normal (Muted n)
             <-> result (api_mute u) env s = Normal (Success (Some n)) /\ fits = true)
  /\ (forall n, result (api_mute u) env s = Normal (Success (Some n)) ->
                member_roles sc = member_roles sa
                /\ guild_roles sc = guild_roles sa
                /\ if fits then mutedUserRoles sc = mutedUserRoles sa
                   else result (mute_command true (Some u) here) env s = Normal MuteFailed
                        /\ mutedUserRoles sc = delete u (mutedUserRoles sa)).
Proof.
  intros Hfree Hfetch Hmember. cbn zeta. unfold result, exec.
  rewrite (mute_command_unfold _ _ _ _ Hfree), (api_mute_unfold _ _ _ Hfree). cbn zeta.
  rewrite Hfetch, Hmember. cbn [negb].
  set (s0 := logged (members_fetch u) true (latency env (members_fetch u)) s).
  destruct (find_role named_Muted s) as [muteRole|].
  - by apply (mute_ends_agree env u muteRole s s s0).
  - destruct (throws env (roles_create "Muted")).
    { split; [split; [done | by intros [? _]]|]. by intros n. }
    apply (mute_ends_agree env u (new_Muted_role env) s); [exact Hfree|..].
    + change (kept_by_calls (logged ?c ?b ?d ?x)) with (kept_by_calls x).
      apply Muted_created_kept.
    + rewrite Muted_created_kept. done.
    + cbn [guild_roles logged].
      rewrite (proj1 (Muted_created_guild env s)), (proj1 (Muted_created_guild env s0)). done.
Qed.

Lemma api_mute_agrees_witness :
  member_roles (exec (mute_command true (Some carol) general) long_reason village)
  = member_roles (exec (api_mute carol) long_reason village)
  /\ mutedUserRoles (exec (mute_command true (Some carol) general) long_reason village)
     = delete carol (mutedUserRoles (exec (api_mute carol) long_reason village)).
Proof.
  destruct (proj2 (api_mute_agrees_with_command long_reason village carol general
                     [helper_role; reward_role] eq_refl eq_refl eq_refl) 2%nat)
    as (Hm & _ & H); [reflexivity|].
  split; [exact Hm|]. exact (proj2 H).
Defined.

(** X27.  The number of muted users that the status endpoint reports
    goes up by one with a mute that succeeds and down by one with an
    unmute that succeeds. *)
Theorem api_status_counts_muted :
  (forall env s u here n,
      mutedUserRoles s !! u = None ->
      result (mute_command true (Some u) here) env s = Normal (Muted n) ->
      mutedUsers (api_status (exec (mute_command true (Some u) here) env s))
      = S (mutedUsers (api_status s)))
  /\ (forall env s u n,
         result (unmute_command true (Some u)) env s = Normal (Unmuted n) ->
         S (mutedUsers (api_status (exec (unmute_command true (Some u)) env s)))
         = mutedUsers (api_status s)).
Proof.
  split.
  - intros env s u here n Hfree Hres.
    destruct (mute_command_success env s u here n Hfree Hres) as (_ & Hl & _).
    unfold api_status. cbn [mutedUsers]. rewrite Hl. by apply map_size_insert_None.
  - intros env s u n. unfold result, exec, api_status. cbn [mutedUsers].
    destruct (find_role named_Muted s) as [mr|] eqn:Hfind.
    2:{ unfold unmute_command, guild_roles_cache_find. run. cbn [negb].
        fold named_Muted. by rewrite Hfind. }
    destruct (mutedUserRoles s !! u) as [stored|] eqn:Hstored.
    2:{ unfold unmute_command, guild_roles_cache_find. run. cbn [negb].
        fold named_Muted. by rewrite Hfind, Hstored. }
    rewrite (unmute_command_unfold env s u stored mr Hfind Hstored). cbn zeta.
    destruct (throws env _); [done|]. intros _.
    cbn [snd mutedUserRoles with_mutedUserRoles].
    rewrite <- (insert_delete_id (mutedUserRoles s) u stored Hstored) at 2.
    symmetry. apply map_size_insert_None, lookup_delete_eq.
Qed.

Lemma api_status_counts_muted_witness :
  mutedUsers (api_status (exec (mute_command true (Some carol) general) quiet village)) = 1%nat.
Proof.
  refine (proj1 api_status_counts_muted quiet village carol general 2%nat _ _); reflexivity.
Defined.
